(** * Order workflow of the food marketplace backend

    A shallow embedding of the order routes (POST /api/orders,
    GET /api/orders/:id, PATCH /api/orders/:id/status), of the middleware
    they run behind (requireRole, asyncHandler, errorHandler) and of the
    part of the relational schema they touch.

    - JavaScript numbers are IEEE 754 binary64 values: primitive floats.
    - DECIMAL(10,2) columns are exact decimals, kept as an integer
      number of hundredths; a JavaScript number bound to such a column is
      converted as the server converts a DOUBLE.
    - INT and TEXT columns have their range and width; the server runs in
      strict SQL mode, its default, and refuses a value outside.
    - A table is the list of its rows; a WHERE clause is a filter.
    - The handlers are written in a state-and-exception monad over the
      connection (committed store, open transaction) and the socket
      outbox; a thrown exception keeps the state reached so far, as in
      JavaScript. *)

From Stdlib Require Import ZArith List String Ascii Bool Lia FinFun Permutation.
From Stdlib Require Import Floats.PrimFloat Floats.FloatOps Floats.SpecFloat.
Import ListNotations.

Set Warnings "-inexact-float".

Local Open Scope string_scope.
Local Open Scope list_scope.
Local Open Scope Z_scope.

(* ===================================================================== *)
(** * Definitions *)
(* ===================================================================== *)

(** ** JavaScript strings and number formatting *)

Module Js.

(** ['0' + d] for a decimal digit [d]. *)
Definition digit_char (d : Z) : ascii := ascii_of_nat (48 + Z.to_nat d).

Definition is_digit (c : ascii) : bool :=
  (48 <=? nat_of_ascii c)%nat && (nat_of_ascii c <=? 57)%nat.

Fixpoint all_digits (s : string) : bool :=
  match s with
  | EmptyString => true
  | String c s' => is_digit c && all_digits s'
  end.

(** Decimal digits of a non-negative integer, most significant first,
    pushed in front of [acc]. *)
Fixpoint digits_fuel (fuel : nat) (n : Z) (acc : string) : string :=
  match fuel with
  | O => acc
  | S f =>
      let acc' := String (digit_char (n mod 10)) acc in
      if n <? 10 then acc' else digits_fuel f (n / 10) acc'
  end.

(** [Number.prototype.toString()] on an integer (no exponent form below
    1e21, which covers timestamps and the random suffix). *)
Definition toString (n : Z) : string :=
  if n <? 0
  then String "-"%char (digits_fuel (S (Z.to_nat (Z.log2 (- n)))) (- n) "")
  else digits_fuel (S (Z.to_nat (Z.log2 n))) n "".

Fixpoint drop (n : nat) (s : string) : string :=
  match n, s with
  | O, _ => s
  | S n', String _ s' => drop n' s'
  | S _, EmptyString => EmptyString
  end.

(** [s.slice(-k)]: the last [k] characters, the whole string when it is
    shorter. *)
Definition slice_last (k : nat) (s : string) : string :=
  drop (String.length s - k) s.

Fixpoint repeat_char (c : ascii) (n : nat) : string :=
  match n with
  | O => EmptyString
  | S n' => String c (repeat_char c n')
  end.

(** [s.padStart(n, c)] for a one-character filler. *)
Definition padStart (n : nat) (c : ascii) (s : string) : string :=
  (repeat_char c (n - String.length s) ++ s)%string.

(** The [k] low decimal digits of [n], zero padded: what the last [k]
    characters of [toString n] are once [n] has [k] digits. *)
Fixpoint last_digits (k : nat) (n : Z) : string :=
  match k with
  | O => EmptyString
  | S k' =>
      (last_digits k' (n / 10) ++ String (digit_char (n mod 10)) EmptyString)%string
  end.

End Js.

(** ** Order numbers *)

(** [generateOrderNumber]: [now] is the reading of [Date.now()] and [rnd]
    the value of [Math.floor(Math.random() * 1000)]. *)
Definition generateOrderNumber (now rnd : Z) : string :=
  ("ORD-" ++ Js.slice_last 6 (Js.toString now)
          ++ Js.padStart 3 "0"%char (Js.toString rnd))%string.

(** The thousand values [0 .. 999] of the random suffix. *)
Definition suffixes : list Z := map Z.of_nat (seq 0 1000).

(** ** JavaScript numbers *)

Module Num.

Local Open Scope float_scope.

(** An integer as a JavaScript number: the nearest binary64 value. *)
Definition of_Z (z : Z) : float :=
  SF2Prim (binary_normalize prec emax z 0 false).

(** [parseFloat] on the text of a DECIMAL(10,2) value of [c] hundredths:
    the binary64 value nearest to [c / 100].  Both operands of the
    division are exact and IEEE division rounds to nearest. *)
Definition parseFloat (c : Z) : float := of_Z c / 100.

(** [parseFloat(x) || 0] on a nullable DECIMAL: NULL parses to NaN, and
    NaN and zero are falsy. *)
Definition parseFloat_or_zero (c : option Z) : float :=
  match c with
  | None => 0
  | Some c' =>
      let f := parseFloat c' in
      if is_nan f || is_zero f then 0 else f
  end.

End Num.

(** ** JavaScript numbers in DECIMAL(10,2) columns *)

Module Decimal.

(** The number of decimal digits of a positive integer. *)
Fixpoint ndigits_fuel (fuel : nat) (z : Z) : Z :=
  match fuel with
  | O => 1
  | S f => if z <? 10 then 1 else 1 + ndigits_fuel f (z / 10)
  end.

Definition ndigits (z : Z) : Z := ndigits_fuel (Z.to_nat (Z.log2 z)) z.

(** The decimal exponent [k] of a positive fraction:
    [10^k <= n / d < 10^(k+1)]. *)
Definition exponent (n d : Z) : Z :=
  if d <=? n then ndigits (n / d) - 1 else - ndigits ((d - 1) / n).

(** [n / d] rounded to an integer, a tie going to the even neighbour. *)
Definition round_half_even (n d : Z) : Z :=
  let q := n / d in
  match 2 * (n mod d) ?= d with
  | Lt => q
  | Gt => q + 1
  | Eq => if Z.even q then q else q + 1
  end.

(** [n / d] rounded to an integer, a tie going up. *)
Definition round_half_up (n d : Z) : Z := (2 * n + d) / (2 * d).

(** [m * 2^e] as a fraction of two positive integers. *)
Definition fraction (m e : Z) : Z * Z :=
  if 0 <=? e then (m * 2 ^ e, 1) else (m, 2 ^ (- e)).

(** The integer [c] for which [c * 10^q] is nearest to [n / d]. *)
Definition nearest (n d q : Z) : Z :=
  if 0 <=? q then round_half_even n (d * 10 ^ q)
  else round_half_even (n * 10 ^ (- q)) d.

(** The two half-way points around the binary64 value [m * 2^e], with
    their common denominator: the next value below is half as far when
    [m] is the least significand of its binade. *)
Definition halfway (m e : Z) : Z * Z * Z :=
  let below := if (m =? 2 ^ 52) && (-1074 <? e) then 1 else 2 in
  let (lo, den) := fraction (4 * m - below) (e - 2) in
  let (hi, _) := fraction (4 * m + 2) (e - 2) in
  (lo, hi, den).

(** The decimal [c * 10^q] reads back as [m * 2^e]: it lies between the
    half-way points, which count when [m] is even. *)
Definition reads_back (m e c q : Z) : bool :=
  let '(lo, hi, den) := halfway m e in
  let a := if 0 <=? q then c * 10 ^ q * den else c * den in
  let s := if 0 <=? q then 1 else 10 ^ (- q) in
  if Z.even m
  then (lo * s <=? a) && (a <=? hi * s)
  else (lo * s <? a) && (a <? hi * s).

(** The nearest decimal of [k] significant digits, for the least [k]
    for which it reads back; 17 digits always do. *)
Fixpoint shortest_from (fuel : nat) (m e n d ex k : Z) : Z * Z :=
  let q := ex - (k - 1) in
  let c := nearest n d q in
  match fuel with
  | O => (c, q)
  | S f => if reads_back m e c q then (c, q)
           else shortest_from f m e n d ex (k + 1)
  end.

(** The decimal the server prints a DOUBLE with, as [c * 10^q]. *)
Definition shortest (m e : Z) : Z * Z :=
  let (n, d) := fraction m e in
  shortest_from 16 m e n d (exponent n d) 1.

(** The hundredths of that decimal, rounded half up. *)
Definition hundredths (m e : Z) : Z :=
  let (c, q) := shortest m e in
  if -2 <=? q then c * 10 ^ (q + 2) else round_half_up c (10 ^ (- q - 2)).

(** A JavaScript number bound to a DECIMAL(10,2) column: the driver sends
    a DOUBLE, the server reads it as the shortest decimal that reads back
    as the same DOUBLE and rounds that decimal half up to two places; in
    strict SQL mode a value that needs more than eight integer digits, an
    infinity or a NaN is refused.  The result is in hundredths. *)
Definition of_number (x : float) : option Z :=
  match Prim2SF x with
  | S754_zero _ => Some 0
  | S754_finite s m e =>
      let h := hundredths (Z.pos m) e in
      if h <=? 9999999999 then Some (if s then - h else h) else None
  | _ => None
  end.

(** What the column holds of a number that fits. *)
Definition stored (x : float) : Z :=
  match of_number x with
  | Some h => h
  | None => 0
  end.

Definition fits (x : float) : bool :=
  match of_number x with
  | Some _ => true
  | None => false
  end.

End Decimal.

(** ** The relational schema (database/schema.sql) *)

Inductive user_type := customer | cook | admin.

Definition user_type_eqb (a b : user_type) : bool :=
  match a, b with
  | customer, customer | cook, cook | admin, admin => true
  | _, _ => false
  end.

(** orders.status ENUM *)
Inductive order_status :=
  | pending | confirmed | preparing | sent_to_delivery | delivered | cancelled.

Definition order_status_name (s : order_status) : string :=
  match s with
  | pending => "pending"
  | confirmed => "confirmed"
  | preparing => "preparing"
  | sent_to_delivery => "sent_to_delivery"
  | delivered => "delivered"
  | cancelled => "cancelled"
  end.

Definition all_statuses : list order_status :=
  [pending; confirmed; preparing; sent_to_delivery; delivered; cancelled].

Record user := {
  u_id : Z;
  u_first_name : string;
  u_last_name : string;
  u_user_type : user_type
}.

Record restaurant := {
  r_id : Z;
  r_cook_id : Z;
  r_name : string;
  r_is_active : bool;
  r_delivery_fee : option Z          (* DECIMAL(10,2), nullable *)
}.

Record food_item := {
  fi_id : Z;
  fi_restaurant_id : Z;
  fi_name : string;
  fi_price : Z;                      (* DECIMAL(10,2) NOT NULL *)
  fi_is_available : bool;            (* NULL reads as falsy *)
  fi_total_orders : Z
}.

Record cart_item := {
  ci_id : Z;
  ci_customer_id : Z;
  ci_food_item_id : Z;
  ci_quantity : Z
}.

(** A row of [orders]; the amounts are DECIMAL(10,2), in hundredths. *)
Record order := {
  o_id : Z;
  o_customer_id : Z;
  o_restaurant_id : Z;
  o_order_number : string;           (* UNIQUE *)
  o_status : order_status;           (* DEFAULT 'pending' *)
  o_total_amount : Z;
  o_delivery_fee : Z;
  o_tax_amount : Z;
  o_discount_amount : Z;             (* DEFAULT 0.00 *)
  o_final_amount : Z;
  o_payment_method : string;
  o_payment_status : string;         (* DEFAULT 'pending' *)
  o_delivery_address : string;
  o_special_instructions : option string;
  o_estimated_delivery_time : option Z;
  o_delivered_at : option Z
}.

Record order_item := {
  oi_order_id : Z;
  oi_food_item_id : Z;
  oi_quantity : Z;
  oi_unit_price : Z;                 (* the catalog DECIMAL, copied *)
  oi_total_price : Z;                (* DECIMAL(10,2) *)
  oi_special_requests : option string
}.

Record db := {
  users : list user;
  restaurants : list restaurant;
  food_items : list food_item;
  cart_items : list cart_item;
  orders : list order;
  order_items : list order_item
}.

Definition set_food_items (x : list food_item) (d : db) : db :=
  {| users := users d; restaurants := restaurants d; food_items := x;
     cart_items := cart_items d; orders := orders d;
     order_items := order_items d |}.

Definition set_cart_items (x : list cart_item) (d : db) : db :=
  {| users := users d; restaurants := restaurants d;
     food_items := food_items d; cart_items := x; orders := orders d;
     order_items := order_items d |}.

Definition set_orders (x : list order) (d : db) : db :=
  {| users := users d; restaurants := restaurants d;
     food_items := food_items d; cart_items := cart_items d; orders := x;
     order_items := order_items d |}.

Definition set_order_items (x : list order_item) (d : db) : db :=
  {| users := users d; restaurants := restaurants d;
     food_items := food_items d; cart_items := cart_items d;
     orders := orders d; order_items := x |}.

(** ** Exceptions, responses and events *)

(** A thrown JavaScript error, with the properties [errorHandler] reads. *)
Record exn := {
  e_name : string;
  e_message : string;
  e_code : option string;
  e_statusCode : option Z
}.

(** [new AppError(message, statusCode)] *)
Definition AppError (message : string) (statusCode : Z) : exn :=
  {| e_name := "Error"; e_message := message; e_code := None;
     e_statusCode := Some statusCode |}.

(** An error raised by the database driver, with its MySQL code. *)
Definition DriverError (code : string) : exn :=
  {| e_name := "Error"; e_message := code; e_code := Some code;
     e_statusCode := None |}.

(** An error thrown by the socket layer. *)
Definition EmitError : exn :=
  {| e_name := "Error"; e_message := "emit failed"; e_code := None;
     e_statusCode := None |}.

(** The error of the driver for an [undefined] bind parameter, thrown by
    [execute] before anything is sent to the server. *)
Definition BindError : exn :=
  {| e_name := "TypeError";
     e_message := "Bind parameters must not contain undefined. To pass SQL NULL specify JS null";
     e_code := None; e_statusCode := None |}.

Inductive result (A : Type) :=
  | Ok (a : A)
  | Throw (e : exn).
Arguments Ok {A} a.
Arguments Throw {A} e.

(** One row of [orders JOIN restaurants JOIN users]. *)
Definition order_view : Type := order * restaurant * user.

(** One row of [order_items JOIN food_items] ([oi.*, fi.name]). *)
Definition line_view : Type := order_item * string.

Inductive payload :=
  | ValidationFailed
  | OrderPlaced (o : option order_view) (items : list line_view)
  | OrderDetails (o : order_view) (items : list line_view)
  | StatusUpdated
  | Failure (message : string).

Record response := { statusCode : Z; body : payload }.

Inductive event_data :=
  | new_order (orderId : Z) (orderNumber customerName : string)
              (totalAmount : float) (itemCount : nat)
  | order_status_changed (orderId : Z) (status orderNumber : string).

(** [io.to(room).emit(...)] *)
Record event := { room : string; data : event_data }.

(** ** The environment of a request *)

(** The statements a handler sends to the database. *)
Inductive stmt :=
  | GetConnection
  | BeginTransaction
  | SelectRestaurant
  | SelectFoodItem (k : nat)
  | InsertOrder
  | InsertOrderItem (k : nat)
  | UpdateTotalOrders (k : nat)
  | DeleteCart
  | Commit
  | Rollback
  | SelectOrder
  | SelectOrderItems
  | SelectCookRestaurants
  | UpdateOrder.

(** What the handler does not control: the clock, the random source, the
    failures of the database driver (by statement, with the driver's
    error code) and of the socket layer. *)
Record env := {
  env_clock : nat -> Z;              (* successive readings of Date.now() *)
  env_random : nat -> Z;             (* successive Math.floor(Math.random() * 1000) *)
  env_fault : stmt -> option string;
  env_emit_throws : bool
}.

(** The connection taken from the pool ([store]: what every reader sees;
    [tx]: the working copy of the transaction that is open on it, if
    any), the socket outbox and the number of clock and random readings
    consumed. *)
Record world := {
  store : db;
  tx : option db;
  outbox : list event;
  clock_reads : nat;
  rng_reads : nat
}.

Definition initial (d : db) : world :=
  {| store := d; tx := None; outbox := []; clock_reads := 0%nat;
     rng_reads := 0%nat |}.

Definition set_store (d : db) (w : world) : world :=
  {| store := d; tx := tx w; outbox := outbox w;
     clock_reads := clock_reads w; rng_reads := rng_reads w |}.

Definition set_tx (t : option db) (w : world) : world :=
  {| store := store w; tx := t; outbox := outbox w;
     clock_reads := clock_reads w; rng_reads := rng_reads w |}.

(** ** The handler monad *)

Definition M (A : Type) : Type := world -> result A * world.

Definition ret {A} (a : A) : M A := fun w => (Ok a, w).

Definition throw {A} (e : exn) : M A := fun w => (Throw e, w).

Definition bind {A B} (m : M A) (k : A -> M B) : M B :=
  fun w =>
    match m w with
    | (Ok a, w') => k a w'
    | (Throw e, w') => (Throw e, w')
    end.

Notation "x <- m ;; k" := (bind m (fun x => k))
  (at level 61, m at next level, right associativity).
Notation "m ;; k" := (bind m (fun _ => k))
  (at level 61, right associativity).

(** [try { body } finally { cleanup }]: the cleanup runs on both exits
    and the outcome of the body stands unless the cleanup throws. *)
Definition finally {A} (body : M A) (cleanup : M unit) : M A :=
  fun w =>
    match body w with
    | (r, w') =>
        match cleanup w' with
        | (Ok _, w'') => (r, w'')
        | (Throw e, w'') => (Throw e, w'')
        end
    end.

(** [try { body } catch (error) { handler(error) }] *)
Definition try_catch {A} (body : M A) (handler : exn -> M A) : M A :=
  fun w =>
    match body w with
    | (Ok a, w') => (Ok a, w')
    | (Throw e, w') => handler e w'
    end.

Definition set_outbox (x : list event) (w : world) : world :=
  {| store := store w; tx := tx w; outbox := x;
     clock_reads := clock_reads w; rng_reads := rng_reads w |}.

(** [Date.now()] *)
Definition date_now (e : env) : M Z :=
  fun w =>
    (Ok (env_clock e (clock_reads w)),
     {| store := store w; tx := tx w; outbox := outbox w;
        clock_reads := S (clock_reads w); rng_reads := rng_reads w |}).

(** [Math.floor(Math.random() * 1000)] *)
Definition random_1000 (e : env) : M Z :=
  fun w =>
    (Ok (env_random e (rng_reads w)),
     {| store := store w; tx := tx w; outbox := outbox w;
        clock_reads := clock_reads w; rng_reads := S (rng_reads w) |}).

(** A call of [generateOrderNumber()]: one clock reading, then one
    random draw. *)
Definition generate_order_number (e : env) : M string :=
  timestamp <- date_now e ;;
  random <- random_1000 e ;;
  ret (generateOrderNumber timestamp random).

(** [io.to(room).emit(name, data)]: synchronous; when the socket layer
    throws, nothing is sent. *)
Definition emit (e : env) (ev : event) : M unit :=
  fun w =>
    if env_emit_throws e then (Throw EmitError, w)
    else (Ok tt, set_outbox (outbox w ++ [ev]) w).

(** ** The connection *)

(** What a statement on the connection reads: the working copy while a
    transaction is open, the committed store otherwise. *)
Definition conn_read (w : world) : db :=
  match tx w with
  | Some t => t
  | None => store w
  end.

Definition conn_write (d : db) (w : world) : world :=
  match tx w with
  | Some _ => set_tx (Some d) w
  | None => set_store d w
  end.

(** [connection.execute(sql, params)] *)
Definition connection_execute {A} (e : env) (s : stmt)
    (run : db -> result (A * db)) : M A :=
  fun w =>
    match env_fault e s with
    | Some code => (Throw (DriverError code), w)
    | None =>
        match run (conn_read w) with
        | Ok (a, d) => (Ok a, conn_write d w)
        | Throw x => (Throw x, w)
        end
    end.

(** [pool.execute(sql, params)]: on a connection of its own, outside any
    transaction. *)
Definition pool_execute {A} (e : env) (s : stmt)
    (run : db -> result (A * db)) : M A :=
  fun w =>
    match env_fault e s with
    | Some code => (Throw (DriverError code), w)
    | None =>
        match run (store w) with
        | Ok (a, d) => (Ok a, set_store d w)
        | Throw x => (Throw x, w)
        end
    end.

(** [pool.getConnection()]: the connection, in the state in which it
    was released. *)
Definition getConnection (e : env) : M unit :=
  fun w =>
    match env_fault e GetConnection with
    | Some code => (Throw (DriverError code), w)
    | None => (Ok tt, w)
    end.

(** [connection.release()]: the connection goes back to the pool. *)
Definition release : M unit := ret tt.

(** [connection.beginTransaction()]: START TRANSACTION commits a
    transaction that is still open, then opens one. *)
Definition beginTransaction (e : env) : M unit :=
  fun w =>
    match env_fault e BeginTransaction with
    | Some code => (Throw (DriverError code), w)
    | None => (Ok tt, set_tx (Some (conn_read w)) (set_store (conn_read w) w))
    end.

(** [connection.commit()]: the working copy becomes the store. *)
Definition commit (e : env) : M unit :=
  fun w =>
    match env_fault e Commit with
    | Some code => (Throw (DriverError code), w)
    | None =>
        match tx w with
        | Some t => (Ok tt, set_tx None (set_store t w))
        | None => (Ok tt, w)
        end
    end.

(** [connection.rollback()]: the working copy is dropped; nothing to do
    when no transaction is open. *)
Definition rollback (e : env) : M unit :=
  fun w =>
    match env_fault e Rollback with
    | Some code => (Throw (DriverError code), w)
    | None => (Ok tt, set_tx None w)
    end.

(** ** SQL statements of the order routes *)

(** An element of [orderItems], the array the creation handler fills:
    the price as the DECIMAL read from the catalog, the line total as the
    JavaScript number computed from it. *)
Record order_line := {
  ol_food_item_id : Z;
  ol_quantity : Z;
  ol_unit_price : Z;
  ol_total_price : float;
  ol_special_requests : option string
}.

Module Sql.

(** The values of an INT column. *)
Definition in_int (z : Z) : bool :=
  (-2147483648 <=? z) && (z <=? 2147483647).

(** A TEXT column holds 65535 bytes. *)
Definition text_fits (x : option string) : bool :=
  match x with
  | Some s => Z.of_nat (String.length s) <=? 65535
  | None => true
  end.

Definition select {R} (q : db -> list R) : db -> result (list R * db) :=
  fun d => Ok (q d, d).

Definition modify (f : db -> db) : db -> result (unit * db) :=
  fun d => Ok (tt, f d).

(** SELECT id, delivery_fee FROM restaurants
    WHERE id = ? AND is_active = true *)
Definition active_restaurant (restaurant_id : Z) (d : db) : list restaurant :=
  filter (fun r => (r_id r =? restaurant_id) && r_is_active r) (restaurants d).

(** SELECT id, name, price, is_available FROM food_items
    WHERE id = ? AND restaurant_id = ? *)
Definition food_item_of (food_item_id restaurant_id : Z) (d : db)
    : list food_item :=
  filter (fun f => (fi_id f =? food_item_id)
                   && (fi_restaurant_id f =? restaurant_id)) (food_items d).

(** AUTO_INCREMENT: an id above every id of the table. *)
Definition next_id (os : list order) : Z :=
  1 + fold_right Z.max 0 (map o_id os).

(** The four amounts of an order fit their DECIMAL(10,2) columns. *)
Definition amounts_fit (total_amount delivery_fee tax_amount final_amount
    : float) : bool :=
  Decimal.fits total_amount && Decimal.fits delivery_fee
  && Decimal.fits tax_amount && Decimal.fits final_amount.

(** INSERT INTO orders (customer_id, restaurant_id, order_number,
    total_amount, delivery_fee, tax_amount, final_amount, payment_method,
    delivery_address, special_instructions, estimated_delivery_time)
    The amounts are bound as JavaScript numbers and stored as
    DECIMAL(10,2), [special_instructions] is TEXT; a value that does not
    fit is refused.  The UNIQUE key on order_number rejects a duplicate
    with ER_DUP_ENTRY; the result is [insertId]. *)
Definition insert_order (customer_id restaurant_id : Z) (order_number : string)
    (total_amount delivery_fee tax_amount final_amount : float)
    (payment_method delivery_address : string)
    (special_instructions : option string) (estimated_delivery_time : Z)
    (d : db) : result (Z * db) :=
  if negb (amounts_fit total_amount delivery_fee tax_amount final_amount)
  then Throw (DriverError "ER_WARN_DATA_OUT_OF_RANGE")
  else if negb (text_fits special_instructions)
  then Throw (DriverError "ER_DATA_TOO_LONG")
  else if existsb (fun o => String.eqb (o_order_number o) order_number) (orders d)
  then Throw (DriverError "ER_DUP_ENTRY")
  else
    let id := next_id (orders d) in
    Ok (id,
        set_orders
          (orders d ++
           [{| o_id := id;
               o_customer_id := customer_id;
               o_restaurant_id := restaurant_id;
               o_order_number := order_number;
               o_status := pending;
               o_total_amount := Decimal.stored total_amount;
               o_delivery_fee := Decimal.stored delivery_fee;
               o_tax_amount := Decimal.stored tax_amount;
               o_discount_amount := 0;
               o_final_amount := Decimal.stored final_amount;
               o_payment_method := payment_method;
               o_payment_status := "pending";
               o_delivery_address := delivery_address;
               o_special_instructions := special_instructions;
               o_estimated_delivery_time := Some estimated_delivery_time;
               o_delivered_at := None |}]) d).

(** The row of [order_items] for an element of [orderItems]. *)
Definition order_item_row (orderId : Z) (item : order_line) : order_item :=
  {| oi_order_id := orderId;
     oi_food_item_id := ol_food_item_id item;
     oi_quantity := ol_quantity item;
     oi_unit_price := ol_unit_price item;
     oi_total_price := Decimal.stored (ol_total_price item);
     oi_special_requests := ol_special_requests item |}.

(** INSERT INTO order_items (order_id, food_item_id, quantity, unit_price,
    total_price, special_requests)
    [quantity] is INT, [total_price] is bound as a JavaScript number and
    stored as DECIMAL(10,2), [special_requests] is TEXT; a value that does
    not fit is refused. *)
Definition insert_order_item (orderId : Z) (item : order_line) (d : db)
    : result (unit * db) :=
  if negb (in_int (ol_quantity item) && Decimal.fits (ol_total_price item))
  then Throw (DriverError "ER_WARN_DATA_OUT_OF_RANGE")
  else if negb (text_fits (ol_special_requests item))
  then Throw (DriverError "ER_DATA_TOO_LONG")
  else Ok (tt, set_order_items
                 (order_items d ++ [order_item_row orderId item]) d).

(** The counters after [total_orders = total_orders + ?] on the rows of
    an id. *)
Definition raised_total_orders (quantity food_item_id : Z) (d : db) : db :=
  set_food_items
    (map (fun f =>
            if fi_id f =? food_item_id
            then {| fi_id := fi_id f;
                    fi_restaurant_id := fi_restaurant_id f;
                    fi_name := fi_name f;
                    fi_price := fi_price f;
                    fi_is_available := fi_is_available f;
                    fi_total_orders := fi_total_orders f + quantity |}
            else f) (food_items d)) d.

(** No counter of that id leaves the INT range. *)
Definition counter_fits (quantity food_item_id : Z) (d : db) : bool :=
  forallb (fun f => negb (fi_id f =? food_item_id)
                    || in_int (fi_total_orders f + quantity)) (food_items d).

(** UPDATE food_items SET total_orders = total_orders + ? WHERE id = ?
    [total_orders] is INT; a sum outside its range is refused. *)
Definition add_total_orders (quantity food_item_id : Z) (d : db)
    : result (unit * db) :=
  if counter_fits quantity food_item_id d
  then Ok (tt, raised_total_orders quantity food_item_id d)
  else Throw (DriverError "ER_WARN_DATA_OUT_OF_RANGE").

(** Whether the join [cart_items ci JOIN food_items fi ON ci.food_item_id
    = fi.id] has a row for [ci] with [ci.customer_id = ? AND
    fi.restaurant_id = ?]. *)
Definition in_cart_of (customer_id restaurant_id : Z) (d : db)
    (ci : cart_item) : bool :=
  (ci_customer_id ci =? customer_id)
  && existsb (fun f => (fi_id f =? ci_food_item_id ci)
                       && (fi_restaurant_id f =? restaurant_id))
             (food_items d).

(** DELETE ci FROM cart_items ci JOIN food_items fi
    ON ci.food_item_id = fi.id
    WHERE ci.customer_id = ? AND fi.restaurant_id = ? *)
Definition delete_cart (customer_id restaurant_id : Z) (d : db) : db :=
  set_cart_items
    (filter (fun ci => negb (in_cart_of customer_id restaurant_id d ci))
            (cart_items d)) d.

(** SELECT o.*, restaurant, customer FROM orders o
    JOIN restaurants r ON o.restaurant_id = r.id
    JOIN users u ON o.customer_id = u.id WHERE o.id = ? *)
Definition order_views (orderId : Z) (d : db) : list order_view :=
  flat_map
    (fun o =>
       flat_map
         (fun r =>
            map (fun u => (o, r, u))
                (filter (fun u => u_id u =? o_customer_id o) (users d)))
         (filter (fun r => r_id r =? o_restaurant_id o) (restaurants d)))
    (filter (fun o => o_id o =? orderId) (orders d)).

(** SELECT oi.*, fi.name, fi.image FROM order_items oi
    JOIN food_items fi ON oi.food_item_id = fi.id WHERE oi.order_id = ?
    (the image column is not part of the model) *)
Definition line_views (orderId : Z) (d : db) : list line_view :=
  flat_map
    (fun oi =>
       map (fun f => (oi, fi_name f))
           (filter (fun f => fi_id f =? oi_food_item_id oi) (food_items d)))
    (filter (fun oi => oi_order_id oi =? orderId) (order_items d)).

(** SELECT * FROM orders WHERE id = ? *)
Definition order_by_id (orderId : Z) (d : db) : list order :=
  filter (fun o => o_id o =? orderId) (orders d).

(** SELECT id FROM restaurants WHERE cook_id = ? *)
Definition restaurants_of_cook (cook_id : Z) (d : db) : list restaurant :=
  filter (fun r => r_cook_id r =? cook_id) (restaurants d).

(** UPDATE orders SET status = ? [, delivered_at = ?] WHERE id = ?
    The SET clause has the keys of [updateData]: always [status], and
    [delivered_at] only when it was put there. *)
Definition update_order (orderId : Z) (status : order_status)
    (delivered_at : option Z) (d : db) : db :=
  set_orders
    (map (fun o =>
            if o_id o =? orderId
            then {| o_id := o_id o;
                    o_customer_id := o_customer_id o;
                    o_restaurant_id := o_restaurant_id o;
                    o_order_number := o_order_number o;
                    o_status := status;
                    o_total_amount := o_total_amount o;
                    o_delivery_fee := o_delivery_fee o;
                    o_tax_amount := o_tax_amount o;
                    o_discount_amount := o_discount_amount o;
                    o_final_amount := o_final_amount o;
                    o_payment_method := o_payment_method o;
                    o_payment_status := o_payment_status o;
                    o_delivery_address := o_delivery_address o;
                    o_special_instructions := o_special_instructions o;
                    o_estimated_delivery_time := o_estimated_delivery_time o;
                    o_delivered_at :=
                      match delivered_at with
                      | Some t => Some t
                      | None => o_delivered_at o
                      end |}
            else o) (orders d)) d.

End Sql.

(** ** Middleware *)

Definition code_is (err : exn) (code : string) : bool :=
  match e_code err with
  | Some c => String.eqb c code
  | None => false
  end.

(** [errorHandler]: the branches run in this order, a later one
    overriding an earlier one.  The [ValidationError] branch reads
    [err.errors], which no exception of these routes carries; it is left
    out. *)
Definition errorHandler (err : exn) : response :=
  let error := err in
  let error :=
    if code_is err "ER_DUP_ENTRY"
    then AppError "Duplicate field value entered" 400 else error in
  let error :=
    if code_is err "ER_NO_REFERENCED_ROW_2"
    then AppError "Invalid reference - related record not found" 400
    else error in
  let error :=
    if code_is err "ER_PARSE_ERROR"
    then AppError "Database query error" 500 else error in
  let error :=
    if String.eqb (e_name err) "JsonWebTokenError"
    then AppError "Invalid token" 401 else error in
  let error :=
    if String.eqb (e_name err) "TokenExpiredError"
    then AppError "Token expired" 401 else error in
  let error :=
    if code_is err "LIMIT_FILE_SIZE"
    then AppError "File too large" 400 else error in
  let error :=
    if code_is err "LIMIT_UNEXPECTED_FILE"
    then AppError "Unexpected field in file upload" 400 else error in
  {| statusCode :=
       match e_statusCode error with
       | Some c => if c =? 0 then 500 else c
       | None => 500
       end;
     body :=
       Failure (if String.eqb (e_message error) ""
                then "Internal server error" else e_message error) |}.

(** [asyncHandler(fn)]: a rejection goes to [next], that is to
    [errorHandler]. *)
Definition asyncHandler (fn : M response) : world -> response * world :=
  fun w =>
    match fn w with
    | (Ok r, w') => (r, w')
    | (Throw err, w') => (errorHandler err, w')
    end.

(** [requireRole(...roles)] in front of a handler, for an authenticated
    user. *)
Definition requireRole (roles : list user_type) (u : user)
    (next : world -> response * world) : world -> response * world :=
  fun w =>
    if negb (existsb (user_type_eqb (u_user_type u)) roles)
    then ({| statusCode := 403; body := Failure "Insufficient permissions" |}, w)
    else next w.

(** ** POST /api/orders *)

(** A line of the body; [special_requests] is [None] when the field is
    left out or [null]: the handler reads it as
    [item.special_requests || null], so both are bound as SQL NULL. *)
Record item_request := {
  food_item_id : Z;
  quantity : Z;
  special_requests : option string
}.

(** A field of the body that no validator looks at: left out (it is
    [undefined] once destructured), [null], or a text, which is what
    clients send (another JSON value is not part of the model). *)
Inductive field :=
  | missing
  | null
  | text (s : string).

(** The request body, integer fields already read as integers (a value
    that is not an integer fails [isInt] like one below the minimum);
    [delivery_address] is the JSON text of the object, [None] when the
    field is not an object. *)
Record order_request := {
  restaurant_id : Z;
  items : list item_request;
  delivery_address : option string;
  payment_method : string;
  special_instructions : field
}.

(** A value of the body as a bind parameter of [execute]: the driver
    throws on [undefined]; [null] is SQL NULL. *)
Definition bound {A} (x : field) (k : option string -> M A) : M A :=
  match x with
  | missing => throw BindError
  | null => k None
  | text s => k (Some s)
  end.

(** The express-validator chain of the route. *)
Definition valid_order_request (b : order_request) : bool :=
  (1 <=? restaurant_id b)
  && negb (Nat.eqb (List.length (items b)) 0)
  && forallb (fun i => 1 <=? food_item_id i) (items b)
  && forallb (fun i => 1 <=? quantity i) (items b)
  && (match delivery_address b with Some _ => true | None => false end)
  && existsb (String.eqb (payment_method b)) ["cash"; "card"; "upi"; "wallet"].

Definition dquote : string := String (ascii_of_nat 34) EmptyString.

(** [x || null] on an optional string: the empty string is falsy. *)
Definition or_null (x : option string) : option string :=
  match x with
  | Some EmptyString => None
  | _ => x
  end.

(** The loop [for (const item of items)] that validates each line and
    accumulates [totalAmount] and [orderItems]; [k] is the index of the
    line. *)
Fixpoint validate_items (e : env) (restaurant_id : Z) (k : nat)
    (items : list item_request) (totalAmount : float)
    (orderItems : list order_line) : M (float * list order_line) :=
  match items with
  | [] => ret (totalAmount, orderItems)
  | item :: rest =>
      foodItems <- connection_execute e (SelectFoodItem k)
        (Sql.select (Sql.food_item_of (food_item_id item) restaurant_id)) ;;
      match foodItems with
      | [] =>
          throw (AppError ("Food item " ++ Js.toString (food_item_id item)
                           ++ " not found")%string 404)
      | foodItem :: _ =>
          if negb (fi_is_available foodItem)
          then throw (AppError ("Food item " ++ dquote ++ fi_name foodItem
                                ++ dquote ++ " is not available")%string 400)
          else
            let itemTotal :=
              (Num.parseFloat (fi_price foodItem)
               * Num.of_Z (quantity item))%float in
            validate_items e restaurant_id (S k) rest
              (totalAmount + itemTotal)%float
              (orderItems ++
               [{| ol_food_item_id := food_item_id item;
                   ol_quantity := quantity item;
                   ol_unit_price := fi_price foodItem;
                   ol_total_price := itemTotal;
                   ol_special_requests := or_null (special_requests item) |}])
      end
  end.

(** The loop [for (const item of orderItems)]: insert the line, then
    raise the item's order count. *)
Fixpoint insert_items (e : env) (orderId : Z) (k : nat)
    (orderItems : list order_line) : M unit :=
  match orderItems with
  | [] => ret tt
  | item :: rest =>
      connection_execute e (InsertOrderItem k)
        (Sql.insert_order_item orderId item) ;;
      connection_execute e (UpdateTotalOrders k)
        (Sql.add_total_orders (ol_quantity item) (ol_food_item_id item)) ;;
      insert_items e orderId (S k) rest
  end.

(** What the statements after the commit still need. *)
Record staged := {
  st_orderId : Z;
  st_orderNumber : string;
  st_finalAmount : float
}.

(** The [try] block up to the cart cleanup: every statement before
    [connection.commit()]. *)
Definition stage_order (e : env) (u : user) (b : order_request)
    (address : string) : M staged :=
  let customer_id := u_id u in
  restaurants <- connection_execute e SelectRestaurant
    (Sql.select (Sql.active_restaurant (restaurant_id b))) ;;
  match restaurants with
  | [] => throw (AppError "Restaurant not found or inactive" 404)
  | restaurant :: _ =>
      r <- validate_items e (restaurant_id b) 0 (items b) 0%float [] ;;
      let totalAmount := fst r in
      let orderItems := snd r in
      let deliveryFee := Num.parseFloat_or_zero (r_delivery_fee restaurant) in
      let taxAmount := (totalAmount * 0.05)%float in
      let finalAmount := (totalAmount + deliveryFee + taxAmount)%float in
      orderNumber <- generate_order_number e ;;
      now <- date_now e ;;
      orderId <- bound (special_instructions b) (fun special_instructions =>
        connection_execute e InsertOrder
          (Sql.insert_order customer_id (restaurant_id b) orderNumber
             totalAmount deliveryFee taxAmount finalAmount (payment_method b)
             address special_instructions (now + 45 * 60000))) ;;
      insert_items e orderId 0 orderItems ;;
      connection_execute e DeleteCart
        (Sql.modify (Sql.delete_cart customer_id (restaurant_id b))) ;;
      ret {| st_orderId := orderId; st_orderNumber := orderNumber;
             st_finalAmount := finalAmount |}
  end.

(** The whole [try] block: the staged writes, the commit, the two
    SELECTs that build the answer, the socket notification and the
    response. *)
Definition place_order (e : env) (u : user) (b : order_request)
    (address : string) : M response :=
  s <- stage_order e u b address ;;
  commit e ;;
  orders <- connection_execute e SelectOrder
    (Sql.select (Sql.order_views (st_orderId s))) ;;
  items_data <- connection_execute e SelectOrderItems
    (Sql.select (Sql.line_views (st_orderId s))) ;;
  emit e {| room := ("restaurant_" ++ Js.toString (restaurant_id b))%string;
            data := new_order (st_orderId s) (st_orderNumber s)
                      (u_first_name u ++ " " ++ u_last_name u)%string
                      (st_finalAmount s) (List.length (items b)) |} ;;
  ret {| statusCode := 201;
         body := OrderPlaced (hd_error orders) items_data |}.

(** The handler of the route: validation result, connection and
    transaction, then [try] / [catch] with rollback and rethrow /
    [finally] with the release of the connection. *)
Definition create_order (e : env) (u : user) (b : order_request) : M response :=
  match valid_order_request b, delivery_address b with
  | true, Some address =>
      getConnection e ;;
      beginTransaction e ;;
      finally (try_catch (place_order e u b address)
                         (fun error => rollback e ;; throw error))
              release
  | _, _ => ret {| statusCode := 400; body := ValidationFailed |}
  end.

(** router.post('/', authenticateToken, requireCustomer, ..., asyncHandler) *)
Definition post_orders (e : env) (u : user) (b : order_request)
    : world -> response * world :=
  requireRole [customer] u (asyncHandler (create_order e u b)).

(** ** GET /api/orders/:id *)

Definition get_order (e : env) (u : user) (orderId : Z) : M response :=
  orders <- pool_execute e SelectOrder (Sql.select (Sql.order_views orderId)) ;;
  match orders with
  | [] => throw (AppError "Order not found" 404)
  | view :: _ =>
      let order := fst (fst view) in
      if user_type_eqb (u_user_type u) customer
         && negb (o_customer_id order =? u_id u)
      then throw (AppError "Unauthorized to view this order" 403)
      else
        (if user_type_eqb (u_user_type u) cook
         then
           restaurants <- pool_execute e SelectCookRestaurants
             (Sql.select (Sql.restaurants_of_cook (u_id u))) ;;
           match restaurants with
           | [] => throw (AppError "Unauthorized to view this order" 403)
           | r :: _ =>
               if negb (o_restaurant_id order =? r_id r)
               then throw (AppError "Unauthorized to view this order" 403)
               else ret tt
           end
         else ret tt) ;;
        items <- pool_execute e SelectOrderItems
          (Sql.select (Sql.line_views orderId)) ;;
        ret {| statusCode := 200; body := OrderDetails view items |}
  end.

(** router.get('/:id', authenticateToken, asyncHandler) *)
Definition get_orders_id (e : env) (u : user) (orderId : Z)
    : world -> response * world :=
  asyncHandler (get_order e u orderId).

(** ** PATCH /api/orders/:id/status *)

(** [isIn] over the six status names, with the ENUM value the name
    stands for. *)
Definition status_of_name (s : string) : option order_status :=
  find (fun st => String.eqb s (order_status_name st)) all_statuses.

Definition update_status (e : env) (u : user) (orderId : Z) (status : string)
    : M response :=
  match status_of_name status with
  | None => ret {| statusCode := 400; body := ValidationFailed |}
  | Some st =>
      orders <- pool_execute e SelectOrder (Sql.select (Sql.order_by_id orderId)) ;;
      match orders with
      | [] => throw (AppError "Order not found" 404)
      | order :: _ =>
          match u_user_type u with
          | cook =>
              restaurants <- pool_execute e SelectCookRestaurants
                (Sql.select (Sql.restaurants_of_cook (u_id u))) ;;
              match restaurants with
              | [] => throw (AppError "Unauthorized to update this order" 403)
              | r :: _ =>
                  if negb (o_restaurant_id order =? r_id r)
                  then throw (AppError "Unauthorized to update this order" 403)
                  else ret tt
              end
          | admin => ret tt
          | customer => throw (AppError "Insufficient permissions" 403)
          end ;;
          delivered_at <-
            (if String.eqb status "delivered"
             then now <- date_now e ;; ret (Some now)
             else ret None) ;;
          pool_execute e UpdateOrder
            (Sql.modify (Sql.update_order orderId st delivered_at)) ;;
          emit e {| room := ("user_" ++ Js.toString (o_customer_id order))%string;
                    data := order_status_changed orderId status
                              (o_order_number order) |} ;;
          ret {| statusCode := 200; body := StatusUpdated |}
      end
  end.

(** router.patch('/:id/status', authenticateToken, ..., asyncHandler) *)
Definition patch_orders_id_status (e : env) (u : user) (orderId : Z)
    (status : string) : world -> response * world :=
  asyncHandler (update_status e u orderId status).

(** ** The pricing engine, as the specification words it *)

Module Pricing.

Local Open Scope float_scope.

(** A priced line: unit price in hundredths and quantity. *)
Definition line : Type := (Z * Z)%type.

Definition line_total (l : line) : float :=
  Num.parseFloat (fst l) * Num.of_Z (snd l).

(** subtotal = sum of unit_price_i * quantity_i, in line order *)
Definition subtotal (lines : list line) : float :=
  fold_left (fun acc l => acc + line_total l) lines 0.

(** taxAmount = subtotal * tax_rate, the rate being 5 percent *)
Definition taxAmount (lines : list line) : float := subtotal lines * 0.05.

(** finalAmount = subtotal + deliveryFee + taxAmount *)
Definition finalAmount (lines : list line) (deliveryFee : option Z) : float :=
  subtotal lines + Num.parseFloat_or_zero deliveryFee + taxAmount lines.

End Pricing.

(** ** What a committed creation writes *)

(** PUT /api/food/:id with a [price] field:
    UPDATE food_items SET price = ? WHERE id = ? *)
Definition set_price (food_item_id price : Z) (d : db) : db :=
  set_food_items
    (map (fun f =>
            if fi_id f =? food_item_id
            then {| fi_id := fi_id f;
                    fi_restaurant_id := fi_restaurant_id f;
                    fi_name := fi_name f;
                    fi_price := price;
                    fi_is_available := fi_is_available f;
                    fi_total_orders := fi_total_orders f |}
            else f) (food_items d)) d.

(** The catalog row a requested line resolves to. *)
Definition catalog_item (d : db) (rid : Z) (i : item_request)
    : option food_item :=
  hd_error (Sql.food_item_of (food_item_id i) rid d).

(** The line is on the menu of the restaurant and available. *)
Definition orderable (d : db) (rid : Z) (i : item_request) : bool :=
  match catalog_item d rid i with
  | Some f => fi_is_available f
  | None => false
  end.

Definition draft_line (i : item_request) (f : food_item) : order_line :=
  {| ol_food_item_id := food_item_id i;
     ol_quantity := quantity i;
     ol_unit_price := fi_price f;
     ol_total_price :=
       (Num.parseFloat (fi_price f) * Num.of_Z (quantity i))%float;
     ol_special_requests := or_null (special_requests i) |}.

Definition draft_lines (d : db) (rid : Z) (items : list item_request)
    : list order_line :=
  flat_map (fun i => match catalog_item d rid i with
                     | Some f => [draft_line i f]
                     | None => []
                     end) items.

Definition order_total (lines : list order_line) (start : float) : float :=
  fold_left (fun acc l => (acc + ol_total_price l)%float) lines start.

(** The priced lines of a request: catalog unit price and quantity. *)
Definition priced_lines (d : db) (b : order_request) : list Pricing.line :=
  map (fun l => (ol_unit_price l, ol_quantity l))
      (draft_lines d (restaurant_id b) (items b)).

(** The delivery fee of the restaurant of a request. *)
Definition fee_of (d : db) (b : order_request) : option Z :=
  match Sql.active_restaurant (restaurant_id b) d with
  | r :: _ => r_delivery_fee r
  | [] => None
  end.

(** The two statements of a line, when both go through. *)
Definition write_line (orderId : Z) (item : order_line) (d : db) : db :=
  Sql.raised_total_orders (ol_quantity item) (ol_food_item_id item)
    (set_order_items
       (order_items d ++ [Sql.order_item_row orderId item]) d).

Definition write_lines (orderId : Z) (lines : list order_line) (d : db) : db :=
  fold_left (fun d item => write_line orderId item d) lines d.

(** What a line binds fits its columns, and the counter of its item
    stays an INT. *)
Definition line_fits (item : order_line) (d : db) : bool :=
  Sql.in_int (ol_quantity item) && Decimal.fits (ol_total_price item)
  && Sql.text_fits (ol_special_requests item)
  && Sql.counter_fits (ol_quantity item) (ol_food_item_id item) d.

(** Every line fits, each on the store that the lines before it left. *)
Fixpoint lines_fit (orderId : Z) (lines : list order_line) (d : db) : bool :=
  match lines with
  | [] => true
  | item :: rest =>
      line_fits item d && lines_fit orderId rest (write_line orderId item d)
  end.

(** The amounts the handler computes for a request: [totalAmount],
    [deliveryFee], [taxAmount] and [finalAmount]. *)
Definition computed_total (d : db) (b : order_request) : float :=
  order_total (draft_lines d (restaurant_id b) (items b)) 0.

Definition computed_fee (d : db) (b : order_request) : float :=
  Num.parseFloat_or_zero (fee_of d b).

Definition computed_tax (d : db) (b : order_request) : float :=
  (computed_total d b * 0.05)%float.

Definition computed_final (d : db) (b : order_request) : float :=
  (computed_total d b + computed_fee d b + computed_tax d b)%float.

(** The text a field of the body stores. *)
Definition text_of (x : field) : option string :=
  match x with
  | text s => Some s
  | _ => None
  end.

(** The Order row of a creation served on a fresh connection: first
    clock reading and first draw for the number, second clock reading
    for the estimate; the amounts as the DECIMAL(10,2) columns hold
    them. *)
Definition placed_order (e : env) (u : user) (b : order_request) (d : db)
    : order :=
  {| o_id := Sql.next_id (orders d);
     o_customer_id := u_id u;
     o_restaurant_id := restaurant_id b;
     o_order_number := generateOrderNumber (env_clock e 0) (env_random e 0);
     o_status := pending;
     o_total_amount := Decimal.stored (computed_total d b);
     o_delivery_fee := Decimal.stored (computed_fee d b);
     o_tax_amount := Decimal.stored (computed_tax d b);
     o_discount_amount := 0;
     o_final_amount := Decimal.stored (computed_final d b);
     o_payment_method := payment_method b;
     o_payment_status := "pending";
     o_delivery_address :=
       match delivery_address b with Some a => a | None => "" end;
     o_special_instructions := text_of (special_instructions b);
     o_estimated_delivery_time := Some (env_clock e 1 + 45 * 60000);
     o_delivered_at := None |}.

(** The store after a committed creation: the Order row, the lines and
    the counters, the cart cleanup. *)
Definition placed (e : env) (u : user) (b : order_request) (d : db) : db :=
  let o := placed_order e u b d in
  Sql.delete_cart (u_id u) (restaurant_id b)
    (write_lines (o_id o) (draft_lines d (restaurant_id b) (items b))
       (set_orders (orders d ++ [o]) d)).

Definition no_fault (e : env) (l : list stmt) : bool :=
  forallb (fun s => match env_fault e s with None => true | Some _ => false end) l.

(** The statements of a creation of [n] lines, up to the commit. *)
Definition staging_stmts (n : nat) : list stmt :=
  [SelectRestaurant] ++ map SelectFoodItem (seq 0 n) ++ [InsertOrder]
  ++ flat_map (fun k => [InsertOrderItem k; UpdateTotalOrders k]) (seq 0 n)
  ++ [DeleteCart].

(** The generated order number is already taken. *)
Definition collides (e : env) (d : db) : bool :=
  existsb (fun o => String.eqb (o_order_number o)
                      (generateOrderNumber (env_clock e 0) (env_random e 0)))
          (orders d).

(** The validation steps of a creation pass. *)
Definition passes_validation (b : order_request) (d : db) : bool :=
  negb (Nat.eqb (List.length (Sql.active_restaurant (restaurant_id b) d)) 0)
  && forallb (orderable d (restaurant_id b)) (items b).

(** Every parameter of the INSERT of the order is bound (the body has a
    [special_instructions] field, be it [null]) and every value fits its
    column; the same for the lines. *)
Definition order_fits (b : order_request) (d : db) : bool :=
  (match special_instructions b with missing => false | _ => true end)
  && Sql.amounts_fit (computed_total d b) (computed_fee d b)
                     (computed_tax d b) (computed_final d b)
  && Sql.text_fits (text_of (special_instructions b)).

Definition fits (e : env) (u : user) (b : order_request) (d : db) : bool :=
  order_fits b d
  && lines_fit (Sql.next_id (orders d))
       (draft_lines d (restaurant_id b) (items b))
       (set_orders (orders d ++ [placed_order e u b d]) d).

(** Everything up to and including the commit goes through. *)
Definition commits (e : env) (u : user) (b : order_request) (d : db) : bool :=
  user_type_eqb (u_user_type u) customer
  && valid_order_request b
  && no_fault e (GetConnection :: BeginTransaction
                 :: staging_stmts (List.length (items b))
                 ++ [Commit])
  && passes_validation b d
  && negb (collides e d)
  && fits e u b d.

(** Nothing fails after the commit either. *)
Definition answers (e : env) : bool :=
  no_fault e [SelectOrder; SelectOrderItems] && negb (env_emit_throws e).

(** The notification of a creation: it carries [finalAmount], the
    number the handler computed. *)
Definition new_order_event (e : env) (u : user) (b : order_request) (d : db)
    : event :=
  let o := placed_order e u b d in
  {| room := ("restaurant_" ++ Js.toString (restaurant_id b))%string;
     data := new_order (o_id o) (o_order_number o)
               (u_first_name u ++ " " ++ u_last_name u)%string
               (computed_final d b) (List.length (items b)) |}.

(** A response that reports a failure. *)
Definition is_failure (r : response) : Prop :=
  400 <= statusCode r
  /\ match body r with
     | Failure _ | ValidationFailed => True
     | _ => False
     end.

(** The exceptions the order routes raise. *)
Inductive raised : exn -> Prop :=
  | raised_app (m : string) (c : Z) : 400 <= c -> raised (AppError m c)
  | raised_driver (code : string) : raised (DriverError code)
  | raised_emit : raised EmitError
  | raised_bind : raised BindError.

(** The connection right after [beginTransaction] on a fresh one. *)
Definition begun (d : db) : world :=
  {| store := d; tx := Some d; outbox := []; clock_reads := 0%nat;
     rng_reads := 0%nat |}.

(** The connection when every staged write went through. *)
Definition staged_world (e : env) (u : user) (b : order_request) (d : db)
    : world :=
  {| store := d; tx := Some (placed e u b d); outbox := [];
     clock_reads := 2%nat; rng_reads := 1%nat |}.

Definition staged_result (e : env) (u : user) (b : order_request) (d : db)
    : staged :=
  {| st_orderId := o_id (placed_order e u b d);
     st_orderNumber := o_order_number (placed_order e u b d);
     st_finalAmount := computed_final d b |}.

(** The answer of a creation that goes through. *)
Definition created (e : env) (u : user) (b : order_request) (d : db)
    : response :=
  let id := o_id (placed_order e u b d) in
  {| statusCode := 201;
     body := OrderPlaced (hd_error (Sql.order_views id (placed e u b d)))
                         (Sql.line_views id (placed e u b d)) |}.

(** A validation step of the creation fails: the restaurant is absent or
    inactive, or a line is not on its menu, or a line is unavailable. *)
Definition validation_fails (b : order_request) (d : db) : Prop :=
  Sql.active_restaurant (restaurant_id b) d = []
  \/ exists i, In i (items b)
       /\ (catalog_item d (restaurant_id b) i = None
           \/ exists f, catalog_item d (restaurant_id b) i = Some f
                        /\ fi_is_available f = false).

(** An INSERT of the creation fails: a parameter is not bound or a
    value does not fit its column, or the order number is taken, or the
    driver reports an error on the order or on one of its lines. *)
Definition insert_fails (e : env) (u : user) (b : order_request) (d : db)
    : Prop :=
  fits e u b d = false
  \/ collides e d = true
  \/ env_fault e InsertOrder <> None
  \/ exists k, (k < List.length (items b))%nat
       /\ env_fault e (InsertOrderItem k) <> None.

(** The quantity a list of lines orders of one catalog item. *)
Definition ordered_quantity (lines : list order_line) (fid : Z) : Z :=
  fold_right (fun l acc => (if ol_food_item_id l =? fid
                            then ol_quantity l else 0) + acc) 0 lines.

Definition bump (q : Z) (f : food_item) : food_item :=
  {| fi_id := fi_id f;
     fi_restaurant_id := fi_restaurant_id f;
     fi_name := fi_name f;
     fi_price := fi_price f;
     fi_is_available := fi_is_available f;
     fi_total_orders := fi_total_orders f + q |}.

(** A world that differs from [w] by the working copy of the open
    transaction only. *)
Definition staging (w w' : world) : Prop :=
  store w' = store w /\ outbox w' = outbox w /\ tx w' <> None
  /\ rng_reads w' = rng_reads w /\ clock_reads w' = clock_reads w.

(** ** Who may read and update an order *)

(** The user operates the restaurant of the order: some restaurant with
    the order's restaurant id has the user as its cook. *)
Definition operates (u : user) (X : order) (d : db) : Prop :=
  exists r, In r (restaurants d)
            /\ r_cook_id r = u_id u /\ r_id r = o_restaurant_id X.

(** The check of the status route: an administrator, or a cook whose
    restaurant (the first row of the SELECT by cook) is the order's. *)
Definition may_update (u : user) (X : order) (d : db) : Prop :=
  u_user_type u = admin
  \/ (u_user_type u = cook
      /\ exists r rs, Sql.restaurants_of_cook (u_id u) d = r :: rs
                      /\ r_id r = o_restaurant_id X).

(** The [delivered_at] key of [updateData]: present for a transition to
    delivered, with the reading of the clock. *)
Definition stamp (e : env) (st : order_status) : option Z :=
  match st with
  | delivered => Some (env_clock e 0)
  | _ => None
  end.

Definition denied (message : string) : response :=
  {| statusCode := 403; body := Failure message |}.

(** ** Sample data *)

Module Sample.

Definition alice : user :=
  {| u_id := 1; u_first_name := "Alice"; u_last_name := "A";
     u_user_type := customer |}.
Definition bob : user :=
  {| u_id := 2; u_first_name := "Bob"; u_last_name := "B";
     u_user_type := cook |}.
Definition carol : user :=
  {| u_id := 3; u_first_name := "Carol"; u_last_name := "C";
     u_user_type := cook |}.
Definition dave : user :=
  {| u_id := 4; u_first_name := "Dave"; u_last_name := "D";
     u_user_type := admin |}.
Definition erin : user :=
  {| u_id := 5; u_first_name := "Erin"; u_last_name := "E";
     u_user_type := customer |}.

Definition food (id rid : Z) (name : string) (price : Z) (available : bool)
    : food_item :=
  {| fi_id := id; fi_restaurant_id := rid; fi_name := name;
     fi_price := price; fi_is_available := available;
     fi_total_orders := 0 |}.

Definition cart (id customer item qty : Z) : cart_item :=
  {| ci_id := id; ci_customer_id := customer; ci_food_item_id := item;
     ci_quantity := qty |}.

(** An order of Erin at Carol's restaurant, already delivered. *)
Definition old_order : order :=
  {| o_id := 1; o_customer_id := 5; o_restaurant_id := 20;
     o_order_number := "ORD-000123007"; o_status := delivered;
     o_total_amount := 700; o_delivery_fee := 0;
     o_tax_amount := 35; o_discount_amount := 0;
     o_final_amount := 735; o_payment_method := "cash";
     o_payment_status := "paid"; o_delivery_address := "{}";
     o_special_instructions := None;
     o_estimated_delivery_time := Some 1730400000000;
     o_delivered_at := Some 1730401000000 |}.

Definition shop : db :=
  {| users := [alice; bob; carol; dave; erin];
     restaurants :=
       [ {| r_id := 10; r_cook_id := 2; r_name := "Bob's";
            r_is_active := true; r_delivery_fee := Some 250 |};
         {| r_id := 20; r_cook_id := 3; r_name := "Carol's";
            r_is_active := true; r_delivery_fee := Some 0 |} ];
     food_items :=
       [ food 100 10 "itemA" 1000 true;
         food 101 10 "itemB" 500 true;
         food 102 10 "special" 900 false;
         food 200 20 "soup" 700 true;
         food 201 20 "mint" 10 true;
         food 202 20 "candy" 20 true;
         food 203 20 "gum" 30 true ];
     cart_items :=
       [ cart 1 1 100 2; cart 2 1 101 1; cart 3 1 200 1; cart 4 5 100 3 ];
     orders := [old_order];
     order_items :=
       [ {| oi_order_id := 1; oi_food_item_id := 200; oi_quantity := 1;
            oi_unit_price := 700; oi_total_price := 700;
            oi_special_requests := None |} ] |}.

Definition line (item qty : Z) : item_request :=
  {| food_item_id := item; quantity := qty; special_requests := None |}.

(** A body with [special_instructions: null]. *)
Definition request (rid : Z) (lines : list item_request) : order_request :=
  {| restaurant_id := rid; items := lines; delivery_address := Some "{}";
     payment_method := "cash"; special_instructions := null |}.

(** The same body without the [special_instructions] field. *)
Definition terse (rid : Z) (lines : list item_request) : order_request :=
  {| restaurant_id := rid; items := lines; delivery_address := Some "{}";
     payment_method := "cash"; special_instructions := missing |}.

(** The happy path of the specification: 2 x 10.00 and 1 x 5.00 at a
    restaurant that delivers for 2.50. *)
Definition happy : order_request := request 10 [line 100 2; line 101 1].

(** The same request with a line that is not available. *)
Definition unhappy : order_request := request 10 [line 100 2; line 102 1].

(** Three sweets at 0.10, 0.20 and 0.30 from a restaurant that delivers
    for free, and the same lines the other way round. *)
Definition sweets : order_request :=
  request 20 [line 201 1; line 202 1; line 203 1].
Definition sweets_reversed : order_request :=
  request 20 [line 203 1; line 202 1; line 201 1].

(** A hall with a portion at 1889.34 and a bread at 2.05, delivered for
    free. *)
Definition hall : db :=
  {| users := [alice; bob];
     restaurants :=
       [ {| r_id := 30; r_cook_id := 2; r_name := "Hall";
            r_is_active := true; r_delivery_fee := Some 0 |} ];
     food_items :=
       [ food 300 30 "portion" 188934 true; food 301 30 "bread" 205 true ];
     cart_items := [];
     orders := [];
     order_items := [] |}.

(** Five portions and four breads, the portions first or last. *)
Definition banquet : order_request :=
  request 30 [line 300 5; line 301 1; line 301 1; line 301 1; line 301 1].
Definition banquet_reversed : order_request :=
  request 30 [line 301 1; line 301 1; line 301 1; line 301 1; line 300 5].

(** The Order row a request leaves in the store: the last one. *)
Definition last_order (w : world) : order :=
  last (orders (store w)) old_order.

(** A quiet environment: no driver fault, the socket works. *)
Definition quiet : env :=
  {| env_clock := fun _ => 1730500000555;
     env_random := fun _ => 42;
     env_fault := fun _ => None;
     env_emit_throws := false |}.

(** The totals the restaurant was notified of. *)
Definition notified_totals (w : world) : list float :=
  flat_map (fun ev => match data ev with
                      | new_order _ _ _ totalAmount _ => [totalAmount]
                      | order_status_changed _ _ _ => []
                      end) (outbox w).

(** Alice's request [b] served on a fresh connection over [shop]. *)
Definition serve (b : order_request) : response * world :=
  post_orders quiet alice b (initial shop).

(** Alice's request [b] served on a fresh connection over [hall]. *)
Definition cater (b : order_request) : response * world :=
  post_orders quiet alice b (initial hall).

(** The same with a socket layer that throws. *)
Definition deaf : env :=
  {| env_clock := fun _ => 1730500000555;
     env_random := fun _ => 42;
     env_fault := fun _ => None;
     env_emit_throws := true |}.


End Sample.

(* ===================================================================== *)
(** * Further definitions: the rest of the routes *)
(* ===================================================================== *)

(** ** Totals over the catalog and over a request *)

Definition Zsum (l : list Z) : Z := fold_right Z.add 0 l.

(** The sum of the order counters of the catalog. *)
Definition total_orders_sum (d : db) : Z :=
  Zsum (map fi_total_orders (food_items d)).

(** The quantity a request asks for, all lines together. *)
Definition requested_quantity (b : order_request) : Z :=
  Zsum (map quantity (items b)).

(** The error the validation loop throws at a line that does not pass:
    not on the menu of the restaurant, or on it and not available. *)
Definition line_error (d : db) (rid : Z) (i : item_request) : exn :=
  match Sql.food_item_of (food_item_id i) rid d with
  | [] =>
      AppError ("Food item " ++ Js.toString (food_item_id i)
                ++ " not found")%string 404
  | f :: _ =>
      AppError ("Food item " ++ dquote ++ fi_name f ++ dquote
                ++ " is not available")%string 400
  end.

(** ** Reading and updating, further *)

(** The check of the detail route, as the handler makes it: the
    customer of the order, or a cook whose restaurant (first row of the
    SELECT by cook) is the order's, or an administrator. *)
Definition may_read (u : user) (X : order) (d : db) : Prop :=
  match u_user_type u with
  | customer => o_customer_id X = u_id u
  | cook => exists r rs, Sql.restaurants_of_cook (u_id u) d = r :: rs
                         /\ r_id r = o_restaurant_id X
  | admin => True
  end.

(** What a transition leaves alone in an Order row. *)
Definition order_core (o : order)
    : Z * Z * Z * string * Z * Z * Z * Z * Z :=
  (o_id o, o_customer_id o, o_restaurant_id o, o_order_number o,
   o_total_amount o, o_delivery_fee o, o_tax_amount o, o_discount_amount o,
   o_final_amount o).

(** The event of a transition of order [X]. *)
Definition status_event (orderId : Z) (status : string) (X : order) : event :=
  {| room := ("user_" ++ Js.toString (o_customer_id X))%string;
     data := order_status_changed orderId status (o_order_number X) |}.

(** ** The other routes: answers, statements, library functions *)

(** A JSON answer with its status, [success] flag and [message]. *)
Record reply := {
  rp_status : Z;
  rp_success : bool;
  rp_message : string
}.

(** What [errorHandler] answers, as a reply. *)
Definition reply_of_error (err : exn) : reply :=
  {| rp_status := statusCode (errorHandler err);
     rp_success := false;
     rp_message := match body (errorHandler err) with
                   | Failure m => m
                   | _ => EmptyString
                   end |}.

(** [asyncHandler(fn)] for a handler with an answer of type [A]: the
    answer, or the reply of [errorHandler]. *)
Definition handled {A} (fn : M A) : world -> (A + reply) * world :=
  fun w =>
    match fn w with
    | (Ok a, w') => (inl a, w')
    | (Throw err, w') => (inr (reply_of_error err), w')
    end.

(** [requireRole(...roles)] in front of such a handler. *)
Definition guarded {A} (roles : list user_type) (u : user)
    (next : world -> (A + reply) * world) : world -> (A + reply) * world :=
  fun w =>
    if negb (existsb (user_type_eqb (u_user_type u)) roles)
    then (inr {| rp_status := 403; rp_success := false;
                 rp_message := "Insufficient permissions" |}, w)
    else next w.

(** The statements of the other routes. *)
Inductive route_stmt :=
  | SelectCookRestaurant
  | SelectOrderPage
  | CountOrders
  | SelectCartEntry
  | UpdateCartEntry
  | InsertCartEntry
  | DeleteCartEntry
  | SelectOwnRestaurants
  | InsertRestaurant
  | SelectNewRestaurant
  | SelectOwnFoodItem
  | DeleteFoodItem.

(** The failures of the driver on them, with its error code. *)
Definition faults : Type := route_stmt -> option string.

(** [pool.execute(sql, params)] with the failure of the driver given. *)
Definition pool_run {A} (fault : option string)
    (run : db -> result (A * db)) : M A :=
  fun w =>
    match fault with
    | Some code => (Throw (DriverError code), w)
    | None =>
        match run (store w) with
        | Ok (a, d) => (Ok a, set_store d w)
        | Throw x => (Throw x, w)
        end
    end.

(** What the storage engine and the validator library decide and the
    routes do not: the row order of [ORDER BY o.created_at DESC] (the
    column is not part of the model), the comparison of the [status]
    ENUM column with a text under the collation of the column, the error
    code for a negative LIMIT or OFFSET, and the functions [trim] and
    [isMobilePhone] of the validator library. *)
Record engine := {
  by_created_at_desc : list order_view -> list order_view;
  status_matches : string -> order_status -> bool;
  bad_limit : string;
  trim : string -> string;
  isMobilePhone : string -> bool
}.

(** ** GET /api/orders *)

(** The query string, numbers already read as integers. *)
Record list_query := {
  q_page : option Z;
  q_limit : option Z;
  q_status : option string
}.

(** [whereClause] before the status filter, with its parameter. *)
Inductive scope :=
  | AllOrders
  | OfCustomer (customer_id : Z)
  | OfRestaurant (restaurant_id : Z).

(** [if (status)]: an absent or empty text adds no filter. *)
Definition status_filter (q : list_query) : option string :=
  match q_status q with
  | Some EmptyString => None
  | x => x
  end.

(** The complete WHERE clause on a row of [orders]. *)
Definition in_scope (g : engine) (sc : scope) (status : option string)
    (o : order) : bool :=
  (match sc with
   | AllOrders => true
   | OfCustomer c => o_customer_id o =? c
   | OfRestaurant r => o_restaurant_id o =? r
   end)
  && (match status with
      | Some s => status_matches g s (o_status o)
      | None => true
      end).

Module Listing.

(** FROM orders o JOIN restaurants r ON o.restaurant_id = r.id
    JOIN users u ON o.customer_id = u.id WHERE ... *)
Definition joined (g : engine) (sc : scope) (status : option string)
    (d : db) : list order_view :=
  flat_map
    (fun o =>
       flat_map
         (fun r =>
            map (fun u => (o, r, u))
                (filter (fun u => u_id u =? o_customer_id o) (users d)))
         (filter (fun r => r_id r =? o_restaurant_id o) (restaurants d)))
    (filter (in_scope g sc status) (orders d)).

(** ... ORDER BY o.created_at DESC LIMIT ? OFFSET ? *)
Definition page (g : engine) (sc : scope) (status : option string)
    (limit offset : Z) (d : db) : result (list order_view * db) :=
  if (0 <=? limit) && (0 <=? offset)
  then Ok (firstn (Z.to_nat limit)
             (skipn (Z.to_nat offset)
                (by_created_at_desc g (joined g sc status d))), d)
  else Throw (DriverError (bad_limit g)).

(** SELECT COUNT( * ) as total FROM orders o WHERE ... *)
Definition count (g : engine) (sc : scope) (status : option string)
    (d : db) : list Z :=
  [Z.of_nat (List.length (filter (in_scope g sc status) (orders d)))].

End Listing.

(** The answer of the list route: the short one for a cook without a
    restaurant, or a page with the count and the page numbers
    ([totalPages] is [null] when the division is by zero). *)
Inductive list_answer :=
  | NoOrders
  | OrderPage (orders : list order_view) (totalCount currentPage : Z)
              (totalPages : option Z).

(** [Math.ceil(total / limit)] *)
Definition total_pages (total limit : Z) : option Z :=
  if 0 <? limit then Some ((total + limit - 1) / limit) else None.

Definition list_orders (g : engine) (fl : faults) (u : user) (q : list_query)
    : M list_answer :=
  let page := match q_page q with Some p => p | None => 1 end in
  let limit := match q_limit q with Some l => l | None => 10 end in
  let offset := (page - 1) * limit in
  let status := status_filter q in
  let rest (sc : scope) : M list_answer :=
    orders <- pool_run (fl SelectOrderPage)
      (Listing.page g sc status limit offset) ;;
    countResult <- pool_run (fl CountOrders)
      (Sql.select (Listing.count g sc status)) ;;
    let total := hd 0 countResult in
    ret (OrderPage orders total page (total_pages total limit)) in
  match u_user_type u with
  | customer => rest (OfCustomer (u_id u))
  | cook =>
      restaurants <- pool_run (fl SelectCookRestaurant)
        (Sql.select (Sql.restaurants_of_cook (u_id u))) ;;
      match restaurants with
      | [] => ret NoOrders
      | r :: _ => rest (OfRestaurant (r_id r))
      end
  | admin => rest AllOrders
  end.

(** router.get('/', authenticateToken, asyncHandler) *)
Definition get_orders (g : engine) (fl : faults) (u : user) (q : list_query)
    : world -> (list_answer + reply) * world :=
  handled (list_orders g fl u q).

(** ** The cart routes (routes/users.js) *)

Module Cart.

(** AUTO_INCREMENT of cart_items. *)
Definition next_id (cs : list cart_item) : Z :=
  1 + fold_right Z.max 0 (map ci_id cs).

(** SELECT id, quantity FROM cart_items
    WHERE customer_id = ? AND food_item_id = ? *)
Definition entry_of (customer_id food_item_id : Z) (d : db) : list cart_item :=
  filter (fun ci => (ci_customer_id ci =? customer_id)
                    && (ci_food_item_id ci =? food_item_id)) (cart_items d).

(** The values of an INT column; in strict SQL mode a value outside is
    refused. *)
Definition in_int (z : Z) : bool := Sql.in_int z.

(** UPDATE cart_items SET quantity = quantity + ? WHERE id = ?
    on one row, and on the table. *)
Definition bumped (quantity id : Z) (ci : cart_item) : cart_item :=
  if ci_id ci =? id
  then {| ci_id := ci_id ci;
          ci_customer_id := ci_customer_id ci;
          ci_food_item_id := ci_food_item_id ci;
          ci_quantity := ci_quantity ci + quantity |}
  else ci.

Definition add_quantity (quantity id : Z) (d : db) : result (unit * db) :=
  if existsb (fun ci => (ci_id ci =? id)
                        && negb (in_int (ci_quantity ci + quantity)))
             (cart_items d)
  then Throw (DriverError "ER_WARN_DATA_OUT_OF_RANGE")
  else Ok (tt, set_cart_items (map (bumped quantity id) (cart_items d)) d).

(** INSERT INTO cart_items (customer_id, food_item_id, quantity)
    The three columns are INT; the foreign keys to users and food_items
    reject a row without its parent with ER_NO_REFERENCED_ROW_2; the
    UNIQUE key on (customer_id, food_item_id) rejects a second row of a
    pair with ER_DUP_ENTRY. *)
Definition insert (customer_id food_item_id quantity : Z) (d : db)
    : result (unit * db) :=
  if negb (in_int customer_id && in_int food_item_id && in_int quantity)
  then Throw (DriverError "ER_WARN_DATA_OUT_OF_RANGE")
  else if negb (existsb (fun u => u_id u =? customer_id) (users d))
     || negb (existsb (fun f => fi_id f =? food_item_id) (food_items d))
  then Throw (DriverError "ER_NO_REFERENCED_ROW_2")
  else if existsb (fun ci => (ci_customer_id ci =? customer_id)
                             && (ci_food_item_id ci =? food_item_id))
                  (cart_items d)
  then Throw (DriverError "ER_DUP_ENTRY")
  else Ok (tt,
           set_cart_items
             (cart_items d ++
              [{| ci_id := next_id (cart_items d);
                  ci_customer_id := customer_id;
                  ci_food_item_id := food_item_id;
                  ci_quantity := quantity |}]) d).

(** DELETE FROM cart_items WHERE id = ? AND customer_id = ? *)
Definition delete (id customer_id : Z) (d : db) : db :=
  set_cart_items
    (filter (fun ci => negb ((ci_id ci =? id)
                             && (ci_customer_id ci =? customer_id)))
            (cart_items d)) d.

(** The quantity of an item in the cart of a customer, all rows of the
    pair together. *)
Definition quantity_of (customer_id food_item_id : Z) (d : db) : Z :=
  Zsum (map ci_quantity (entry_of customer_id food_item_id d)).

End Cart.

(** POST /api/users/cart, for a body with a [food_item_id]: [quantity]
    defaults to 1 when the body has none; nothing else is checked. *)
Definition add_to_cart (fl : faults) (u : user) (food_item_id : Z)
    (quantity : option Z) : M reply :=
  let quantity := match quantity with Some q => q | None => 1 end in
  existing <- pool_run (fl SelectCartEntry)
    (Sql.select (Cart.entry_of (u_id u) food_item_id)) ;;
  match existing with
  | entry :: _ =>
      pool_run (fl UpdateCartEntry)
        (Cart.add_quantity quantity (ci_id entry))
  | [] =>
      pool_run (fl InsertCartEntry)
        (Cart.insert (u_id u) food_item_id quantity)
  end ;;
  ret {| rp_status := 200; rp_success := true;
         rp_message := "Item added to cart" |}.

(** router.post('/cart', authenticateToken, requireCustomer, asyncHandler) *)
Definition post_cart (fl : faults) (u : user) (food_item_id : Z)
    (quantity : option Z) : world -> (reply + reply) * world :=
  guarded [customer] u (handled (add_to_cart fl u food_item_id quantity)).

(** DELETE /api/users/cart/:id *)
Definition remove_from_cart (fl : faults) (u : user) (id : Z) : M reply :=
  pool_run (fl DeleteCartEntry) (Sql.modify (Cart.delete id (u_id u))) ;;
  ret {| rp_status := 200; rp_success := true;
         rp_message := "Item removed from cart" |}.

(** router.delete('/cart/:id', authenticateToken, requireCustomer,
    asyncHandler) *)
Definition delete_cart_id (fl : faults) (u : user) (id : Z)
    : world -> (reply + reply) * world :=
  guarded [customer] u (handled (remove_from_cart fl u id)).

(** ** POST /api/restaurants (routes/restaurants.js) *)

(** The five fields of the body that the handler reads, each of them
    present: the driver refuses an undefined bind parameter, and what the
    process does then is outside the model.  The model of [restaurants]
    keeps the name. *)
Record restaurant_request := {
  rq_name : string;
  rq_description : string;
  rq_cuisine_type : string;
  rq_phone : string;
  rq_email : string
}.

(** The validator chain: [isLength({ min: 2 })] on the name as sent
    (the [trim] after it is a sanitizer), [notEmpty] on the cuisine,
    [isMobilePhone] on the phone. *)
Definition valid_restaurant_request (g : engine) (b : restaurant_request)
    : bool :=
  (2 <=? String.length (rq_name b))%nat
  && negb (String.eqb (rq_cuisine_type b) "")
  && isMobilePhone g (rq_phone b).

Module Restaurants.

Definition next_id (rs : list restaurant) : Z :=
  1 + fold_right Z.max 0 (map r_id rs).

(** The widths of the columns: VARCHAR(255), TEXT, VARCHAR(100),
    VARCHAR(20), VARCHAR(255). *)
Definition too_long (name : string) (b : restaurant_request) : bool :=
  (255 <? Z.of_nat (String.length name))
  || (65535 <? Z.of_nat (String.length (rq_description b)))
  || (100 <? Z.of_nat (String.length (rq_cuisine_type b)))
  || (20 <? Z.of_nat (String.length (rq_phone b)))
  || (255 <? Z.of_nat (String.length (rq_email b))).

(** INSERT INTO restaurants (cook_id, name, description, cuisine_type,
    phone, email): [is_active] and [delivery_fee] take their defaults,
    [true] and [0.00]; in strict SQL mode a value wider than its column
    is refused; the foreign key to users rejects an unknown cook. *)
Definition insert (cook_id : Z) (name : string) (b : restaurant_request)
    (d : db) : result (Z * db) :=
  if too_long name b
  then Throw (DriverError "ER_DATA_TOO_LONG")
  else if negb (existsb (fun u => u_id u =? cook_id) (users d))
  then Throw (DriverError "ER_NO_REFERENCED_ROW_2")
  else
    let id := next_id (restaurants d) in
    Ok (id,
        {| users := users d;
           restaurants :=
             restaurants d ++
             [{| r_id := id; r_cook_id := cook_id; r_name := name;
                 r_is_active := true; r_delivery_fee := Some 0 |}];
           food_items := food_items d; cart_items := cart_items d;
           orders := orders d; order_items := order_items d |}).

(** SELECT * FROM restaurants WHERE id = ? *)
Definition by_id (id : Z) (d : db) : list restaurant :=
  filter (fun r => r_id r =? id) (restaurants d).

End Restaurants.

(** The answer of the creation: the reply and, with status 201, the row
    read back. *)
Definition create_restaurant (g : engine) (fl : faults) (u : user)
    (b : restaurant_request) : M (reply * option restaurant) :=
  if negb (valid_restaurant_request g b)
  then ret ({| rp_status := 400; rp_success := false;
               rp_message := "Validation failed" |}, None)
  else
    existing <- pool_run (fl SelectOwnRestaurants)
      (Sql.select (Sql.restaurants_of_cook (u_id u))) ;;
    match existing with
    | _ :: _ =>
        ret ({| rp_status := 400; rp_success := false;
                rp_message := "You already have a restaurant profile" |},
             None)
    | [] =>
        insertId <- pool_run (fl InsertRestaurant)
          (Restaurants.insert (u_id u) (trim g (rq_name b)) b) ;;
        restaurant <- pool_run (fl SelectNewRestaurant)
          (Sql.select (Restaurants.by_id insertId)) ;;
        ret ({| rp_status := 201; rp_success := true;
                rp_message := "Restaurant created successfully" |},
             hd_error restaurant)
    end.

(** router.post('/', authenticateToken, requireCook, ..., asyncHandler) *)
Definition post_restaurants (g : engine) (fl : faults) (u : user)
    (b : restaurant_request)
    : world -> (reply * option restaurant + reply) * world :=
  guarded [cook] u (handled (create_restaurant g fl u b)).

(** No cook has two restaurants. *)
Definition one_restaurant_per_cook (d : db) : Prop :=
  forall c, (List.length (Sql.restaurants_of_cook c d) <= 1)%nat.

(** ** DELETE /api/food/:id (routes/food.js) *)

Module Food.

(** SELECT fi.id FROM food_items fi
    JOIN restaurants r ON fi.restaurant_id = r.id
    WHERE fi.id = ? AND r.cook_id = ? *)
Definition own (food_item_id cook_id : Z) (d : db) : list food_item :=
  flat_map
    (fun f =>
       map (fun _ => f)
           (filter (fun r => (r_id r =? fi_restaurant_id f)
                             && (r_cook_id r =? cook_id)) (restaurants d)))
    (filter (fun f => fi_id f =? food_item_id) (food_items d)).

(** DELETE FROM food_items WHERE id = ?
    with the ON DELETE CASCADE of the foreign keys of cart_items and
    order_items on food_item_id. *)
Definition delete (food_item_id : Z) (d : db) : db :=
  if existsb (fun f => fi_id f =? food_item_id) (food_items d)
  then
    {| users := users d;
       restaurants := restaurants d;
       food_items :=
         filter (fun f => negb (fi_id f =? food_item_id)) (food_items d);
       cart_items :=
         filter (fun ci => negb (ci_food_item_id ci =? food_item_id))
                (cart_items d);
       orders := orders d;
       order_items :=
         filter (fun oi => negb (oi_food_item_id oi =? food_item_id))
                (order_items d) |}
  else d.

End Food.

Definition delete_food (fl : faults) (u : user) (foodItemId : Z) : M reply :=
  foodItems <- pool_run (fl SelectOwnFoodItem)
    (Sql.select (Food.own foodItemId (u_id u))) ;;
  match foodItems with
  | [] => throw (AppError "Food item not found or access denied" 404)
  | _ :: _ =>
      pool_run (fl DeleteFoodItem) (Sql.modify (Food.delete foodItemId)) ;;
      ret {| rp_status := 200; rp_success := true;
             rp_message := "Food item deleted successfully" |}
  end.

(** router.delete('/:id', authenticateToken, requireCook, asyncHandler) *)
Definition delete_food_id (fl : faults) (u : user) (foodItemId : Z)
    : world -> (reply + reply) * world :=
  guarded [cook] u (handled (delete_food fl u foodItemId)).

(** ** Notions for the statements about these routes *)

(** The UNIQUE key of cart_items. *)
Definition cart_key (ci : cart_item) : Z * Z :=
  (ci_customer_id ci, ci_food_item_id ci).

(** The cook [u] has a restaurant that sells the food item. *)
Definition cooks_item (u : user) (foodItemId : Z) (d : db) : Prop :=
  exists f r, In f (food_items d) /\ fi_id f = foodItemId
              /\ In r (restaurants d) /\ r_id r = fi_restaurant_id f
              /\ r_cook_id r = u_id u.

(** The orders a user may see in the list: a customer their own, a cook
    those of the restaurant that the SELECT by cook gives first, an
    administrator all. *)
Definition listed_for (u : user) (d : db) (o : order) : Prop :=
  match u_user_type u with
  | customer => o_customer_id o = u_id u
  | cook => exists r rs, Sql.restaurants_of_cook (u_id u) d = r :: rs
                         /\ o_restaurant_id o = r_id r
  | admin => True
  end.

(** The same as a test, with the status filter of the query. *)
Definition visible_to (g : engine) (u : user) (d : db)
    (status : option string) (o : order) : bool :=
  (match u_user_type u with
   | customer => o_customer_id o =? u_id u
   | cook =>
       match Sql.restaurants_of_cook (u_id u) d with
       | r :: _ => o_restaurant_id o =? r_id r
       | [] => false
       end
   | admin => true
   end)
  && (match status with
      | Some s => status_matches g s (o_status o)
      | None => true
      end).

(** A cook who has no restaurant. *)
Definition idle_cook (u : user) (d : db) : bool :=
  match u_user_type u with
  | cook =>
      match Sql.restaurants_of_cook (u_id u) d with
      | [] => true
      | _ :: _ => false
      end
  | _ => false
  end.

(** An order with each restaurant row and each customer row it joins. *)
Definition order_rows (d : db) (o : order) : list order_view :=
  flat_map
    (fun r =>
       map (fun c => (o, r, c))
           (filter (fun c => u_id c =? o_customer_id o) (users d)))
    (filter (fun r => r_id r =? o_restaurant_id o) (restaurants d)).

(** Page [p] of a list of rows, [limit] rows a page. *)
Definition page_of {A} (limit p : Z) (rows : list A) : list A :=
  firstn (Z.to_nat limit) (skipn (Z.to_nat ((p - 1) * limit)) rows).

(** An answer of the detail route without the lines of a food item. *)
Definition without_item (foodItemId : Z) (r : response) : response :=
  match body r with
  | OrderDetails view items =>
      {| statusCode := statusCode r;
         body := OrderDetails view
                   (filter (fun l => negb (oi_food_item_id (fst l) =? foodItemId))
                           items) |}
  | _ => r
  end.

(** ** More sample data *)

Module More.

(** Nothing fails. *)
Definition calm : faults := fun _ => None.

(** An engine that keeps the row order, compares status names exactly
    and accepts every phone number. *)
Definition plain : engine :=
  {| by_created_at_desc := fun l => l;
     status_matches := fun s st => String.eqb s (order_status_name st);
     bad_limit := "ER_WRONG_ARGUMENTS";
     trim := fun s => s;
     isMobilePhone := fun _ => true |}.

(** The shop after the happy path of Alice. *)
Definition busy : db :=
  store (snd (Sample.serve Sample.happy)).

Definition everything : list_query :=
  {| q_page := None; q_limit := None; q_status := None |}.

(** Frank, a cook without a restaurant yet, and the profile he sends. *)
Definition frank : user :=
  {| u_id := 6; u_first_name := "Frank"; u_last_name := "F";
     u_user_type := cook |}.

Definition franks : restaurant_request :=
  {| rq_name := "Frank's"; rq_description := "Noodles";
     rq_cuisine_type := "thai"; rq_phone := "5550100";
     rq_email := "frank@example.org" |}.

Definition town : db :=
  {| users := users Sample.shop ++ [frank];
     restaurants := restaurants Sample.shop;
     food_items := food_items Sample.shop;
     cart_items := cart_items Sample.shop;
     orders := orders Sample.shop;
     order_items := order_items Sample.shop |}.

End More.

(** ** Proof steps *)

(** Closes a goal whose condition has a false conjunct. *)
Ltac falsify := cbn [negb andb]; rewrite ?andb_false_r; reflexivity.

(* ===================================================================== *)
(** * Theorems *)
(* ===================================================================== *)

Example generateOrderNumber_sample :
  generateOrderNumber 1730500000123 7 = "ORD-000123007".
Proof. reflexivity. Qed.

(** ** Strings *)

Section StringFacts.

Local Open Scope string_scope.

Lemma append_nil_r (s : string) : s ++ "" = s.
Proof. induction s as [|c s IH]; simpl; [reflexivity | now rewrite IH]. Qed.

Lemma append_assoc (a b c : string) : (a ++ b) ++ c = a ++ (b ++ c).
Proof. induction a as [|x a IH]; simpl; [reflexivity | now rewrite IH]. Qed.

Lemma length_append (a b : string) :
  String.length (a ++ b) = (String.length a + String.length b)%nat.
Proof. induction a as [|x a IH]; simpl; [reflexivity | now rewrite IH]. Qed.

Lemma append_inv_head (a b c : string) : a ++ b = a ++ c -> b = c.
Proof.
  induction a as [|x a IH]; simpl; intros H; [exact H |].
  injection H as H. now apply IH.
Qed.

Lemma all_digits_append (a b : string) :
  Js.all_digits (a ++ b) = Js.all_digits a && Js.all_digits b.
Proof.
  induction a as [|x a IH]; simpl; [reflexivity |].
  now rewrite IH, andb_assoc.
Qed.

Lemma drop_append (a b : string) : Js.drop (String.length a) (a ++ b) = b.
Proof. induction a as [|x a IH]; simpl; [now destruct b | exact IH]. Qed.

Lemma slice_last_append (k : nat) (a b : string) :
  String.length b = k -> Js.slice_last k (a ++ b) = b.
Proof.
  intros <-. unfold Js.slice_last. rewrite length_append.
  replace (String.length a + String.length b - String.length b)%nat
    with (String.length a) by lia.
  apply drop_append.
Qed.

End StringFacts.

(** ** Decimal digits *)

Lemma is_digit_digit_char (d : Z) :
  0 <= d < 10 -> Js.is_digit (Js.digit_char d) = true.
Proof.
  intros H.
  assert (E : In d [0; 1; 2; 3; 4; 5; 6; 7; 8; 9]) by (simpl; lia).
  simpl in E.
  repeat (destruct E as [<- | E]; [reflexivity |]). contradiction.
Qed.

Lemma last_digits_length (k : nat) :
  forall n, String.length (Js.last_digits k n) = k.
Proof.
  induction k as [|k IH]; intros n; cbn [Js.last_digits]; [reflexivity |].
  rewrite length_append, IH. cbn [String.length]. lia.
Qed.

Lemma last_digits_all_digits (k : nat) :
  forall n, Js.all_digits (Js.last_digits k n) = true.
Proof.
  induction k as [|k IH]; intros n; cbn [Js.last_digits]; [reflexivity |].
  rewrite all_digits_append, IH. cbn [Js.all_digits andb].
  rewrite is_digit_digit_char; [reflexivity |].
  apply Z.mod_pos_bound. lia.
Qed.

Lemma digits_fuel_acc (fuel : nat) :
  forall n acc,
    Js.digits_fuel fuel n acc = (Js.digits_fuel fuel n "" ++ acc)%string.
Proof.
  induction fuel as [|f IH]; intros n acc; cbn [Js.digits_fuel];
    [reflexivity |].
  destruct (n <? 10); [reflexivity |].
  rewrite IH. rewrite (IH _ (String _ "")).
  now rewrite append_assoc.
Qed.

(** Once [n] has at least [k] digits, they end its decimal writing. *)
Lemma digits_fuel_tail (k : nat) :
  forall fuel n,
    10 ^ Z.of_nat k <= n < 10 ^ Z.of_nat fuel ->
    exists pre,
      Js.digits_fuel fuel n "" = (pre ++ Js.last_digits (S k) n)%string.
Proof.
  induction k as [|k IH]; intros fuel n [Hlo Hhi].
  - destruct fuel as [|f]; [cbn in Hlo, Hhi; lia |].
    cbn [Js.digits_fuel Js.last_digits]. destruct (n <? 10).
    + now exists ""%string.
    + rewrite digits_fuel_acc. now exists (Js.digits_fuel f (n / 10) "").
  - destruct fuel as [|f];
      [pose proof (Z.pow_pos_nonneg 10 (Z.of_nat (S k))); cbn in Hhi; lia |].
    rewrite Nat2Z.inj_succ, Z.pow_succ_r in Hlo, Hhi by lia.
    assert (H10 : 10 <= n) by (pose proof (Z.pow_pos_nonneg 10 (Z.of_nat k)); nia).
    cbn [Js.digits_fuel]. destruct (Z.ltb_spec n 10) as [Hlt | _]; [lia |].
    rewrite digits_fuel_acc.
    destruct (IH f (n / 10)) as [pre Hpre].
    { split.
      - apply Z.div_le_lower_bound; lia.
      - apply Z.div_lt_upper_bound; lia. }
    exists pre. rewrite Hpre.
    change (Js.last_digits (S (S k)) n)
      with (Js.last_digits (S k) (n / 10)
            ++ String (Js.digit_char (n mod 10)) "")%string.
    now rewrite append_assoc.
Qed.

Lemma toString_fuel (n : Z) :
  0 < n -> n < 10 ^ Z.of_nat (S (Z.to_nat (Z.log2 n))).
Proof.
  intros H.
  pose proof (Z.log2_nonneg n) as Hl.
  rewrite Nat2Z.inj_succ, Z2Nat.id by lia.
  destruct (Z.log2_spec n H) as [_ Hhi].
  eapply Z.lt_le_trans; [exact Hhi |].
  apply Z.pow_le_mono_l. lia.
Qed.

Lemma toString_tail (k : nat) (n : Z) :
  10 ^ Z.of_nat k <= n ->
  exists pre, Js.toString n = (pre ++ Js.last_digits (S k) n)%string.
Proof.
  intros H.
  assert (Hpos : 0 < n) by (pose proof (Z.pow_pos_nonneg 10 (Z.of_nat k)); lia).
  unfold Js.toString. destruct (Z.ltb_spec n 0) as [Hneg | _]; [lia |].
  apply digits_fuel_tail. split; [exact H | now apply toString_fuel].
Qed.

(** The last six characters of a timestamp of six digits or more. *)
Lemma slice_timestamp (now : Z) :
  100000 <= now -> Js.slice_last 6 (Js.toString now) = Js.last_digits 6 now.
Proof.
  intros H. destruct (toString_tail 5 now H) as [pre ->].
  apply slice_last_append, last_digits_length.
Qed.

(** The random suffix is the three digits of the draw. *)
Lemma pad_suffix (rnd : Z) :
  0 <= rnd < 1000 ->
  Js.padStart 3 "0"%char (Js.toString rnd) = Js.last_digits 3 rnd.
Proof.
  intros H.
  assert (A : forallb (fun r => String.eqb (Js.padStart 3 "0"%char (Js.toString r))
                                           (Js.last_digits 3 r)) suffixes = true)
    by (vm_compute; reflexivity).
  rewrite forallb_forall in A.
  apply String.eqb_eq, A. unfold suffixes.
  apply in_map_iff. exists (Z.to_nat rnd). split; [lia |].
  apply in_seq. lia.
Qed.

Lemma generateOrderNumber_shape (now rnd : Z) :
  100000 <= now -> 0 <= rnd < 1000 ->
  generateOrderNumber now rnd
  = ("ORD-" ++ Js.last_digits 6 now ++ Js.last_digits 3 rnd)%string.
Proof.
  intros Hn Hr. unfold generateOrderNumber.
  now rewrite slice_timestamp, pad_suffix.
Qed.

Lemma suffixes_distinct : NoDup (map (Js.last_digits 3) suffixes).
Proof.
  assert (D : forall l : list string,
             (fix nodupb (l : list string) : bool :=
                match l with
                | [] => true
                | x :: r => negb (existsb (String.eqb x) r) && nodupb r
                end) l = true -> NoDup l).
  { induction l as [|x r IH]; intros H; [constructor |].
    apply andb_prop in H as [Hx Hr]. constructor; [| now apply IH].
    intros Hin. apply negb_true_iff in Hx.
    assert (existsb (String.eqb x) r = true)
      by (apply existsb_exists; exists x; split; [exact Hin | apply String.eqb_refl]).
    congruence. }
  apply D. vm_compute. reflexivity.
Qed.

(** C10. Every order number generated at a timestamp of at least six
    digits (any reading of the clock after the first 100 seconds of 1970)
    from a draw in 0..999 is [ORD-] followed by the last six digits of
    the timestamp and the three zero-padded digits of the draw: nine
    decimal digits, thirteen characters in all; at a fixed timestamp the
    possible numbers are exactly the images of the thousand draws, which
    are pairwise distinct. *)
Theorem order_number_format (now rnd : Z) :
  100000 <= now -> 0 <= rnd < 1000 ->
  generateOrderNumber now rnd
    = ("ORD-" ++ Js.slice_last 6 (Js.toString now)
              ++ Js.last_digits 3 rnd)%string
  /\ Js.slice_last 6 (Js.toString now) = Js.last_digits 6 now
  /\ String.length (Js.last_digits 6 now) = 6%nat
  /\ String.length (Js.last_digits 3 rnd) = 3%nat
  /\ Js.all_digits (Js.last_digits 6 now ++ Js.last_digits 3 rnd) = true
  /\ String.length (generateOrderNumber now rnd) = 13%nat
  /\ In (generateOrderNumber now rnd) (map (generateOrderNumber now) suffixes)
  /\ List.length (map (generateOrderNumber now) suffixes) = 1000%nat
  /\ NoDup (map (generateOrderNumber now) suffixes).
Proof.
  intros Hn Hr.
  pose proof (generateOrderNumber_shape now rnd Hn Hr) as Hs.
  pose proof (slice_timestamp now Hn) as Ht.
  refine (conj _ (conj _ (conj _ (conj _ (conj _ (conj _ (conj _ (conj _ _)))))))).
  - now rewrite Ht.
  - exact Ht.
  - apply last_digits_length.
  - apply last_digits_length.
  - now rewrite all_digits_append, !last_digits_all_digits.
  - rewrite Hs, !length_append, !last_digits_length. reflexivity.
  - apply in_map_iff. exists rnd. split; [reflexivity |].
    unfold suffixes. apply in_map_iff. exists (Z.to_nat rnd).
    split; [lia | apply in_seq; lia].
  - now rewrite length_map.
  - assert (E : map (generateOrderNumber now) suffixes
                = map (fun s => ("ORD-" ++ Js.last_digits 6 now ++ s)%string)
                      (map (Js.last_digits 3) suffixes)).
    { rewrite map_map. apply map_ext_in. intros r Hin.
      apply generateOrderNumber_shape; [exact Hn |].
      unfold suffixes in Hin. apply in_map_iff in Hin as [m [<- Hm]].
      apply in_seq in Hm. lia. }
    rewrite E. apply Injective_map_NoDup; [| exact suffixes_distinct].
    intros a b Hab. rewrite <- !append_assoc in Hab.
    now apply append_inv_head in Hab.
Qed.

(** The format at a present-day timestamp and a one-digit draw. *)
Lemma order_number_format_witness :
  generateOrderNumber 1730500000123 7 = "ORD-000123007"
  /\ String.length (generateOrderNumber 1730500000123 7) = 13%nat.
Proof.
  assert (H1 : 100000 <= 1730500000123) by lia.
  assert (H2 : 0 <= 7 < 1000) by lia.
  destruct (order_number_format 1730500000123 7 H1 H2)
    as (E & _ & _ & _ & _ & L & _).
  split; [exact E | exact L].
Defined.

(** ** The error handler *)

Lemma errorHandler_raised (x : exn) : raised x -> is_failure (errorHandler x).
Proof.
  intros [m c Hc | code | |]; unfold is_failure, errorHandler, code_is; cbn.
  - split; [destruct (Z.eqb_spec c 0); lia | exact I].
  - destruct (String.eqb code "ER_DUP_ENTRY"),
             (String.eqb code "ER_NO_REFERENCED_ROW_2"),
             (String.eqb code "ER_PARSE_ERROR"),
             (String.eqb code "LIMIT_FILE_SIZE"),
             (String.eqb code "LIMIT_UNEXPECTED_FILE"); cbn; split; try lia; exact I.
  - split; [lia | exact I].
  - split; [lia | exact I].
Qed.

Lemma is_failure_not_201 (r : response) : is_failure r -> statusCode r <> 201.
Proof. intros [H _]. lia. Qed.

(** ** Statements on the connection *)

Lemma finally_release {A} (body : M A) (w : world) :
  finally body release w = body w.
Proof. unfold finally, release, ret. now destruct (body w). Qed.

Lemma conn_write_read (w : world) : conn_write (conn_read w) w = w.
Proof. destruct w as [s [t|] o c r]; reflexivity. Qed.

Lemma execute_fault {A} (e : env) (s : stmt) (run : db -> result (A * db))
    (w : world) (code : string) :
  env_fault e s = Some code ->
  connection_execute e s run w = (Throw (DriverError code), w).
Proof. intros H. unfold connection_execute. now rewrite H. Qed.

Lemma execute_select {R} (e : env) (s : stmt) (q : db -> list R) (w : world) :
  env_fault e s = None ->
  connection_execute e s (Sql.select q) w = (Ok (q (conn_read w)), w).
Proof.
  intros H. unfold connection_execute, Sql.select. rewrite H.
  now rewrite conn_write_read.
Qed.

Lemma execute_modify (e : env) (s : stmt) (f : db -> db) (w : world) (t : db) :
  env_fault e s = None -> tx w = Some t ->
  connection_execute e s (Sql.modify f) w = (Ok tt, set_tx (Some (f t)) w).
Proof.
  intros H Ht. unfold connection_execute, Sql.modify, conn_read, conn_write.
  now rewrite H, Ht.
Qed.

Lemma execute_run {A} (e : env) (s : stmt) (run : db -> result (A * db))
    (w : world) (t : db) :
  env_fault e s = None -> tx w = Some t ->
  connection_execute e s run w
  = match run t with
    | Ok (a, t') => (Ok a, set_tx (Some t') w)
    | Throw x => (Throw x, w)
    end.
Proof.
  intros H Ht. unfold connection_execute, conn_read, conn_write.
  rewrite H, Ht. reflexivity.
Qed.

Lemma staging_set_tx (w : world) (t : db) : staging w (set_tx (Some t) w).
Proof. unfold staging; cbn. intuition congruence. Qed.

Lemma staging_refl (w : world) : tx w <> None -> staging w w.
Proof. unfold staging. intuition. Qed.

(** ** The validation loop *)

Lemma draft_lines_cons (d : db) (rid : Z) (i : item_request)
    (rest : list item_request) (f : food_item) :
  catalog_item d rid i = Some f ->
  draft_lines d rid (i :: rest) = draft_line i f :: draft_lines d rid rest.
Proof. intros H. unfold draft_lines. cbn. now rewrite H. Qed.

Lemma validate_items_run (e : env) (rid : Z) (items : list item_request) :
  forall k total acc w,
  exists x, raised x /\
    validate_items e rid k items total acc w
    = (if no_fault e (map SelectFoodItem (seq k (List.length items)))
          && forallb (orderable (conn_read w) rid) items
       then Ok (order_total (draft_lines (conn_read w) rid items) total,
                acc ++ draft_lines (conn_read w) rid items)
       else Throw x, w).
Proof.
  induction items as [|i rest IH]; intros k total acc w.
  - exists EmitError. split; [constructor |]. cbn. now rewrite app_nil_r.
  - cbn [validate_items List.length seq map no_fault forallb].
    unfold bind at 1.
    destruct (env_fault e (SelectFoodItem k)) as [code|] eqn:Hf.
    + exists (DriverError code). split; [constructor |].
      now rewrite (execute_fault _ _ _ _ code Hf).
    + rewrite execute_select by exact Hf.
      unfold orderable at 1, catalog_item at 1.
      destruct (Sql.food_item_of (food_item_id i) rid (conn_read w))
        as [|f fs] eqn:Hsel; cbn [hd_error].
      * eexists. split; cycle 1.
        { cbn [andb]. rewrite andb_false_r. reflexivity. }
        apply raised_app. lia.
      * destruct (fi_is_available f) eqn:Hav; cbn [negb andb].
        -- destruct (IH (S k)
                        (total + Num.parseFloat (fi_price f)
                                 * Num.of_Z (quantity i))%float
                        (acc ++ [draft_line i f]) w) as [x [Hx Hrun]].
           exists x. split; [exact Hx |].
           unfold draft_line in Hrun. rewrite Hrun.
           fold (no_fault e (map SelectFoodItem (seq (S k) (List.length rest)))).
           rewrite (draft_lines_cons _ _ i rest f)
             by (unfold catalog_item; now rewrite Hsel).
           cbn [order_total fold_left draft_line ol_total_price].
           now rewrite <- app_assoc.
        -- eexists. split; cycle 1.
           { cbn [andb]. rewrite andb_false_r. reflexivity. }
           apply raised_app. lia.
Qed.

(** ** The insertion loop *)

Lemma insert_items_run (e : env) (orderId : Z) (lines : list order_line) :
  forall k w t, tx w = Some t ->
  exists x w', raised x /\ staging w w' /\
    insert_items e orderId k lines w
    = if no_fault e (flat_map (fun k => [InsertOrderItem k; UpdateTotalOrders k])
                              (seq k (List.length lines)))
         && lines_fit orderId lines t
      then (Ok tt, set_tx (Some (write_lines orderId lines t)) w)
      else (Throw x, w').
Proof.
  induction lines as [|l rest IH]; intros k w t Ht.
  - exists EmitError, w. split; [constructor |].
    split; [apply staging_refl; congruence |].
    cbn. unfold ret. f_equal. destruct w; cbn in *; now subst.
  - cbn [insert_items List.length seq flat_map app no_fault forallb lines_fit].
    unfold bind at 1.
    destruct (env_fault e (InsertOrderItem k)) as [code|] eqn:Hf1.
    { exists (DriverError code), w. split; [constructor |].
      split; [apply staging_refl; congruence |].
      now rewrite (execute_fault _ _ _ _ code Hf1). }
    rewrite (execute_run _ _ _ _ t Hf1 Ht).
    unfold Sql.insert_order_item, line_fits.
    destruct (Sql.in_int (ol_quantity l) && Decimal.fits (ol_total_price l))
      eqn:Hfit; cbn [negb andb]; cycle 1.
    { exists (DriverError "ER_WARN_DATA_OUT_OF_RANGE"), w.
      split; [constructor |]. split; [apply staging_refl; congruence |].
      now rewrite andb_false_r. }
    destruct (Sql.text_fits (ol_special_requests l)) eqn:Htext;
      cbn [negb andb]; cycle 1.
    { exists (DriverError "ER_DATA_TOO_LONG"), w.
      split; [constructor |]. split; [apply staging_refl; congruence |].
      now rewrite andb_false_r. }
    unfold bind at 1.
    destruct (env_fault e (UpdateTotalOrders k)) as [code|] eqn:Hf2.
    { eexists (DriverError code), (set_tx (Some _) w).
      split; [constructor |]. split; [apply staging_set_tx |].
      now rewrite (execute_fault _ _ _ _ code Hf2). }
    erewrite execute_run; [| exact Hf2 | reflexivity].
    unfold Sql.add_total_orders.
    change (Sql.counter_fits (ol_quantity l) (ol_food_item_id l)
              (set_order_items
                 (order_items t ++ [Sql.order_item_row orderId l]) t))
      with (Sql.counter_fits (ol_quantity l) (ol_food_item_id l) t).
    destruct (Sql.counter_fits (ol_quantity l) (ol_food_item_id l) t)
      eqn:Hcount; cbn [andb]; cycle 1.
    { eexists (DriverError "ER_WARN_DATA_OUT_OF_RANGE"), (set_tx (Some _) w).
      split; [constructor |]. split; [apply staging_set_tx |].
      now rewrite andb_false_r. }
    fold (write_line orderId l t).
    match goal with
    | |- context [insert_items e orderId (S k) rest ?w1] =>
        destruct (IH (S k) w1 (write_line orderId l t) eq_refl)
          as [x [w' [Hx [Hst Hrun]]]]
    end.
    exists x, w'. split; [exact Hx |]. split.
    + destruct Hst as (H1 & H2 & H3 & H4 & H5). unfold staging.
      cbn in H1, H2, H4, H5. intuition.
    + rewrite Hrun.
      fold (no_fault e (flat_map (fun k => [InsertOrderItem k; UpdateTotalOrders k])
                                 (seq (S k) (List.length rest)))).
      reflexivity.
Qed.

(** ** Order creation, step by step *)

Lemma no_fault_app (e : env) (l1 l2 : list stmt) :
  no_fault e (l1 ++ l2) = no_fault e l1 && no_fault e l2.
Proof. apply forallb_app. Qed.

Lemma no_fault_cons (e : env) (s : stmt) (l : list stmt) :
  no_fault e (s :: l)
  = match env_fault e s with None => no_fault e l | Some _ => false end.
Proof. unfold no_fault. cbn. now destruct (env_fault e s). Qed.

Lemma draft_lines_length (d : db) (rid : Z) (items : list item_request) :
  forallb (orderable d rid) items = true ->
  List.length (draft_lines d rid items) = List.length items.
Proof.
  induction items as [|i rest IH]; intros H; [reflexivity |].
  cbn in H. apply andb_prop in H as [Hi Hr].
  unfold orderable in Hi.
  destruct (catalog_item d rid i) as [f|] eqn:Hc; [| discriminate].
  rewrite (draft_lines_cons _ _ _ _ f Hc). cbn. now rewrite IH.
Qed.

Lemma generate_order_number_run (e : env) (w : world) :
  generate_order_number e w
  = (Ok (generateOrderNumber (env_clock e (clock_reads w))
                             (env_random e (rng_reads w))),
     {| store := store w; tx := tx w; outbox := outbox w;
        clock_reads := S (clock_reads w); rng_reads := S (rng_reads w) |}).
Proof. reflexivity. Qed.

Lemma bound_run {A} (x : field) (k : option string -> M A) :
  x <> missing -> bound x k = k (text_of x).
Proof. destruct x; [contradiction | reflexivity | reflexivity]. Qed.

Lemma computed_fee_of (d : db) (b : order_request) (r : restaurant)
    (rs : list restaurant) :
  Sql.active_restaurant (restaurant_id b) d = r :: rs ->
  Num.parseFloat_or_zero (r_delivery_fee r) = computed_fee d b.
Proof. intros H. unfold computed_fee, fee_of. now rewrite H. Qed.

Lemma stage_order_run (e : env) (u : user) (b : order_request) (a : string)
    (d : db) :
  delivery_address b = Some a ->
  exists x w', raised x /\
    (store w' = d /\ outbox w' = [] /\ tx w' <> None /\ (rng_reads w' <= 1)%nat) /\
    stage_order e u b a (begun d)
    = if no_fault e (staging_stmts (List.length (items b)))
         && passes_validation b d && negb (collides e d) && fits e u b d
      then (Ok (staged_result e u b d), staged_world e u b d)
      else (Throw x, w').
Proof.
  intros Ha. unfold stage_order, staging_stmts, passes_validation.
  cbn [app]. rewrite no_fault_cons. unfold bind at 1.
  destruct (env_fault e SelectRestaurant) as [code|] eqn:F1.
  { exists (DriverError code), (begun d). split; [constructor |].
    split; [cbn; intuition (congruence || lia) |].
    now rewrite (execute_fault _ _ _ _ code F1). }
  rewrite execute_select by exact F1.
  change (conn_read (begun d)) with d.
  destruct (Sql.active_restaurant (restaurant_id b) d) as [|r rs] eqn:Hr.
  { eexists _, (begun d). split; cycle 1.
    { split; [cbn; intuition (congruence || lia) |].
      cbn [List.length Nat.eqb negb andb]. falsify. }
    apply raised_app. lia. }
  cbn [List.length Nat.eqb negb andb].
  destruct (validate_items_run e (restaurant_id b) (items b) 0%nat 0%float []
              (begun d)) as [x1 [Hx1 Hv]].
  change (conn_read (begun d)) with d in Hv.
  unfold bind at 1. rewrite Hv. clear Hv.
  rewrite !no_fault_app.
  destruct (no_fault e (map SelectFoodItem (seq 0 (List.length (items b)))))
    eqn:F2; cycle 1.
  { exists x1, (begun d). split; [exact Hx1 |].
    split; [cbn; intuition (congruence || lia) | reflexivity]. }
  destruct (forallb (orderable d (restaurant_id b)) (items b)) eqn:Hall; cycle 1.
  { exists x1, (begun d). split; [exact Hx1 |].
    split; [cbn; intuition (congruence || lia) |]. falsify. }
  cbn [andb fst snd app].
  unfold bind at 1. rewrite generate_order_number_run.
  unfold bind at 1. unfold date_now at 1.
  cbn [store tx outbox clock_reads rng_reads begun].
  rewrite no_fault_cons, no_fault_app. unfold bind at 1.
  rewrite (computed_fee_of d b r rs Hr).
  change (order_total (draft_lines d (restaurant_id b) (items b)) 0%float)
    with (computed_total d b).
  change (computed_total d b * 0.05)%float with (computed_tax d b).
  change (computed_total d b + computed_fee d b + computed_tax d b)%float
    with (computed_final d b).
  unfold fits, order_fits.
  assert (Hcase : special_instructions b = missing
                  \/ special_instructions b <> missing).
  { destruct (special_instructions b); [left | right | right];
      (reflexivity || discriminate). }
  destruct Hcase as [Hsi | Hsi].
  { rewrite Hsi. eexists BindError, _. split; [constructor |]. split; cycle 1.
    { unfold bound, throw. falsify. }
    cbn; intuition (congruence || lia). }
  assert (Hb : match special_instructions b with
               | missing => false
               | _ => true
               end = true).
  { destruct (special_instructions b);
      [contradiction | reflexivity | reflexivity]. }
  rewrite Hb. rewrite bound_run by exact Hsi.
  destruct (env_fault e InsertOrder) as [code|] eqn:F3.
  { eexists (DriverError code), _. split; [constructor |]. split; cycle 1.
    { rewrite (execute_fault _ _ _ _ code F3). reflexivity. }
    cbn; intuition (congruence || lia). }
  rewrite (execute_run _ _ _ _ d) by (exact F3 || reflexivity).
  unfold Sql.insert_order.
  destruct (Sql.amounts_fit (computed_total d b) (computed_fee d b)
              (computed_tax d b) (computed_final d b)) eqn:Hamounts;
    cbn [negb]; cycle 1.
  { eexists (DriverError "ER_WARN_DATA_OUT_OF_RANGE"), _.
    split; [constructor |]. split; cycle 1; [falsify |].
    cbn; intuition (congruence || lia). }
  destruct (Sql.text_fits (text_of (special_instructions b))) eqn:Htext;
    cbn [negb]; cycle 1.
  { eexists (DriverError "ER_DATA_TOO_LONG"), _.
    split; [constructor |]. split; cycle 1; [falsify |].
    cbn; intuition (congruence || lia). }
  change (existsb _ (orders d)) with (collides e d).
  destruct (collides e d) eqn:Hc.
  { eexists (DriverError "ER_DUP_ENTRY"), _. split; [constructor |].
    split; cycle 1; [falsify |].
    cbn; intuition (congruence || lia). }
  match goal with
  | |- context [orders d ++ [?row]] =>
      replace row with (placed_order e u b d)
        by (unfold placed_order; rewrite Ha; reflexivity)
  end.
  cbn [negb andb]. rewrite !andb_true_r.
  match goal with
  | |- context [bind (insert_items e ?id 0%nat ?ls) _ ?w1] =>
      destruct (insert_items_run e id ls 0%nat w1 _ eq_refl)
        as [x2 [w2 [Hx2 [Hst2 Hi]]]]
  end.
  rewrite draft_lines_length in Hi by exact Hall.
  unfold bind at 1. rewrite Hi. clear Hi.
  destruct (no_fault e (flat_map _ _)) eqn:F4; cycle 1.
  { exists x2, w2. split; [exact Hx2 |]. split; [| reflexivity].
    destruct Hst2 as (H1 & H2 & H3 & H4 & H5). cbn in H1, H2, H4.
    intuition (congruence || lia). }
  cbn [andb].
  destruct (lines_fit _ _ _) eqn:Hlines; cycle 1.
  { exists x2, w2. split; [exact Hx2 |]. split; [| falsify].
    destruct Hst2 as (H1 & H2 & H3 & H4 & H5). cbn in H1, H2, H4.
    intuition (congruence || lia). }
  rewrite no_fault_cons. unfold bind at 1.
  destruct (env_fault e DeleteCart) as [code|] eqn:F5.
  { eexists (DriverError code), _. split; [constructor |]. split; cycle 1.
    { rewrite (execute_fault _ _ _ _ code F5). reflexivity. }
    cbn; intuition (congruence || lia). }
  erewrite execute_modify; [| exact F5 | reflexivity].
  exists EmitError, (begun d). split; [constructor |].
  split; [cbn; intuition (congruence || lia) |].
  cbn [andb no_fault forallb].
  unfold staged_result, staged_world, placed, ret. reflexivity.
Qed.


Lemma rollback_rethrow (e : env) (x : exn) (w : world) :
  raised x ->
  exists x' w', raised x' /\
    bind (rollback e) (fun _ => @throw response x) w = (Throw x', w') /\
    store w' = store w /\ outbox w' = outbox w /\ rng_reads w' = rng_reads w
    /\ (env_fault e Rollback = None -> tx w' = None /\ x' = x)
    /\ (tx w = None -> tx w' = None).
Proof.
  intros Hx. unfold bind, rollback, throw.
  destruct (env_fault e Rollback) as [code|].
  - exists (DriverError code), w.
    split; [constructor |]. split; [reflexivity |].
    repeat split; (discriminate || auto).
  - exists x, (set_tx None w). split; [exact Hx |]. repeat split.
Qed.

Lemma post_orders_run (e : env) (u : user) (b : order_request) (d : db) :
  forall resp w', post_orders e u b (initial d) = (resp, w') ->
  (rng_reads w' <= 1)%nat /\
  (env_fault e Rollback = None -> tx w' = None) /\
  if commits e u b d
  then store w' = placed e u b d /\ tx w' = None
       /\ if answers e
          then resp = created e u b d /\ outbox w' = [new_order_event e u b d]
          else is_failure resp /\ outbox w' = []
               /\ (no_fault e [SelectOrder; SelectOrderItems; Rollback] = true ->
                   statusCode resp = 500)
  else store w' = d /\ outbox w' = [] /\ is_failure resp.
Proof.
  intros resp w'. unfold post_orders, requireRole, commits.
  cbn [existsb orb]. rewrite orb_false_r.
  destruct (user_type_eqb (u_user_type u) customer); cbn [negb andb]; cycle 1.
  { intros [= <- <-]. cbn. unfold is_failure. cbn. intuition lia. }
  unfold asyncHandler, create_order.
  destruct (valid_order_request b) eqn:Hvalid; cbn [andb]; cycle 1.
  { unfold ret. intros [= <- <-]. cbn. unfold is_failure. cbn. intuition lia. }
  destruct (delivery_address b) as [a|] eqn:Ha; cycle 1.
  { unfold valid_order_request in Hvalid. rewrite Ha in Hvalid.
    rewrite andb_false_r in Hvalid. discriminate. }
  rewrite !no_fault_cons. unfold bind at 1, getConnection.
  destruct (env_fault e GetConnection) as [code|] eqn:Fc.
  { intros [= <- <-]. cbn.
    split; [lia |]. split; [reflexivity |]. repeat split; try reflexivity.
    apply errorHandler_raised. constructor. }
  unfold bind at 1, beginTransaction.
  destruct (env_fault e BeginTransaction) as [code|] eqn:F0.
  { intros [= <- <-]. cbn.
    split; [lia |]. split; [reflexivity |]. repeat split; try reflexivity.
    apply errorHandler_raised. constructor. }
  change (set_tx (Some (conn_read (initial d)))
                 (set_store (conn_read (initial d)) (initial d)))
    with (begun d).
  rewrite finally_release.
  unfold try_catch, place_order. unfold bind at 1.
  destruct (stage_order_run e u b a d Ha) as [x [w1 [Hx [Hw1 Hs]]]].
  rewrite Hs. clear Hs. rewrite no_fault_app, <- !andb_assoc.
  rewrite (andb_comm (no_fault e [Commit])), !andb_assoc.
  destruct (no_fault e (staging_stmts (List.length (items b)))
            && passes_validation b d && negb (collides e d)
            && fits e u b d) eqn:Hstage;
    cycle 1.
  { destruct (rollback_rethrow e x w1 Hx)
      as [x' [w2 [Hx' [Hr [H1 [H2 [H3 [H4 _]]]]]]]].
    rewrite Hr. intros [= <- <-].
    destruct Hw1 as (S1 & S2 & S3 & S4).
    cbn [andb]. rewrite H1, H2, H3, S1, S2.
    split; [exact S4 |]. split; [intros R; apply (H4 R) |].
    repeat split. now apply errorHandler_raised. }
  cbn [andb]. rewrite no_fault_cons. cbn [no_fault forallb].
  unfold bind at 1, commit.
  destruct (env_fault e Commit) as [code|] eqn:F6.
  { destruct (rollback_rethrow e (DriverError code) (staged_world e u b d))
      as [x' [w2 [Hx' [Hr [H1 [H2 [H3 [H4 _]]]]]]]]; [constructor |].
    rewrite Hr. intros [= <- <-]. rewrite H1, H2, H3. cbn.
    split; [lia |]. split; [intros R; apply (H4 R) |].
    repeat split. now apply errorHandler_raised. }
  cbn [tx staged_world].
  set (wc := set_tx None (set_store (placed e u b d) (staged_world e u b d))).
  unfold answers. rewrite !no_fault_cons. cbn [no_fault forallb].
  unfold bind at 1.
  destruct (env_fault e SelectOrder) as [code|] eqn:F7.
  { rewrite (execute_fault _ _ _ _ code F7).
    destruct (rollback_rethrow e (DriverError code) wc)
      as [x' [w2 [Hx' [Hr [H1 [H2 [H3 [H4 H5]]]]]]]]; [constructor |].
    rewrite Hr. intros [= <- <-]. rewrite H1, H2, H3. cbn.
    split; [lia |]. split; [intros _; now apply H5 |].
    split; [reflexivity |]. split; [now apply H5 |].
    split; [now apply errorHandler_raised |]. split; [reflexivity |].
    discriminate. }
  rewrite execute_select by exact F7. unfold bind at 1.
  destruct (env_fault e SelectOrderItems) as [code|] eqn:F8.
  { rewrite (execute_fault _ _ _ _ code F8).
    destruct (rollback_rethrow e (DriverError code) wc)
      as [x' [w2 [Hx' [Hr [H1 [H2 [H3 [H4 H5]]]]]]]]; [constructor |].
    rewrite Hr. intros [= <- <-]. rewrite H1, H2, H3. cbn.
    split; [lia |]. split; [intros _; now apply H5 |].
    split; [reflexivity |]. split; [now apply H5 |].
    split; [now apply errorHandler_raised |]. split; [reflexivity |].
    discriminate. }
  rewrite execute_select by exact F8. unfold bind at 1, emit.
  destruct (env_emit_throws e).
  { destruct (rollback_rethrow e EmitError wc)
      as [x' [w2 [Hx' [Hr [H1 [H2 [H3 [H4 H5]]]]]]]]; [constructor |].
    rewrite Hr. intros [= <- <-]. rewrite H1, H2, H3. cbn.
    split; [lia |]. split; [intros _; now apply H5 |].
    split; [reflexivity |]. split; [now apply H5 |].
    split; [now apply errorHandler_raised |]. split; [reflexivity |].
    intros R. destruct (env_fault e Rollback); [discriminate |].
    destruct (H4 eq_refl) as [_ ->]. reflexivity. }
  unfold ret. intros [= <- <-]. cbn. split; [lia |].
  split; [reflexivity |]. repeat split.
Qed.

(** ** What the committed store holds *)

Lemma bump_bump (p q : Z) (f : food_item) : bump q (bump p f) = bump (p + q) f.
Proof. unfold bump. cbn. f_equal. lia. Qed.

Lemma bump_0 (f : food_item) : bump 0 f = f.
Proof. destruct f. unfold bump. cbn. f_equal. lia. Qed.

Lemma write_lines_cons (orderId : Z) (l : order_line)
    (rest : list order_line) (d : db) :
  write_lines orderId (l :: rest) d
  = write_lines orderId rest (write_line orderId l d).
Proof. reflexivity. Qed.

Lemma write_lines_frame (orderId : Z) (lines : list order_line) :
  forall d,
    users (write_lines orderId lines d) = users d
    /\ restaurants (write_lines orderId lines d) = restaurants d
    /\ cart_items (write_lines orderId lines d) = cart_items d
    /\ orders (write_lines orderId lines d) = orders d.
Proof.
  induction lines as [|l rest IH]; intros d; [now cbn |].
  rewrite write_lines_cons.
  destruct (IH (write_line orderId l d)) as (H1 & H2 & H3 & H4).
  rewrite H1, H2, H3, H4. now cbn.
Qed.

Lemma write_lines_order_items (orderId : Z) (lines : list order_line) :
  forall d,
    order_items (write_lines orderId lines d)
    = order_items d ++ map (Sql.order_item_row orderId) lines.
Proof.
  induction lines as [|l rest IH]; intros d.
  - cbn. now rewrite app_nil_r.
  - rewrite write_lines_cons.
    rewrite IH. cbn. now rewrite <- app_assoc.
Qed.

Lemma write_lines_food_items (orderId : Z) (lines : list order_line) :
  forall d,
    food_items (write_lines orderId lines d)
    = map (fun f => bump (ordered_quantity lines (fi_id f)) f) (food_items d).
Proof.
  induction lines as [|l rest IH]; intros d.
  - cbn. rewrite <- (map_id (food_items d)) at 1.
    apply map_ext. intros f. now rewrite bump_0.
  - rewrite write_lines_cons.
    rewrite IH. cbn [write_line Sql.raised_total_orders food_items
                     set_food_items set_order_items].
    rewrite map_map. apply map_ext. intros f.
    cbn [ordered_quantity fold_right]. fold (ordered_quantity rest).
    destruct (Z.eqb_spec (fi_id f) (ol_food_item_id l)) as [E | N].
    + fold (bump (ol_quantity l) f). rewrite bump_bump.
      cbn [bump fi_id]. rewrite E, Z.eqb_refl. reflexivity.
    + destruct (Z.eqb_spec (ol_food_item_id l) (fi_id f)); [congruence |].
      reflexivity.
Qed.

Lemma placed_orders (e : env) (u : user) (b : order_request) (d : db) :
  orders (placed e u b d) = orders d ++ [placed_order e u b d].
Proof.
  unfold placed. cbn [Sql.delete_cart orders set_cart_items].
  rewrite (proj2 (proj2 (proj2 (write_lines_frame _ _ _)))). reflexivity.
Qed.

Lemma placed_order_items (e : env) (u : user) (b : order_request) (d : db) :
  order_items (placed e u b d)
  = order_items d
    ++ map (Sql.order_item_row (Sql.next_id (orders d)))
           (draft_lines d (restaurant_id b) (items b)).
Proof.
  unfold placed. cbn [Sql.delete_cart order_items set_cart_items].
  rewrite write_lines_order_items. reflexivity.
Qed.

Lemma placed_food_items (e : env) (u : user) (b : order_request) (d : db) :
  food_items (placed e u b d)
  = map (fun f => bump (ordered_quantity
                          (draft_lines d (restaurant_id b) (items b))
                          (fi_id f)) f) (food_items d).
Proof.
  unfold placed. cbn [Sql.delete_cart food_items set_cart_items].
  rewrite write_lines_food_items. reflexivity.
Qed.

Lemma in_cart_of_bump (c r : Z) (d d' : db) (q : food_item -> Z) :
  food_items d' = map (fun f => bump (q f) f) (food_items d) ->
  forall ci, Sql.in_cart_of c r d' ci = Sql.in_cart_of c r d ci.
Proof.
  intros H ci. unfold Sql.in_cart_of. rewrite H. f_equal.
  clear H. induction (food_items d) as [|f fs IH]; [reflexivity |].
  cbn [map existsb]. rewrite IH. reflexivity.
Qed.

Lemma placed_cart_items (e : env) (u : user) (b : order_request) (d : db) :
  cart_items (placed e u b d)
  = filter (fun ci => negb (Sql.in_cart_of (u_id u) (restaurant_id b) d ci))
           (cart_items d).
Proof.
  unfold placed. cbn [Sql.delete_cart cart_items set_cart_items].
  rewrite (proj1 (proj2 (proj2 (write_lines_frame _ _ _)))). cbn [cart_items set_orders].
  apply filter_ext. intros ci. f_equal.
  apply in_cart_of_bump with
    (q := fun f => ordered_quantity (draft_lines d (restaurant_id b) (items b))
                                    (fi_id f)).
  rewrite write_lines_food_items. reflexivity.
Qed.

Lemma placed_catalog (e : env) (u : user) (b : order_request) (d : db) :
  users (placed e u b d) = users d
  /\ restaurants (placed e u b d) = restaurants d.
Proof.
  unfold placed. cbn [Sql.delete_cart users restaurants set_cart_items].
  destruct (write_lines_frame (o_id (placed_order e u b d))
              (draft_lines d (restaurant_id b) (items b))
              (set_orders (orders d ++ [placed_order e u b d]) d))
    as (H1 & H2 & _).
  rewrite H1, H2. split; reflexivity.
Qed.

(** ** Lines and amounts *)

Lemma draft_lines_spec (d : db) (rid : Z) (items : list item_request) :
  forallb (orderable d rid) items = true ->
  Forall2 (fun i l =>
             exists f, catalog_item d rid i = Some f
                       /\ fi_is_available f = true
                       /\ l = draft_line i f)
          items (draft_lines d rid items).
Proof.
  induction items as [|i rest IH]; intros H; [constructor |].
  cbn in H. apply andb_prop in H as [Hi Hr]. unfold orderable in Hi.
  destruct (catalog_item d rid i) as [f|] eqn:Hc; [| discriminate].
  rewrite (draft_lines_cons _ _ _ _ f Hc). constructor; [| now apply IH].
  exists f. auto.
Qed.

Lemma draft_lines_total (d : db) (rid : Z) (items : list item_request) :
  forall l, In l (draft_lines d rid items) ->
    ol_total_price l = Pricing.line_total (ol_unit_price l, ol_quantity l).
Proof.
  intros l Hin. unfold draft_lines in Hin. apply in_flat_map in Hin.
  destruct Hin as [i [_ Hl]].
  destruct (catalog_item d rid i) as [f|]; [| contradiction].
  destruct Hl as [<- | []]. reflexivity.
Qed.

Lemma order_total_subtotal (lines : list order_line) :
  (forall l, In l lines ->
     ol_total_price l = Pricing.line_total (ol_unit_price l, ol_quantity l)) ->
  forall start,
    order_total lines start
    = fold_left (fun acc l => (acc + Pricing.line_total l)%float)
                (map (fun l => (ol_unit_price l, ol_quantity l)) lines) start.
Proof.
  induction lines as [|l rest IH]; intros H start; [reflexivity |].
  cbn [order_total fold_left map]. rewrite (H l) by now left.
  apply IH. intros l' Hl'. apply H. now right.
Qed.

(** The amounts the handler computes are the pricing engine's, on the
    priced lines of the request and the fee of its restaurant. *)
Lemma computed_amounts (d : db) (b : order_request) :
  computed_total d b = Pricing.subtotal (priced_lines d b)
  /\ computed_tax d b = Pricing.taxAmount (priced_lines d b)
  /\ computed_fee d b = Num.parseFloat_or_zero (fee_of d b)
  /\ computed_final d b = Pricing.finalAmount (priced_lines d b) (fee_of d b).
Proof.
  assert (E : computed_total d b = Pricing.subtotal (priced_lines d b)).
  { unfold computed_total, Pricing.subtotal, priced_lines.
    apply order_total_subtotal, draft_lines_total. }
  unfold computed_final, computed_tax, computed_fee,
    Pricing.finalAmount, Pricing.taxAmount.
  rewrite E. repeat split.
Qed.

Lemma decimal_fits_stored (x : float) :
  Decimal.fits x = true -> Decimal.of_number x = Some (Decimal.stored x).
Proof.
  unfold Decimal.fits, Decimal.stored.
  now destruct (Decimal.of_number x).
Qed.

(** ** Failing steps *)

Lemma no_fault_In (e : env) (l : list stmt) (s : stmt) :
  no_fault e l = true -> In s l -> env_fault e s = None.
Proof.
  intros H Hin. unfold no_fault in H. rewrite forallb_forall in H.
  specialize (H s Hin). now destruct (env_fault e s).
Qed.

Lemma validation_fails_spec (b : order_request) (d : db) :
  validation_fails b d -> passes_validation b d = false.
Proof.
  unfold passes_validation.
  intros [Hr | [i [Hin Hi]]].
  - now rewrite Hr.
  - apply andb_false_intro2.
    destruct (forallb (orderable d (restaurant_id b)) (items b)) eqn:Hall;
      [| reflexivity].
    rewrite forallb_forall in Hall. specialize (Hall i Hin).
    unfold orderable in Hall.
    destruct Hi as [Hn | [f [Hf Hav]]].
    + rewrite Hn in Hall. discriminate.
    + rewrite Hf in Hall. congruence.
Qed.

Lemma insert_fails_spec (e : env) (u : user) (b : order_request) (d : db) :
  insert_fails e u b d -> commits e u b d = false.
Proof.
  intros H. unfold commits. unfold insert_fails in H.
  destruct H as [Hfit | [Hc | [Hf | [k [Hk Hf]]]]].
  - rewrite Hfit. apply andb_false_r.
  - rewrite Hc. cbn [negb]. now rewrite andb_false_r.
  - destruct (no_fault e (GetConnection :: BeginTransaction
                          :: staging_stmts (List.length (items b)) ++ [Commit]))
      eqn:F; [| now rewrite !andb_false_r].
    exfalso. apply Hf. apply (no_fault_In _ _ _ F).
    right. right. apply in_or_app. left. unfold staging_stmts.
    apply in_or_app. right. apply in_or_app. right.
    apply in_or_app. left. now left.
  - destruct (no_fault e (GetConnection :: BeginTransaction
                          :: staging_stmts (List.length (items b)) ++ [Commit]))
      eqn:F; [| now rewrite !andb_false_r].
    exfalso. apply Hf. apply (no_fault_In _ _ _ F).
    right. right. apply in_or_app. left. unfold staging_stmts.
    apply in_or_app. right. apply in_or_app. right.
    apply in_or_app. right. apply in_or_app. left.
    apply in_flat_map. exists k. split; [apply in_seq; lia | now left].
Qed.

Lemma validation_fails_commits (e : env) (u : user) (b : order_request)
    (d : db) :
  validation_fails b d -> commits e u b d = false.
Proof.
  intros H. unfold commits. rewrite (validation_fails_spec _ _ H).
  cbn [andb]. now rewrite !andb_false_r.
Qed.

Lemma commits_spec (e : env) (u : user) (b : order_request) (d : db) :
  commits e u b d = true ->
  valid_order_request b = true
  /\ forallb (orderable d (restaurant_id b)) (items b) = true
  /\ collides e d = false.
Proof.
  unfold commits, passes_validation. intros C.
  apply andb_prop in C as [C _].
  apply andb_prop in C as [C Hc]. apply andb_prop in C as [C Hp].
  apply andb_prop in C as [C _]. apply andb_prop in C as [_ Hv].
  apply andb_prop in Hp as [_ Hall]. apply negb_true_iff in Hc. auto.
Qed.

(** A creation that commits had every parameter bound and every value
    within its column. *)
Lemma commits_fits (e : env) (u : user) (b : order_request) (d : db) :
  commits e u b d = true ->
  special_instructions b <> missing
  /\ Decimal.of_number (computed_total d b)
     = Some (o_total_amount (placed_order e u b d))
  /\ Decimal.of_number (computed_fee d b)
     = Some (o_delivery_fee (placed_order e u b d))
  /\ Decimal.of_number (computed_tax d b)
     = Some (o_tax_amount (placed_order e u b d))
  /\ Decimal.of_number (computed_final d b)
     = Some (o_final_amount (placed_order e u b d))
  /\ lines_fit (Sql.next_id (orders d))
       (draft_lines d (restaurant_id b) (items b))
       (set_orders (orders d ++ [placed_order e u b d]) d) = true.
Proof.
  unfold commits. intros C. apply andb_prop in C as [_ C].
  unfold fits, order_fits in C. apply andb_prop in C as [C Hlines].
  apply andb_prop in C as [C _]. apply andb_prop in C as [Hb Ha].
  unfold Sql.amounts_fit in Ha.
  apply andb_prop in Ha as [Ha H4]. apply andb_prop in Ha as [Ha H3].
  apply andb_prop in Ha as [H1 H2].
  split; [intros E; rewrite E in Hb; discriminate |].
  cbn [placed_order o_total_amount o_delivery_fee o_tax_amount o_final_amount].
  split; [now apply decimal_fits_stored |].
  split; [now apply decimal_fits_stored |].
  split; [now apply decimal_fits_stored |].
  split; [now apply decimal_fits_stored | exact Hlines].
Qed.

Lemma lines_fit_each (orderId : Z) (lines : list order_line) :
  forall d, lines_fit orderId lines d = true ->
  forall l, In l lines ->
    Sql.in_int (ol_quantity l) = true
    /\ Decimal.of_number (ol_total_price l)
       = Some (oi_total_price (Sql.order_item_row orderId l)).
Proof.
  induction lines as [|a rest IH]; intros d H l Hin; [contradiction |].
  cbn [lines_fit] in H. apply andb_prop in H as [Ha Hrest].
  destruct Hin as [<- | Hin]; [| exact (IH _ Hrest l Hin)].
  unfold line_fits in Ha. apply andb_prop in Ha as [Ha _].
  apply andb_prop in Ha as [Ha _]. apply andb_prop in Ha as [Hq Hd].
  split; [exact Hq |]. now apply decimal_fits_stored.
Qed.

Lemma valid_items_nonempty (b : order_request) :
  valid_order_request b = true -> items b <> [].
Proof.
  unfold valid_order_request. intros H Hnil. rewrite Hnil in H.
  cbn in H. now rewrite andb_false_r in H.
Qed.

(** A body without the [special_instructions] field is refused: the
    driver throws on the [undefined] parameter, nothing is written,
    nothing is emitted. *)
Lemma unbound_parameter_is_refused (e : env) (u : user) (b : order_request)
    (d : db) (resp : response) (w' : world) :
  special_instructions b = missing ->
  post_orders e u b (initial d) = (resp, w') ->
  commits e u b d = false
  /\ store w' = d /\ outbox w' = [] /\ is_failure resp.
Proof.
  intros Hm Hrun.
  assert (C : commits e u b d = false).
  { unfold commits, fits, order_fits. rewrite Hm. cbn [andb].
    now rewrite !andb_false_r. }
  destruct (post_orders_run e u b d resp w' Hrun) as (_ & _ & H).
  rewrite C in H. auto.
Qed.

Example unbound_parameter_sample :
  Sample.serve (Sample.terse 10 [Sample.line 100 2])
  = ({| statusCode := 500; body := Failure (e_message BindError) |},
     {| store := Sample.shop; tx := None; outbox := [];
        clock_reads := 2%nat; rng_reads := 1%nat |}).
Proof. vm_compute. reflexivity. Qed.

(** [commits] is the condition under which the run of the route adds
    the Order row: it holds exactly when the orders readers see after the
    request are not those before it, and it holds whenever the answer is
    201. *)
Lemma commits_iff_order_added (e : env) (u : user) (b : order_request)
    (d : db) (resp : response) (w' : world) :
  post_orders e u b (initial d) = (resp, w') ->
  (commits e u b d = true <-> orders (store w') <> orders d)
  /\ (statusCode resp = 201 -> commits e u b d = true).
Proof.
  intros Hrun.
  destruct (post_orders_run e u b d resp w' Hrun) as (_ & _ & H).
  destruct (commits e u b d).
  - destruct H as (Hs & _). rewrite Hs, placed_orders. split; [| auto].
    split; [intros _ | reflexivity].
    intros E. apply (f_equal (@List.length _)) in E.
    rewrite length_app in E. cbn in E. lia.
  - destruct H as (Hs & _ & Hf). rewrite Hs. split.
    + split; [discriminate | intros N; now contradiction N].
    + intros H201. apply is_failure_not_201 in Hf. contradiction.
Qed.

(** ** Main results on order creation *)

(** C1. Order creation is all-or-nothing.  Whatever the request, the
    environment and the store, the store readers see afterwards is either
    the store before or the store with every write of the creation, and
    no transaction is left open on the connection unless the driver fails
    on the ROLLBACK itself.  If a validation step fails (restaurant absent
    or inactive, item not on the menu of the restaurant, item unavailable)
    or an insert fails (a parameter that is not bound, a value that does
    not fit its column, a duplicate order number, a driver error on the
    order or on a line), the store is the store before, the transaction
    is rolled back and the answer is a failure.  If the answer is 201,
    the Order row, the OrderLine rows, the counter increments and the
    cart cleanup are all in the store and the transaction is closed. *)
Theorem order_creation_all_or_nothing (e : env) (u : user)
    (b : order_request) (d : db) (resp : response) (w' : world) :
  post_orders e u b (initial d) = (resp, w') ->
  (store w' = d \/ store w' = placed e u b d)
  /\ (env_fault e Rollback = None -> tx w' = None)
  /\ (validation_fails b d \/ insert_fails e u b d ->
      store w' = d /\ is_failure resp
      /\ (env_fault e Rollback = None -> tx w' = None))
  /\ (statusCode resp = 201 ->
      store w' = placed e u b d
      /\ tx w' = None
      /\ orders (store w') = orders d ++ [placed_order e u b d]
      /\ order_items (store w')
         = order_items d
           ++ map (Sql.order_item_row (Sql.next_id (orders d)))
                  (draft_lines d (restaurant_id b) (items b))
      /\ food_items (store w')
         = map (fun f => bump (ordered_quantity
                                 (draft_lines d (restaurant_id b) (items b))
                                 (fi_id f)) f) (food_items d)
      /\ cart_items (store w')
         = filter (fun ci => negb (Sql.in_cart_of (u_id u) (restaurant_id b)
                                                  d ci)) (cart_items d)).
Proof.
  intros Hrun.
  destruct (post_orders_run e u b d resp w' Hrun) as (_ & Htx & H).
  split; [| split; [exact Htx | split]].
  - destruct (commits e u b d); [right | left]; apply H.
  - intros Hfail.
    assert (C : commits e u b d = false).
    { destruct Hfail; [now apply validation_fails_commits
                      | now apply insert_fails_spec]. }
    rewrite C in H. destruct H as (H1 & _ & H3). auto.
  - intros H201. destruct (commits e u b d).
    + destruct H as (Hs & Ht & _). rewrite Hs.
      split; [reflexivity |]. split; [exact Ht |].
      split; [apply placed_orders |].
      split; [apply placed_order_items |].
      split; [apply placed_food_items | apply placed_cart_items].
    + destruct H as (_ & _ & Hf). apply is_failure_not_201 in Hf. contradiction.
Qed.

(** The happy path commits everything; an unavailable line, and a body
    without the [special_instructions] field, leave the store as it was
    and no transaction open. *)
Lemma order_creation_all_or_nothing_witness :
  store (snd (post_orders Sample.quiet Sample.alice Sample.happy
                          (initial Sample.shop)))
    = placed Sample.quiet Sample.alice Sample.happy Sample.shop
  /\ store (snd (post_orders Sample.quiet Sample.alice Sample.unhappy
                             (initial Sample.shop)))
     = Sample.shop
  /\ tx (snd (post_orders Sample.quiet Sample.alice Sample.unhappy
                          (initial Sample.shop))) = None
  /\ store (snd (post_orders Sample.quiet Sample.alice
                             (Sample.terse 10 [Sample.line 100 2])
                             (initial Sample.shop)))
     = Sample.shop.
Proof.
  assert (V : validation_fails Sample.unhappy Sample.shop).
  { right. exists (Sample.line 102 1). split; [cbn; auto |].
    right. eexists. split; reflexivity. }
  pose proof (order_creation_all_or_nothing Sample.quiet Sample.alice
                Sample.happy Sample.shop _ _ (surjective_pairing _))
    as (_ & _ & _ & Hh).
  pose proof (order_creation_all_or_nothing Sample.quiet Sample.alice
                Sample.unhappy Sample.shop _ _ (surjective_pairing _))
    as (_ & _ & Hu & _).
  pose proof (order_creation_all_or_nothing Sample.quiet Sample.alice
                (Sample.terse 10 [Sample.line 100 2]) Sample.shop _ _
                (surjective_pairing _))
    as (_ & _ & Hm & _).
  split; [apply Hh; vm_compute; reflexivity |].
  destruct (Hu (or_introl V)) as (Hu1 & _ & Hu2).
  split; [exact Hu1 |]. split; [apply Hu2; reflexivity |].
  apply Hm. right. left. vm_compute. reflexivity.
Defined.

(** C2. When a creation goes through, the handler has computed
    subtotal = sum of unit_price_i * quantity_i over the lines,
    taxAmount = subtotal * 0.05 and finalAmount = subtotal + deliveryFee
    + taxAmount (sums and products of JavaScript numbers), and the Order
    row holds each of them as the DECIMAL(10,2) of that number; the
    discount is zero and the status is pending.  For the lines 2 at 10.00
    and 1 at 5.00 with a delivery fee of 2.50 the numbers are 25, 1.25,
    2.5 and 28.75 and the row holds 25.00, 1.25, 2.50 and 28.75. *)
Theorem order_pricing (e : env) (u : user) (b : order_request) (d : db)
    (resp : response) (w' : world) :
  commits e u b d = true ->
  post_orders e u b (initial d) = (resp, w') ->
  let o := placed_order e u b d in
  let lines := priced_lines d b in
  let fee := Num.parseFloat_or_zero (fee_of d b) in
  orders (store w') = orders d ++ [o]
  /\ lines <> []
  /\ Decimal.of_number (Pricing.subtotal lines) = Some (o_total_amount o)
  /\ Decimal.of_number (Pricing.subtotal lines * 0.05)%float
     = Some (o_tax_amount o)
  /\ Decimal.of_number fee = Some (o_delivery_fee o)
  /\ Decimal.of_number
       (Pricing.subtotal lines + fee + Pricing.subtotal lines * 0.05)%float
     = Some (o_final_amount o)
  /\ o_discount_amount o = 0
  /\ o_status o = pending
  /\ (lines = [(1000, 2); (500, 1)] -> fee_of d b = Some 250 ->
      Pricing.subtotal lines = 25%float
      /\ (Pricing.subtotal lines * 0.05)%float = 1.25%float
      /\ fee = 2.5%float
      /\ (Pricing.subtotal lines + fee + Pricing.subtotal lines * 0.05)%float
         = 28.75%float
      /\ o_total_amount o = 2500 /\ o_tax_amount o = 125
      /\ o_delivery_fee o = 250 /\ o_final_amount o = 2875).
Proof.
  intros C Hrun o lines fee.
  destruct (post_orders_run e u b d resp w' Hrun) as (_ & _ & H).
  rewrite C in H. destruct H as [Hs _].
  destruct (computed_amounts d b) as (A1 & A2 & A3 & A4).
  destruct (commits_fits e u b d C) as (_ & D1 & D2 & D3 & D4 & _).
  rewrite A1 in D1. rewrite A2 in D3. rewrite A3 in D2. rewrite A4 in D4.
  unfold Pricing.taxAmount in D3.
  unfold Pricing.finalAmount, Pricing.taxAmount in D4.
  fold o lines fee in D1, D2, D3, D4.
  split; [rewrite Hs; apply placed_orders |].
  split.
  { destruct (commits_spec e u b d C) as (Hv & Hall & _).
    unfold lines, priced_lines. intros Hnil.
    apply (f_equal (@List.length _)) in Hnil.
    rewrite length_map, draft_lines_length in Hnil by exact Hall.
    apply (valid_items_nonempty b Hv).
    now destruct (items b). }
  split; [exact D1 |]. split; [exact D3 |]. split; [exact D2 |].
  split; [exact D4 |]. split; [reflexivity |]. split; [reflexivity |].
  intros Hl Hfee. unfold fee in *. clearbody o. rewrite Hl, Hfee in *.
  assert (E1 : Pricing.subtotal [(1000, 2); (500, 1)] = 25%float)
    by (vm_compute; reflexivity).
  assert (E3 : Num.parseFloat_or_zero (Some 250) = 2.5%float)
    by (vm_compute; reflexivity).
  rewrite E1, E3 in *.
  assert (E2 : (25 * 0.05)%float = 1.25%float) by (vm_compute; reflexivity).
  rewrite E2 in *.
  assert (E4 : (25 + 2.5 + 1.25)%float = 28.75%float)
    by (vm_compute; reflexivity).
  rewrite E4 in *.
  assert (V1 : Decimal.of_number 25 = Some 2500) by (vm_compute; reflexivity).
  assert (V2 : Decimal.of_number 2.5 = Some 250) by (vm_compute; reflexivity).
  assert (V3 : Decimal.of_number 1.25 = Some 125) by (vm_compute; reflexivity).
  assert (V4 : Decimal.of_number 28.75 = Some 2875)
    by (vm_compute; reflexivity).
  rewrite V1 in D1. rewrite V2 in D2. rewrite V3 in D3. rewrite V4 in D4.
  injection D1 as D1. injection D2 as D2. injection D3 as D3.
  injection D4 as D4.
  repeat split; auto.
Qed.

(** The happy path of the specification. *)
Lemma order_pricing_witness :
  orders (store (snd (Sample.serve Sample.happy)))
  = orders Sample.shop
    ++ [placed_order Sample.quiet Sample.alice Sample.happy Sample.shop]
  /\ o_total_amount
       (placed_order Sample.quiet Sample.alice Sample.happy Sample.shop)
     = 2500
  /\ o_final_amount
       (placed_order Sample.quiet Sample.alice Sample.happy Sample.shop)
     = 2875.
Proof.
  assert (C : commits Sample.quiet Sample.alice Sample.happy Sample.shop
              = true) by (vm_compute; reflexivity).
  destruct (order_pricing Sample.quiet Sample.alice Sample.happy Sample.shop
              _ _ C (surjective_pairing _))
    as (H1 & _ & _ & _ & _ & _ & _ & _ & H2).
  destruct (H2 eq_refl eq_refl) as (_ & _ & _ & _ & T & _ & _ & F).
  split; [exact H1 |]. split; [exact T | exact F].
Defined.

(** The pricing of a creation is in binary floating point.  Three sweets
    at 0.10, 0.20 and 0.30 total 0.6000000000000001 in one order and 0.6
    in the other: the restaurant is notified of two different totals for
    the same set of lines, and the subtotal the handler computes is not
    the number read from 0.60.  What the DECIMAL(10,2) columns keep can
    differ too: five portions at 1889.34 and four breads at 2.05 make
    9454.90, the final amount is 9927.645, and the row holds 9927.64 when
    the portions come first and 9927.65 when they come last. *)
Lemma pricing_depends_on_line_order :
  statusCode (fst (Sample.serve Sample.sweets)) = 201
  /\ statusCode (fst (Sample.serve Sample.sweets_reversed)) = 201
  /\ Sample.notified_totals (snd (Sample.serve Sample.sweets))
     <> Sample.notified_totals (snd (Sample.serve Sample.sweets_reversed))
  /\ computed_total Sample.shop Sample.sweets <> Num.parseFloat 60
  /\ statusCode (fst (Sample.cater Sample.banquet)) = 201
  /\ statusCode (fst (Sample.cater Sample.banquet_reversed)) = 201
  /\ o_total_amount (Sample.last_order (snd (Sample.cater Sample.banquet)))
     = 945490
  /\ o_total_amount
       (Sample.last_order (snd (Sample.cater Sample.banquet_reversed)))
     = 945490
  /\ o_final_amount (Sample.last_order (snd (Sample.cater Sample.banquet)))
     = 992764
  /\ o_final_amount
       (Sample.last_order (snd (Sample.cater Sample.banquet_reversed)))
     = 992765.
Proof.
  split; [vm_compute; reflexivity |].
  split; [vm_compute; reflexivity |].
  split; [| split].
  - intros H.
    apply (f_equal (fun l => match l with
                             | [v] => PrimFloat.eqb v 0.63%float
                             | _ => false
                             end)) in H.
    vm_compute in H. discriminate.
  - intros H.
    apply (f_equal (fun v => PrimFloat.eqb v (Num.parseFloat 60))) in H.
    vm_compute in H. discriminate.
  - vm_compute. repeat split.
Qed.

(** C3, amended. The pricing of a creation is a function of the sequence
    of priced lines and of the delivery fee alone, in binary64 arithmetic
    (the engine [Pricing]): two creations that go through on the same
    priced lines, in the same order, and the same fee leave Order rows
    with identical subtotal, tax, delivery fee and final amount, whatever
    the stores, the customers and the environments; the final amount of
    the row is the DECIMAL(10,2) of the engine's number, and that number
    is the total the restaurant is notified of. *)
Theorem pricing_deterministic (e1 e2 : env) (u1 u2 : user)
    (b1 b2 : order_request) (d1 d2 : db) (r1 r2 : response) (w1 w2 : world) :
  commits e1 u1 b1 d1 = true -> commits e2 u2 b2 d2 = true ->
  priced_lines d1 b1 = priced_lines d2 b2 ->
  fee_of d1 b1 = fee_of d2 b2 ->
  post_orders e1 u1 b1 (initial d1) = (r1, w1) ->
  post_orders e2 u2 b2 (initial d2) = (r2, w2) ->
  exists o1 o2,
    orders (store w1) = orders d1 ++ [o1]
    /\ orders (store w2) = orders d2 ++ [o2]
    /\ o_total_amount o1 = o_total_amount o2
    /\ o_tax_amount o1 = o_tax_amount o2
    /\ o_delivery_fee o1 = o_delivery_fee o2
    /\ o_final_amount o1 = o_final_amount o2
    /\ Decimal.of_number
         (Pricing.finalAmount (priced_lines d1 b1) (fee_of d1 b1))
       = Some (o_final_amount o1)
    /\ (answers e1 = true ->
        Sample.notified_totals w1
        = [Pricing.finalAmount (priced_lines d1 b1) (fee_of d1 b1)])
    /\ (answers e2 = true ->
        Sample.notified_totals w2
        = [Pricing.finalAmount (priced_lines d1 b1) (fee_of d1 b1)]).
Proof.
  intros C1 C2 Hl Hf Hrun1 Hrun2.
  destruct (post_orders_run _ _ _ _ _ _ Hrun1) as (_ & _ & H1).
  destruct (post_orders_run _ _ _ _ _ _ Hrun2) as (_ & _ & H2).
  rewrite C1 in H1. rewrite C2 in H2.
  destruct H1 as (S1 & _ & N1). destruct H2 as (S2 & _ & N2).
  exists (placed_order e1 u1 b1 d1), (placed_order e2 u2 b2 d2).
  destruct (computed_amounts d1 b1) as (A1 & A2 & A3 & A4).
  destruct (computed_amounts d2 b2) as (B1 & B2 & B3 & B4).
  destruct (commits_fits e1 u1 b1 d1 C1) as (_ & _ & _ & _ & D4 & _).
  rewrite A4 in D4.
  rewrite <- Hl in B1, B2, B4. rewrite <- Hf in B3, B4.
  rewrite S1, S2, !placed_orders.
  cbn [placed_order o_total_amount o_tax_amount o_delivery_fee o_final_amount]
    in D4 |- *.
  rewrite A4 in D4.
  rewrite A1, A2, A3, A4, B1, B2, B3, B4.
  split; [reflexivity |]. split; [reflexivity |].
  split; [reflexivity |]. split; [reflexivity |].
  split; [reflexivity |]. split; [reflexivity |].
  split; [exact D4 |]. split.
  - intros Ans. rewrite Ans in N1. destruct N1 as [_ N1].
    unfold Sample.notified_totals. rewrite N1.
    unfold new_order_event. cbn [flat_map data app]. now rewrite A4.
  - intros Ans. rewrite Ans in N2. destruct N2 as [_ N2].
    unfold Sample.notified_totals. rewrite N2.
    unfold new_order_event. cbn [flat_map data app]. now rewrite B4.
Qed.

(** The happy path twice, by two customers, one of them with a socket
    layer that throws. *)
Lemma pricing_deterministic_witness :
  exists o1 o2,
    orders (store (snd (post_orders Sample.quiet Sample.alice Sample.happy
                                    (initial Sample.shop))))
      = orders Sample.shop ++ [o1]
    /\ orders (store (snd (post_orders Sample.deaf Sample.erin Sample.happy
                                       (initial Sample.shop))))
       = orders Sample.shop ++ [o2]
    /\ o_final_amount o1 = o_final_amount o2
    /\ Sample.notified_totals
         (snd (post_orders Sample.quiet Sample.alice Sample.happy
                           (initial Sample.shop)))
       = [Pricing.finalAmount (priced_lines Sample.shop Sample.happy)
                              (fee_of Sample.shop Sample.happy)].
Proof.
  assert (C1 : commits Sample.quiet Sample.alice Sample.happy Sample.shop
               = true) by (vm_compute; reflexivity).
  assert (C2 : commits Sample.deaf Sample.erin Sample.happy Sample.shop
               = true) by (vm_compute; reflexivity).
  destruct (pricing_deterministic Sample.quiet Sample.deaf Sample.alice
              Sample.erin Sample.happy Sample.happy Sample.shop Sample.shop
              _ _ _ _ C1 C2 eq_refl eq_refl
              (surjective_pairing _) (surjective_pairing _))
    as (o1 & o2 & H1 & H2 & _ & _ & _ & H3 & _ & H4 & _).
  exists o1, o2. split; [exact H1 |]. split; [exact H2 |].
  split; [exact H3 |]. apply H4. reflexivity.
Defined.

(** ** Collisions of order numbers *)





(** ** Notification *)

(** With a socket layer that throws, the order of the happy path is
    committed and stays in the store, nothing is emitted, and the caller
    is answered with status 500. *)
Lemma dispatch_failure_is_surfaced :
  commits Sample.deaf Sample.alice Sample.happy Sample.shop = true
  /\ store (snd (post_orders Sample.deaf Sample.alice Sample.happy
                             (initial Sample.shop)))
     = placed Sample.deaf Sample.alice Sample.happy Sample.shop
  /\ orders (store (snd (post_orders Sample.deaf Sample.alice Sample.happy
                                     (initial Sample.shop))))
     = orders Sample.shop
       ++ [placed_order Sample.deaf Sample.alice Sample.happy Sample.shop]
  /\ outbox (snd (post_orders Sample.deaf Sample.alice Sample.happy
                              (initial Sample.shop))) = []
  /\ statusCode (fst (post_orders Sample.deaf Sample.alice Sample.happy
                                  (initial Sample.shop))) = 500.
Proof. vm_compute. repeat split. Qed.

(** C7, amended. The notification of a new order is emitted only after
    the creation transaction has committed: whenever the outbox holds
    something, it is the one [new_order] event, the store is the
    committed one and no transaction is open.  A failure of the emission
    does not undo the persisted order, but it is surfaced: the handler
    rethrows, and the caller gets a failure instead of the 201 answer,
    of status 500 when the two SELECTs before the emission and the
    ROLLBACK of the catch block go through. *)
Theorem notification_after_commit (e : env) (u : user) (b : order_request)
    (d : db) (resp : response) (w' : world) :
  post_orders e u b (initial d) = (resp, w') ->
  (outbox w' <> [] ->
   outbox w' = [new_order_event e u b d]
   /\ store w' = placed e u b d
   /\ tx w' = None
   /\ resp = created e u b d)
  /\ (commits e u b d = true -> env_emit_throws e = true ->
      store w' = placed e u b d /\ tx w' = None /\ outbox w' = []
      /\ is_failure resp
      /\ (no_fault e [SelectOrder; SelectOrderItems; Rollback] = true ->
          statusCode resp = 500)).
Proof.
  intros Hrun.
  destruct (post_orders_run e u b d resp w' Hrun) as (_ & _ & H).
  split.
  - intros Hout. destruct (commits e u b d).
    + destruct H as (Hs & Ht & H). destruct (answers e).
      * destruct H as [Hr Ho]. auto.
      * destruct H as (_ & Ho & _). contradiction.
    + destruct H as (_ & Ho & _). contradiction.
  - intros C Hemit. rewrite C in H. destruct H as (Hs & Ht & H).
    unfold answers in H. rewrite Hemit, andb_false_r in H.
    destruct H as (Hf & Ho & H500). auto.
Qed.

Lemma notification_after_commit_witness :
  outbox (snd (post_orders Sample.quiet Sample.alice Sample.happy
                           (initial Sample.shop)))
  = [new_order_event Sample.quiet Sample.alice Sample.happy Sample.shop]
  /\ store (snd (post_orders Sample.quiet Sample.alice Sample.happy
                             (initial Sample.shop)))
     = placed Sample.quiet Sample.alice Sample.happy Sample.shop
  /\ statusCode (fst (post_orders Sample.deaf Sample.alice Sample.happy
                                  (initial Sample.shop))) = 500.
Proof.
  pose proof (notification_after_commit Sample.quiet Sample.alice Sample.happy
                Sample.shop _ _ (surjective_pairing _)) as [H _].
  pose proof (notification_after_commit Sample.deaf Sample.alice Sample.happy
                Sample.shop _ _ (surjective_pairing _)) as [_ H'].
  assert (N : outbox (snd (post_orders Sample.quiet Sample.alice Sample.happy
                                       (initial Sample.shop))) <> [])
    by (vm_compute; discriminate).
  assert (C : commits Sample.deaf Sample.alice Sample.happy Sample.shop
              = true) by (vm_compute; reflexivity).
  destruct (H N) as (H1 & H2 & _).
  destruct (H' C eq_refl) as (_ & _ & _ & _ & H3).
  split; [exact H1 |]. split; [exact H2 |]. apply H3. reflexivity.
Defined.

(** ** Order lines *)

Lemma line_views_set_price (orderId fid p : Z) (d : db) :
  Sql.line_views orderId (set_price fid p d) = Sql.line_views orderId d.
Proof.
  unfold Sql.line_views, set_price.
  cbn [order_items food_items set_food_items].
  apply flat_map_ext. intros oi.
  induction (food_items d) as [|f fs IH]; [reflexivity |].
  cbn [map filter].
  destruct (fi_id f =? fid); cbn [fi_id fi_name];
    destruct (fi_id f =? oi_food_item_id oi); cbn [map fi_name];
    now rewrite IH.
Qed.

Lemma Forall2_map_where {A B C} (P : A -> C -> Prop) (Q : A -> B -> Prop)
    (R : B -> Prop) (g : B -> C) (xs : list A) (ys : list B) :
  Forall2 Q xs ys ->
  (forall y, In y ys -> R y) ->
  (forall x y, Q x y -> R y -> P x (g y)) ->
  Forall2 P xs (map g ys).
Proof.
  intros HF. induction HF as [|x y xs ys Hq _ IH]; intros HR HP;
    [constructor |].
  cbn [map]. constructor.
  - apply HP; [exact Hq | apply HR; now left].
  - apply IH; [| exact HP]. intros y' Hy'. apply HR. now right.
Qed.

(** C8. When a creation goes through, the lines added to [order_items]
    are, in request order, one per requested line, each with the unit
    price of the catalog row found at order time, the requested quantity
    (within the INT column), the requests of the line, the id of the new
    order and, as line total, the DECIMAL(10,2) of that unit price times
    the quantity (a product of JavaScript numbers); they are in the store
    exactly when the Order row is.  A later change of a catalog price
    changes neither the stored lines nor what the order detail shows. *)
Theorem order_lines_snapshot (e : env) (u : user) (b : order_request)
    (d : db) (resp : response) (w' : world) :
  commits e u b d = true ->
  post_orders e u b (initial d) = (resp, w') ->
  exists lines,
    order_items (store w') = order_items d ++ lines
    /\ orders (store w') = orders d ++ [placed_order e u b d]
    /\ Forall2 (fun i l =>
                  exists f, catalog_item d (restaurant_id b) i = Some f
                    /\ oi_unit_price l = fi_price f
                    /\ oi_quantity l = quantity i
                    /\ Sql.in_int (oi_quantity l) = true
                    /\ oi_food_item_id l = food_item_id i
                    /\ oi_order_id l = o_id (placed_order e u b d)
                    /\ oi_special_requests l = or_null (special_requests i)
                    /\ Decimal.of_number
                         (Num.parseFloat (oi_unit_price l)
                          * Num.of_Z (oi_quantity l))%float
                       = Some (oi_total_price l))
               (items b) lines
    /\ forall fid p orderId,
         order_items (set_price fid p (store w')) = order_items (store w')
         /\ Sql.line_views orderId (set_price fid p (store w'))
            = Sql.line_views orderId (store w').
Proof.
  intros C Hrun.
  destruct (post_orders_run e u b d resp w' Hrun) as (_ & _ & H).
  rewrite C in H. destruct H as [Hs _].
  exists (map (Sql.order_item_row (Sql.next_id (orders d)))
              (draft_lines d (restaurant_id b) (items b))).
  rewrite Hs. split; [apply placed_order_items |].
  split; [apply placed_orders |]. split.
  - destruct (commits_spec e u b d C) as (_ & Hall & _).
    destruct (commits_fits e u b d C) as (_ & _ & _ & _ & _ & Hfit).
    eapply Forall2_map_where.
    + exact (draft_lines_spec d (restaurant_id b) (items b) Hall).
    + exact (lines_fit_each _ _ _ Hfit).
    + intros i l [f (Hc & _ & ->)] [Hq Hd]. exists f.
      cbn [Sql.order_item_row draft_line oi_unit_price oi_quantity
           oi_food_item_id oi_order_id oi_special_requests oi_total_price
           ol_unit_price ol_quantity ol_food_item_id ol_special_requests
           ol_total_price] in Hq, Hd |- *.
      repeat split; assumption.
  - intros fid p orderId. split; [reflexivity | apply line_views_set_price].
Qed.

Lemma order_lines_snapshot_witness :
  exists lines,
    order_items (store (snd (post_orders Sample.quiet Sample.alice Sample.happy
                                         (initial Sample.shop))))
    = order_items Sample.shop ++ lines
    /\ List.length lines = 2%nat.
Proof.
  assert (C : commits Sample.quiet Sample.alice Sample.happy Sample.shop
              = true) by (vm_compute; reflexivity).
  destruct (order_lines_snapshot Sample.quiet Sample.alice Sample.happy
              Sample.shop _ _ C (surjective_pairing _))
    as (lines & H1 & _ & H2 & _).
  exists lines. split; [exact H1 |].
  apply Forall2_length in H2. rewrite <- H2. reflexivity.
Defined.

(** ** Cart cleanup *)

(** C9. When a creation for restaurant R by customer C goes through, the
    cart entries left are exactly those that are not an entry of C for an
    item of R: every entry of C whose item belongs to R is gone, every
    entry of another customer and every entry of C for an item of another
    restaurant is kept.  The cleanup statement itself changes no other
    table, and the creation leaves users and restaurants as they were. *)
Theorem cart_cleanup (e : env) (u : user) (b : order_request) (d : db)
    (resp : response) (w' : world) :
  commits e u b d = true ->
  post_orders e u b (initial d) = (resp, w') ->
  (forall ci,
     In ci (cart_items (store w'))
     <-> In ci (cart_items d)
         /\ Sql.in_cart_of (u_id u) (restaurant_id b) d ci = false)
  /\ (forall ci, In ci (cart_items d) -> ci_customer_id ci <> u_id u ->
      In ci (cart_items (store w')))
  /\ (forall ci, In ci (cart_items d) ->
      (forall f, In f (food_items d) -> fi_id f = ci_food_item_id ci ->
                 fi_restaurant_id f <> restaurant_id b) ->
      In ci (cart_items (store w')))
  /\ (forall ci f, In ci (cart_items (store w')) ->
      ci_customer_id ci = u_id u ->
      In f (food_items d) -> fi_id f = ci_food_item_id ci ->
      fi_restaurant_id f <> restaurant_id b)
  /\ users (store w') = users d
  /\ restaurants (store w') = restaurants d
  /\ (forall t,
        let t' := Sql.delete_cart (u_id u) (restaurant_id b) t in
        users t' = users t /\ restaurants t' = restaurants t
        /\ food_items t' = food_items t /\ orders t' = orders t
        /\ order_items t' = order_items t).
Proof.
  intros C Hrun.
  destruct (post_orders_run e u b d resp w' Hrun) as (_ & _ & H).
  rewrite C in H. destruct H as [Hs _]. rewrite Hs, placed_cart_items.
  assert (K : forall ci,
             In ci (filter (fun ci => negb (Sql.in_cart_of (u_id u)
                                              (restaurant_id b) d ci))
                           (cart_items d))
             <-> In ci (cart_items d)
                 /\ Sql.in_cart_of (u_id u) (restaurant_id b) d ci = false).
  { intros ci. rewrite filter_In, negb_true_iff. reflexivity. }
  split; [exact K |]. split; [| split; [| split]].
  - intros ci Hin Hne. apply K. split; [exact Hin |].
    unfold Sql.in_cart_of. destruct (Z.eqb_spec (ci_customer_id ci) (u_id u));
      [contradiction | reflexivity].
  - intros ci Hin Hother. apply K. split; [exact Hin |].
    unfold Sql.in_cart_of. apply andb_false_intro2.
    destruct (existsb _ (food_items d)) eqn:E; [| reflexivity].
    apply existsb_exists in E as [f [Hf Hm]].
    apply andb_prop in Hm as [Hid Hr].
    apply Z.eqb_eq in Hid, Hr. now destruct (Hother f Hf Hid).
  - intros ci f Hin Hc Hf Hid Hr. apply K in Hin as [_ Hout].
    unfold Sql.in_cart_of in Hout. rewrite Hc, Z.eqb_refl in Hout.
    cbn [andb] in Hout.
    assert (existsb (fun f => (fi_id f =? ci_food_item_id ci)
                              && (fi_restaurant_id f =? restaurant_id b))
                    (food_items d) = true).
    { apply existsb_exists. exists f. split; [exact Hf |].
      now rewrite Hid, Hr, !Z.eqb_refl. }
    congruence.
  - destruct (placed_catalog e u b d) as [H1 H2].
    split; [exact H1 |]. split; [exact H2 |].
    intros t. cbn. repeat split.
Qed.

(** Erin's cart entry survives Alice's order, and Alice's entries for
    Bob's restaurant are gone. *)
Lemma cart_cleanup_witness :
  In (Sample.cart 4 5 100 3)
     (cart_items (store (snd (post_orders Sample.quiet Sample.alice
                                Sample.happy (initial Sample.shop)))))
  /\ ~ In (Sample.cart 1 1 100 2)
          (cart_items (store (snd (post_orders Sample.quiet Sample.alice
                                     Sample.happy (initial Sample.shop))))).
Proof.
  assert (C : commits Sample.quiet Sample.alice Sample.happy Sample.shop
              = true) by (vm_compute; reflexivity).
  destruct (cart_cleanup Sample.quiet Sample.alice Sample.happy Sample.shop
              _ _ C (surjective_pairing _)) as (K & H & _).
  split.
  - apply H; [cbn; auto |]. cbn. lia.
  - intros Hin.
    destruct (proj1 (K (Sample.cart 1 1 100 2)) Hin) as [_ Hout].
    vm_compute in Hout. discriminate.
Defined.

(** ** Statements on the pool *)

Lemma set_store_same (w : world) : set_store (store w) w = w.
Proof. now destruct w. Qed.

Lemma pool_select {R} (e : env) (s : stmt) (q : db -> list R) (w : world) :
  env_fault e s = None ->
  pool_execute e s (Sql.select q) w = (Ok (q (store w)), w).
Proof.
  intros H. unfold pool_execute, Sql.select. rewrite H.
  now rewrite set_store_same.
Qed.

Lemma pool_modify (e : env) (s : stmt) (f : db -> db) (w : world) :
  env_fault e s = None ->
  pool_execute e s (Sql.modify f) w = (Ok tt, set_store (f (store w)) w).
Proof. intros H. unfold pool_execute, Sql.modify. now rewrite H. Qed.

Lemma pool_fault {A} (e : env) (s : stmt) (run : db -> result (A * db))
    (w : world) (code : string) :
  env_fault e s = Some code ->
  pool_execute e s run w = (Throw (DriverError code), w).
Proof. intros H. unfold pool_execute. now rewrite H. Qed.

(** ** Status names *)

Lemma status_of_name_name (st : order_status) :
  status_of_name (order_status_name st) = Some st.
Proof. now destruct st. Qed.

Lemma status_of_name_inv (s : string) (st : order_status) :
  status_of_name s = Some st -> s = order_status_name st.
Proof.
  unfold status_of_name. intros H. apply find_some in H as [_ H].
  now apply String.eqb_eq.
Qed.

Lemma delivered_name (st : order_status) :
  String.eqb (order_status_name st) "delivered"
  = match st with delivered => true | _ => false end.
Proof. now destruct st. Qed.

(** ** Cooks and their restaurants *)

Lemma not_operating_cook (u : user) (X : order) (d : db) :
  ~ operates u X d ->
  match Sql.restaurants_of_cook (u_id u) d with
  | [] => True
  | r :: _ => (o_restaurant_id X =? r_id r) = false
  end.
Proof.
  intros Hn. destruct (Sql.restaurants_of_cook (u_id u) d) as [|r rs] eqn:E;
    [exact I |].
  assert (Hin : In r (Sql.restaurants_of_cook (u_id u) d))
    by (rewrite E; now left).
  unfold Sql.restaurants_of_cook in Hin. apply filter_In in Hin as [Hin Hc].
  apply Z.eqb_eq in Hc. apply Z.eqb_neq. intros Heq.
  apply Hn. exists r. auto.
Qed.

Lemma first_restaurant_operates (u : user) (X : order) (d : db)
    (r : restaurant) (rs : list restaurant) :
  Sql.restaurants_of_cook (u_id u) d = r :: rs ->
  r_id r = o_restaurant_id X -> operates u X d.
Proof.
  intros E Hr.
  assert (Hin : In r (Sql.restaurants_of_cook (u_id u) d))
    by (rewrite E; now left).
  unfold Sql.restaurants_of_cook in Hin. apply filter_In in Hin as [Hin Hc].
  apply Z.eqb_eq in Hc. exists r. auto.
Qed.

(** ** Reading an order *)

Lemma get_order_customer_denied (e : env) (u : user) (orderId : Z) (d : db)
    (X : order) (r : restaurant) (cu : user) (rest : list order_view) :
  Sql.order_views orderId d = (X, r, cu) :: rest ->
  env_fault e SelectOrder = None ->
  u_user_type u = customer -> o_customer_id X <> u_id u ->
  get_orders_id e u orderId (initial d)
  = (denied "Unauthorized to view this order", initial d).
Proof.
  intros Hv F Hu Hne. unfold get_orders_id, asyncHandler, get_order.
  unfold bind at 1. rewrite pool_select by exact F.
  cbn [store initial]. rewrite Hv, Hu. cbn [fst user_type_eqb andb].
  destruct (Z.eqb_spec (o_customer_id X) (u_id u)); [contradiction |].
  reflexivity.
Qed.

Lemma get_order_cook_denied (e : env) (u : user) (orderId : Z) (d : db)
    (X : order) (r : restaurant) (cu : user) (rest : list order_view) :
  Sql.order_views orderId d = (X, r, cu) :: rest ->
  env_fault e SelectOrder = None ->
  env_fault e SelectCookRestaurants = None ->
  u_user_type u = cook -> ~ operates u X d ->
  get_orders_id e u orderId (initial d)
  = (denied "Unauthorized to view this order", initial d).
Proof.
  intros Hv F1 F2 Hu Hn. unfold get_orders_id, asyncHandler, get_order.
  unfold bind at 1. rewrite pool_select by exact F1.
  cbn [store initial]. rewrite Hv, Hu. cbn [fst user_type_eqb andb].
  unfold bind at 1. unfold bind at 1. rewrite pool_select by exact F2.
  cbn [store initial].
  pose proof (not_operating_cook u X d Hn) as Hc.
  destruct (Sql.restaurants_of_cook (u_id u) d) as [|r' rs]; [reflexivity |].
  rewrite Hc. reflexivity.
Qed.

(** ** Updating the status *)

Lemma update_status_cook_denied (e : env) (u : user) (orderId : Z) (d : db)
    (X : order) (rest : list order) (status : string) (st : order_status) :
  Sql.order_by_id orderId d = X :: rest ->
  status_of_name status = Some st ->
  env_fault e SelectOrder = None ->
  env_fault e SelectCookRestaurants = None ->
  u_user_type u = cook -> ~ operates u X d ->
  patch_orders_id_status e u orderId status (initial d)
  = (denied "Unauthorized to update this order", initial d).
Proof.
  intros Hv Hst F1 F2 Hu Hn.
  unfold patch_orders_id_status, asyncHandler, update_status.
  rewrite Hst. unfold bind at 1. rewrite pool_select by exact F1.
  cbn [store initial]. rewrite Hv, Hu.
  unfold bind at 1. unfold bind at 1. rewrite pool_select by exact F2.
  cbn [store initial].
  pose proof (not_operating_cook u X d Hn) as Hc.
  destruct (Sql.restaurants_of_cook (u_id u) d) as [|r' rs]; [reflexivity |].
  rewrite Hc. reflexivity.
Qed.

Lemma update_status_customer_denied (e : env) (u : user) (orderId : Z)
    (d : db) (X : order) (rest : list order) (status : string)
    (st : order_status) :
  Sql.order_by_id orderId d = X :: rest ->
  status_of_name status = Some st ->
  env_fault e SelectOrder = None ->
  u_user_type u = customer ->
  patch_orders_id_status e u orderId status (initial d)
  = (denied "Insufficient permissions", initial d).
Proof.
  intros Hv Hst F1 Hu.
  unfold patch_orders_id_status, asyncHandler, update_status.
  rewrite Hst. unfold bind at 1. rewrite pool_select by exact F1.
  cbn [store initial]. rewrite Hv, Hu. reflexivity.
Qed.

Lemma raised_not_200 (x : exn) :
  raised x -> statusCode (errorHandler x) = 200 -> False.
Proof. intros H E. destruct (errorHandler_raised x H) as [H400 _]. lia. Qed.

(** A transition that is answered 200 was asked by an administrator or
    by a cook who operates the restaurant of the order. *)
Lemma update_status_ok_inv (e : env) (u : user) (orderId : Z) (d : db)
    (status : string) (resp : response) (w' : world) :
  patch_orders_id_status e u orderId status (initial d) = (resp, w') ->
  statusCode resp = 200 ->
  exists X rest, Sql.order_by_id orderId d = X :: rest
    /\ (u_user_type u = admin \/ (u_user_type u = cook /\ operates u X d)).
Proof.
  unfold patch_orders_id_status, asyncHandler, update_status.
  destruct (status_of_name status) as [st|].
  2:{ unfold ret. intros [= <- <-]. cbn. lia. }
  unfold bind at 1.
  destruct (env_fault e SelectOrder) as [code|] eqn:F1.
  { rewrite (pool_fault _ _ _ _ code F1). intros [= <- <-] H.
    exfalso. revert H. apply raised_not_200. constructor. }
  rewrite pool_select by exact F1. cbn [store initial].
  destruct (Sql.order_by_id orderId d) as [|X rest].
  { unfold throw. intros [= <- <-] H.
    exfalso. revert H. apply raised_not_200. constructor. lia. }
  intros Hrun H200. exists X, rest. split; [reflexivity |].
  revert Hrun. unfold bind at 1.
  destruct (u_user_type u) eqn:Hu.
  - unfold throw. intros [= <- <-].
    exfalso. revert H200. apply raised_not_200. constructor. lia.
  - unfold bind at 1.
    destruct (env_fault e SelectCookRestaurants) as [code|] eqn:F2.
    { rewrite (pool_fault _ _ _ _ code F2). intros [= <- <-].
      exfalso. revert H200. apply raised_not_200. constructor. }
    rewrite pool_select by exact F2. cbn [store initial].
    destruct (Sql.restaurants_of_cook (u_id u) d) as [|r rs] eqn:Hr.
    { unfold throw. intros [= <- <-].
      exfalso. revert H200. apply raised_not_200. constructor. lia. }
    destruct (Z.eqb_spec (o_restaurant_id X) (r_id r)) as [Heq | Hne].
    + intros _. right. split; [reflexivity |].
      apply (first_restaurant_operates u X d r rs Hr). now symmetry.
    + cbn [negb]. unfold throw. intros [= <- <-].
      exfalso. revert H200. apply raised_not_200. constructor. lia.
  - intros _. now left.
Qed.

Lemma update_order_In (orderId : Z) (st : order_status) (t : option Z)
    (d : db) (X : order) :
  In X (orders d) -> o_id X = orderId ->
  exists X', In X' (orders (Sql.update_order orderId st t d))
    /\ o_id X' = orderId
    /\ o_status X' = st
    /\ o_delivered_at X'
       = match t with Some v => Some v | None => o_delivered_at X end
    /\ o_customer_id X' = o_customer_id X
    /\ o_restaurant_id X' = o_restaurant_id X
    /\ o_order_number X' = o_order_number X
    /\ o_final_amount X' = o_final_amount X.
Proof.
  intros Hin Hid. eexists. split.
  - unfold Sql.update_order. cbn [orders set_orders].
    apply in_map_iff. exists X. split; [| exact Hin].
    rewrite Hid, Z.eqb_refl. reflexivity.
  - cbn. repeat split.
Qed.

(** The run of an authorized transition when nothing fails. *)
Lemma update_status_run (e : env) (u : user) (orderId : Z) (d : db)
    (X : order) (rest : list order) (status : string) (st : order_status) :
  Sql.order_by_id orderId d = X :: rest ->
  status_of_name status = Some st ->
  may_update u X d ->
  no_fault e [SelectOrder; SelectCookRestaurants; UpdateOrder] = true ->
  env_emit_throws e = false ->
  patch_orders_id_status e u orderId status (initial d)
  = ({| statusCode := 200; body := StatusUpdated |},
     {| store := Sql.update_order orderId st (stamp e st) d;
        tx := None;
        outbox := [ {| room := ("user_" ++ Js.toString (o_customer_id X))%string;
                       data := order_status_changed orderId status
                                 (o_order_number X) |} ];
        clock_reads := match st with delivered => 1%nat | _ => 0%nat end;
        rng_reads := 0%nat |}).
Proof.
  intros Hv Hst Hmay F Hemit.
  unfold no_fault in F. cbn [forallb] in F.
  destruct (env_fault e SelectOrder) eqn:F1; [discriminate |].
  destruct (env_fault e SelectCookRestaurants) eqn:F2; [discriminate |].
  destruct (env_fault e UpdateOrder) eqn:F3; [discriminate |]. clear F.
  unfold patch_orders_id_status, asyncHandler, update_status.
  rewrite Hst. unfold bind at 1. rewrite pool_select by exact F1.
  cbn [store initial]. rewrite Hv.
  rewrite (status_of_name_inv _ _ Hst), delivered_name.
  assert (Hauth :
    (match u_user_type u with
     | customer => throw (AppError "Insufficient permissions" 403)
     | cook =>
         restaurants <- pool_execute e SelectCookRestaurants
           (Sql.select (Sql.restaurants_of_cook (u_id u))) ;;
         match restaurants with
         | [] => throw (AppError "Unauthorized to update this order" 403)
         | r :: _ =>
             if negb (o_restaurant_id X =? r_id r)
             then throw (AppError "Unauthorized to update this order" 403)
             else ret tt
         end
     | admin => ret tt
     end) (initial d) = (Ok tt, initial d)).
  { destruct Hmay as [Ha | [Hc (r & rs & Hr & Hid)]].
    - now rewrite Ha.
    - rewrite Hc. unfold bind. rewrite pool_select by exact F2.
      cbn [store initial]. rewrite Hr, Hid, Z.eqb_refl. reflexivity. }
  unfold bind at 1. rewrite Hauth.
  unfold bind at 1.
  destruct st; unfold bind, date_now, ret, emit; cbn [store initial];
    rewrite pool_modify by exact F3; rewrite Hemit; reflexivity.
Qed.

(** ** Main results on reading and updating *)

(** C4. For an order X that exists: a customer who did not place X is
    refused its detail with status 403; a cook who does not operate the
    restaurant of X is refused both its detail and any transition of it
    with status 403; a customer, the one who placed X included, is refused
    every transition with status 403; in each case the store is
    untouched.  A transition is answered 200 only to an administrator or
    to a cook who operates the restaurant of the order.  (The two SELECTs
    of the checks are assumed to go through.) *)
Theorem order_authorization (e : env) (u : user) (orderId : Z) (d : db) :
  env_fault e SelectOrder = None ->
  env_fault e SelectCookRestaurants = None ->
  (forall X r cu rest,
     Sql.order_views orderId d = (X, r, cu) :: rest ->
     (u_user_type u = customer -> o_customer_id X <> u_id u ->
      get_orders_id e u orderId (initial d)
      = (denied "Unauthorized to view this order", initial d))
     /\ (u_user_type u = cook -> ~ operates u X d ->
         get_orders_id e u orderId (initial d)
         = (denied "Unauthorized to view this order", initial d)))
  /\ (forall X rest status st,
        Sql.order_by_id orderId d = X :: rest ->
        status_of_name status = Some st ->
        (u_user_type u = cook -> ~ operates u X d ->
         patch_orders_id_status e u orderId status (initial d)
         = (denied "Unauthorized to update this order", initial d))
        /\ (u_user_type u = customer ->
            patch_orders_id_status e u orderId status (initial d)
            = (denied "Insufficient permissions", initial d)))
  /\ (forall status resp w',
        patch_orders_id_status e u orderId status (initial d) = (resp, w') ->
        statusCode resp = 200 ->
        exists X rest,
          Sql.order_by_id orderId d = X :: rest
          /\ (u_user_type u = admin
              \/ (u_user_type u = cook /\ operates u X d))).
Proof.
  intros F1 F2. split; [| split].
  - intros X r cu rest Hv. split.
    + now apply (get_order_customer_denied e u orderId d X r cu rest).
    + now apply (get_order_cook_denied e u orderId d X r cu rest).
  - intros X rest status st Hv Hst. split.
    + now apply (update_status_cook_denied e u orderId d X rest status st).
    + now apply (update_status_customer_denied e u orderId d X rest status st).
  - intros status resp w'. apply update_status_ok_inv.
Qed.

(** Alice may not read Erin's order, and Erin may not cancel her own. *)
Lemma order_authorization_witness :
  get_orders_id Sample.quiet Sample.alice 1 (initial Sample.shop)
  = (denied "Unauthorized to view this order", initial Sample.shop)
  /\ patch_orders_id_status Sample.quiet Sample.erin 1 "cancelled"
       (initial Sample.shop)
     = (denied "Insufficient permissions", initial Sample.shop).
Proof.
  split.
  - destruct (order_authorization Sample.quiet Sample.alice 1 Sample.shop
                eq_refl eq_refl) as [H _].
    destruct (H Sample.old_order _ _ _ eq_refl) as [Hc _].
    apply Hc; [reflexivity |]. cbn. lia.
  - destruct (order_authorization Sample.quiet Sample.erin 1 Sample.shop
                eq_refl eq_refl) as (_ & H & _).
    destruct (H Sample.old_order [] "cancelled" cancelled eq_refl eq_refl)
      as [_ Hc].
    apply Hc. reflexivity.
Defined.

(** C5. Each of the six status names is accepted as a target.  For an
    existing order, whatever its current status, a transition asked by an
    administrator or by the cook of its restaurant, with nothing failing
    in the store or the socket, is answered 200 and sets the status to the
    target; a transition to delivered stamps [delivered_at] with the
    clock reading, and a transition to any other status leaves
    [delivered_at] as it was; the other orders are not touched. *)
Theorem status_transition (e : env) (u : user) (orderId : Z) (d : db)
    (X : order) (rest : list order) (status : string) (st : order_status) :
  Sql.order_by_id orderId d = X :: rest ->
  status_of_name status = Some st ->
  may_update u X d ->
  no_fault e [SelectOrder; SelectCookRestaurants; UpdateOrder] = true ->
  env_emit_throws e = false ->
  (forall s, status_of_name (order_status_name s) = Some s)
  /\ fst (patch_orders_id_status e u orderId status (initial d))
     = {| statusCode := 200; body := StatusUpdated |}
  /\ (let d' := store (snd (patch_orders_id_status e u orderId status
                                                   (initial d))) in
      d' = Sql.update_order orderId st (stamp e st) d
      /\ (exists X',
            In X' (orders d') /\ o_id X' = orderId /\ o_status X' = st
            /\ (st = delivered -> o_delivered_at X' = Some (env_clock e 0))
            /\ (st <> delivered -> o_delivered_at X' = o_delivered_at X))
      /\ (forall o, In o (orders d) -> o_id o <> orderId ->
                    In o (orders d'))).
Proof.
  intros Hv Hst Hmay F Hemit.
  split; [exact status_of_name_name |].
  rewrite (update_status_run e u orderId d X rest status st Hv Hst Hmay F Hemit).
  cbn [fst snd store]. split; [reflexivity |]. split; [reflexivity |].
  assert (HX : In X (Sql.order_by_id orderId d)) by (rewrite Hv; now left).
  unfold Sql.order_by_id in HX. apply filter_In in HX as [Hin Hid].
  apply Z.eqb_eq in Hid. split.
  - destruct (update_order_In orderId st (stamp e st) d X Hin Hid)
      as (X' & H1 & H2 & H3 & H4 & _).
    exists X'. split; [exact H1 |]. split; [exact H2 |]. split; [exact H3 |].
    split.
    + intros ->. exact H4.
    + intros Hn. rewrite H4. now destruct st.
  - intros o Ho Hne. unfold Sql.update_order. cbn [orders set_orders].
    apply in_map_iff. exists o. split; [| exact Ho].
    destruct (Z.eqb_spec (o_id o) orderId); [contradiction | reflexivity].
Qed.

(** Carol, the cook of the restaurant, cancels Erin's delivered order. *)
Lemma status_transition_witness :
  fst (patch_orders_id_status Sample.quiet Sample.carol 1 "cancelled"
         (initial Sample.shop))
  = {| statusCode := 200; body := StatusUpdated |}
  /\ exists X',
       In X' (orders (store (snd (patch_orders_id_status Sample.quiet
                                    Sample.carol 1 "cancelled"
                                    (initial Sample.shop)))))
       /\ o_status X' = cancelled
       /\ o_delivered_at X' = o_delivered_at Sample.old_order.
Proof.
  assert (M : may_update Sample.carol Sample.old_order Sample.shop).
  { right. split; [reflexivity |]. eexists _, _. split; reflexivity. }
  destruct (status_transition Sample.quiet Sample.carol 1 Sample.shop
              Sample.old_order [] "cancelled" cancelled
              eq_refl eq_refl M eq_refl eq_refl)
    as (_ & H1 & _ & (X' & H2 & _ & H3 & _ & H4) & _).
  split; [exact H1 |].
  exists X'. split; [exact H2 |]. split; [exact H3 |].
  apply H4. discriminate.
Defined.

(* ===================================================================== *)
(** * Further properties of the order routes *)
(* ===================================================================== *)

(** ** When two order numbers coincide *)

Lemma append_inj_length (a b c d : string) :
  String.length a = String.length c ->
  (a ++ b)%string = (c ++ d)%string -> a = c /\ b = d.
Proof.
  revert c. induction a as [|x a IH]; intros [|y c] Hl H;
    try discriminate; [now split |].
  cbn in Hl, H. injection H as -> H. injection Hl as Hl.
  destruct (IH c Hl H) as [-> ->]. now split.
Qed.

Lemma digit_char_inj (a b : Z) :
  0 <= a < 10 -> 0 <= b < 10 -> Js.digit_char a = Js.digit_char b -> a = b.
Proof.
  intros Ha Hb H.
  assert (Ea : In a [0; 1; 2; 3; 4; 5; 6; 7; 8; 9]) by (simpl; lia).
  assert (Eb : In b [0; 1; 2; 3; 4; 5; 6; 7; 8; 9]) by (simpl; lia).
  simpl in Ea, Eb.
  repeat (destruct Ea as [<- | Ea]);
    repeat (destruct Eb as [<- | Eb]);
    try reflexivity; try contradiction; vm_compute in H; discriminate.
Qed.

Lemma last_digits_inj (k : nat) :
  forall a b, 0 <= a < 10 ^ Z.of_nat k -> 0 <= b < 10 ^ Z.of_nat k ->
    Js.last_digits k a = Js.last_digits k b -> a = b.
Proof.
  induction k as [|k IH]; intros a b Ha Hb H.
  - cbn in Ha, Hb. lia.
  - rewrite Nat2Z.inj_succ, Z.pow_succ_r in Ha, Hb by lia.
    cbn [Js.last_digits] in H.
    apply append_inj_length in H; [| now rewrite !last_digits_length].
    destruct H as [H1 H2]. injection H2 as H2.
    apply digit_char_inj in H2; try (apply Z.mod_pos_bound; lia).
    assert (E : a / 10 = b / 10).
    { apply IH; [| | exact H1]; split;
        try (apply Z.div_pos; lia); apply Z.div_lt_upper_bound; lia. }
    rewrite (Z.div_mod a 10), (Z.div_mod b 10) by lia. lia.
Qed.

Lemma last_digits_mod (k : nat) :
  forall n, Js.last_digits k (n mod 10 ^ Z.of_nat k) = Js.last_digits k n.
Proof.
  induction k as [|k IH]; intros n; [reflexivity |].
  rewrite Nat2Z.inj_succ, Z.pow_succ_r by lia.
  pose proof (Z.pow_pos_nonneg 10 (Z.of_nat k)) as Hp.
  cbn [Js.last_digits].
  rewrite Z.rem_mul_r by lia.
  pose proof (Z.mod_pos_bound n 10 ltac:(lia)) as Hr.
  rewrite <- (Z.div_unique (n mod 10 + 10 * ((n / 10) mod 10 ^ Z.of_nat k)) 10
                ((n / 10) mod 10 ^ Z.of_nat k) (n mod 10)) by lia.
  rewrite <- (Z.mod_unique (n mod 10 + 10 * ((n / 10) mod 10 ^ Z.of_nat k)) 10
                ((n / 10) mod 10 ^ Z.of_nat k) (n mod 10)) by lia.
  now rewrite IH.
Qed.

(** X1. Two order numbers coincide exactly when the two readings of
    the clock agree in their last six decimal digits and the two draws are
    equal: for timestamps of at least six digits and draws in 0..999,
    [generateOrderNumber] gives the same text if and only if the
    timestamps are congruent modulo 1000000 (the same millisecond, or
    milliseconds a multiple of 1000 seconds apart) and the draws are the
    same. *)
Theorem order_numbers_coincide (n1 n2 r1 r2 : Z) :
  100000 <= n1 -> 100000 <= n2 -> 0 <= r1 < 1000 -> 0 <= r2 < 1000 ->
  (generateOrderNumber n1 r1 = generateOrderNumber n2 r2
   <-> n1 mod 1000000 = n2 mod 1000000 /\ r1 = r2).
Proof.
  intros H1 H2 Hr1 Hr2.
  rewrite !generateOrderNumber_shape by assumption.
  split.
  - intros H. apply append_inv_head in H.
    apply append_inj_length in H; [| now rewrite !last_digits_length].
    destruct H as [Ha Hb].
    split.
    + rewrite <- (last_digits_mod 6 n1), <- (last_digits_mod 6 n2) in Ha.
      apply (last_digits_inj 6) in Ha; [exact Ha | |];
        apply Z.mod_pos_bound; reflexivity.
    + apply (last_digits_inj 3) in Hb; [exact Hb | |]; cbn; lia.
  - intros [Hn ->].
    rewrite <- (last_digits_mod 6 n1), <- (last_digits_mod 6 n2).
    change (10 ^ Z.of_nat 6) with 1000000. now rewrite Hn.
Qed.

Lemma order_numbers_coincide_witness :
  generateOrderNumber 1730500000123 7 = generateOrderNumber 1731234000123 7.
Proof.
  apply (order_numbers_coincide 1730500000123 1731234000123 7 7); try lia.
  split; reflexivity.
Defined.

(** ** Which error a creation reports *)

Lemma validate_items_first_failure (e : env) (rid : Z)
    (pre : list item_request) (i : item_request) (post : list item_request) :
  forall k total acc w,
    no_fault e (map SelectFoodItem (seq k (S (List.length pre)))) = true ->
    forallb (orderable (conn_read w) rid) pre = true ->
    orderable (conn_read w) rid i = false ->
    validate_items e rid k (pre ++ i :: post) total acc w
    = (Throw (line_error (conn_read w) rid i), w).
Proof.
  induction pre as [|p pre IH]; intros k total acc w F Hpre Hi.
  - cbn [app validate_items]. unfold bind.
    cbn [List.length seq map] in F. rewrite no_fault_cons in F.
    destruct (env_fault e (SelectFoodItem k)) eqn:Fk; [discriminate |].
    rewrite execute_select by exact Fk.
    unfold orderable, catalog_item in Hi. unfold line_error.
    destruct (Sql.food_item_of (food_item_id i) rid (conn_read w)) as [|f fs];
      [reflexivity |].
    cbn [hd_error] in Hi. rewrite Hi. reflexivity.
  - cbn [app validate_items]. unfold bind at 1.
    cbn [List.length seq map] in F. rewrite no_fault_cons in F.
    destruct (env_fault e (SelectFoodItem k)) eqn:Fk; [discriminate |].
    rewrite execute_select by exact Fk.
    cbn [forallb] in Hpre. apply andb_prop in Hpre as [Hp Hpre].
    unfold orderable, catalog_item in Hp.
    destruct (Sql.food_item_of (food_item_id p) rid (conn_read w)) as [|f fs];
      [discriminate |].
    cbn [hd_error] in Hp. rewrite Hp. cbn [negb].
    apply IH; assumption.
Qed.

(** What the route answers when the staging throws an application error
    and the rollback goes through. *)
Lemma post_orders_app_error (e : env) (u : user) (b : order_request) (d : db)
    (a m : string) (c : Z) :
  u_user_type u = customer ->
  valid_order_request b = true ->
  delivery_address b = Some a ->
  no_fault e [GetConnection; BeginTransaction; Rollback] = true ->
  stage_order e u b a (begun d) = (Throw (AppError m c), begun d) ->
  c <> 0 -> m <> ""%string ->
  post_orders e u b (initial d)
  = ({| statusCode := c; body := Failure m |}, initial d).
Proof.
  intros Hu Hv Ha F Hs Hc Hm.
  unfold no_fault in F. cbn [forallb] in F.
  destruct (env_fault e GetConnection) eqn:F1; [discriminate |].
  destruct (env_fault e BeginTransaction) eqn:F2; [discriminate |].
  destruct (env_fault e Rollback) eqn:F3; [discriminate |].
  unfold post_orders, requireRole. rewrite Hu.
  cbn [existsb orb user_type_eqb negb].
  unfold asyncHandler, create_order. rewrite Hv, Ha.
  unfold bind at 1, getConnection. rewrite F1.
  unfold bind at 1, beginTransaction. rewrite F2.
  change (set_tx (Some (conn_read (initial d)))
                 (set_store (conn_read (initial d)) (initial d)))
    with (begun d).
  rewrite finally_release.
  unfold try_catch, place_order. unfold bind at 1. rewrite Hs.
  unfold bind, rollback, throw. rewrite F3.
  unfold errorHandler, code_is. cbn.
  destruct (Z.eqb_spec c 0); [contradiction |].
  destruct m; [contradiction | reflexivity].
Qed.

(** X2. Which error a refused creation reports.  For a customer and a
    body that passes the validators, with the driver working on the
    statements run: when the restaurant is absent or inactive the answer
    is 404 [Restaurant not found or inactive]; otherwise the first line
    of the request, in request order, that cannot be ordered decides, and
    the lines after it are not looked at: 404 [Food item N not found]
    when the restaurant has no such item, 400 [Food item "name" is not
    available] when it has one that is not available.  In each case the
    store and the outbox are as before. *)
Theorem creation_error_precedence (e : env) (u : user) (b : order_request)
    (d : db) :
  u_user_type u = customer ->
  valid_order_request b = true ->
  no_fault e [GetConnection; BeginTransaction; SelectRestaurant; Rollback]
  = true ->
  (Sql.active_restaurant (restaurant_id b) d = [] ->
   post_orders e u b (initial d)
   = ({| statusCode := 404;
         body := Failure "Restaurant not found or inactive" |}, initial d))
  /\ (forall pre i post,
        items b = pre ++ i :: post ->
        Sql.active_restaurant (restaurant_id b) d <> [] ->
        no_fault e (map SelectFoodItem (seq 0 (S (List.length pre)))) = true ->
        forallb (orderable d (restaurant_id b)) pre = true ->
        orderable d (restaurant_id b) i = false ->
        post_orders e u b (initial d)
        = ({| statusCode :=
                match Sql.food_item_of (food_item_id i) (restaurant_id b) d with
                | [] => 404
                | _ :: _ => 400
                end;
              body :=
                Failure (e_message (line_error d (restaurant_id b) i)) |},
           initial d)).
Proof.
  intros Hu Hv F.
  destruct (delivery_address b) as [a|] eqn:Ha; cycle 1.
  { unfold valid_order_request in Hv. rewrite Ha in Hv.
    rewrite andb_false_r in Hv. discriminate. }
  assert (F' : no_fault e [GetConnection; BeginTransaction; Rollback] = true
               /\ env_fault e SelectRestaurant = None).
  { unfold no_fault in *. cbn [forallb] in *.
    destruct (env_fault e GetConnection), (env_fault e BeginTransaction),
      (env_fault e SelectRestaurant), (env_fault e Rollback);
      try discriminate. now split. }
  destruct F' as [F1 F2]. split.
  - intros Hr.
    apply (post_orders_app_error e u b d a); try assumption; try discriminate.
    unfold stage_order, bind. rewrite execute_select by exact F2.
    change (conn_read (begun d)) with d. now rewrite Hr.
  - intros pre i post Hitems Hr Fs Hpre Hi.
    assert (Hstage : stage_order e u b a (begun d)
                     = (Throw (line_error d (restaurant_id b) i), begun d)).
    { unfold stage_order. unfold bind at 1.
      rewrite execute_select by exact F2.
      change (conn_read (begun d)) with d.
      destruct (Sql.active_restaurant (restaurant_id b) d) as [|r rs];
        [contradiction |].
      unfold bind at 1. rewrite Hitems.
      rewrite (validate_items_first_failure e (restaurant_id b) pre i post
                 0%nat _ _ (begun d) Fs Hpre Hi).
      reflexivity. }
    unfold line_error in *.
    destruct (Sql.food_item_of (food_item_id i) (restaurant_id b) d)
      as [|f fs].
    + apply (post_orders_app_error e u b d a); try assumption;
        discriminate.
    + apply (post_orders_app_error e u b d a); try assumption;
        discriminate.
Qed.

Lemma creation_error_precedence_witness :
  Sample.serve Sample.unhappy
  = ({| statusCode := 400;
        body := Failure ("Food item " ++ dquote ++ "special" ++ dquote
                         ++ " is not available")%string |},
     initial Sample.shop)
  /\ Sample.serve (Sample.request 10 [Sample.line 200 1])
     = ({| statusCode := 404; body := Failure "Food item 200 not found" |},
        initial Sample.shop).
Proof.
  split.
  - destruct (creation_error_precedence Sample.quiet Sample.alice
                Sample.unhappy Sample.shop eq_refl eq_refl eq_refl) as [_ H].
    apply (H [Sample.line 100 2] (Sample.line 102 1) []);
      try reflexivity. discriminate.
  - destruct (creation_error_precedence Sample.quiet Sample.alice
                (Sample.request 10 [Sample.line 200 1]) Sample.shop
                eq_refl eq_refl eq_refl) as [_ H].
    apply (H [] (Sample.line 200 1) []); try reflexivity. discriminate.
Defined.

(** X3. What is refused before the creation handler starts.  A user
    who is not a customer gets 403 [Insufficient permissions]; a customer
    whose body has a restaurant id below 1, no item, an item with an id
    or a quantity below 1, no delivery address or a payment method other
    than cash, card, upi and wallet gets 400 [Validation failed].  In
    both cases nothing is read or written: the world is unchanged. *)
Theorem creation_is_guarded (e : env) (u : user) (b : order_request) (w : world) :
  (u_user_type u <> customer ->
   post_orders e u b w
   = ({| statusCode := 403; body := Failure "Insufficient permissions" |}, w))
  /\ (u_user_type u = customer ->
      (restaurant_id b < 1 \/ items b = []
       \/ (exists i, In i (items b) /\ (food_item_id i < 1 \/ quantity i < 1))
       \/ delivery_address b = None
       \/ ~ In (payment_method b) ["cash"; "card"; "upi"; "wallet"]) ->
      post_orders e u b w
      = ({| statusCode := 400; body := ValidationFailed |}, w)).
Proof.
  split.
  - intros Hu. unfold post_orders, requireRole.
    destruct (u_user_type u); [contradiction | reflexivity | reflexivity].
  - intros Hu Hbad. unfold post_orders, requireRole. rewrite Hu.
    cbn [existsb orb user_type_eqb negb]. unfold asyncHandler, create_order.
    assert (V : valid_order_request b = false).
    { unfold valid_order_request.
      destruct Hbad as [H | [H | [[i [Hin H]] | [H | H]]]].
      - destruct (Z.leb_spec 1 (restaurant_id b)); [lia | reflexivity].
      - rewrite H. cbn [List.length Nat.eqb negb].
        now rewrite andb_false_r.
      - destruct (forallb (fun i => 1 <=? food_item_id i) (items b)) eqn:E1;
          [| now rewrite !andb_false_r].
        destruct (forallb (fun i => 1 <=? quantity i) (items b)) eqn:E2;
          [| now rewrite !andb_false_r].
        rewrite forallb_forall in E1, E2.
        specialize (E1 i Hin). specialize (E2 i Hin). cbn in E1, E2. lia.
      - rewrite H. now rewrite andb_false_r.
      - destruct (existsb (String.eqb (payment_method b))
                    ["cash"; "card"; "upi"; "wallet"]) eqn:E;
          [| apply andb_false_r].
        exfalso. apply H. apply existsb_exists in E as [x [Hx E]].
        apply String.eqb_eq in E. now subst. }
    rewrite V. destruct (delivery_address b); reflexivity.
Qed.

Lemma creation_is_guarded_witness :
  post_orders Sample.quiet Sample.bob Sample.happy (initial Sample.shop)
  = ({| statusCode := 403; body := Failure "Insufficient permissions" |},
     initial Sample.shop)
  /\ Sample.serve (Sample.request 10 [])
     = ({| statusCode := 400; body := ValidationFailed |}, initial Sample.shop).
Proof.
  split.
  - apply (creation_is_guarded Sample.quiet Sample.bob Sample.happy
             (initial Sample.shop)). discriminate.
  - apply (creation_is_guarded Sample.quiet Sample.alice (Sample.request 10 [])
             (initial Sample.shop)); [reflexivity |]. right. now left.
Defined.

(** ** Reading back what was created *)

Lemma next_id_fresh (os : list order) :
  forall o, In o os -> o_id o < Sql.next_id os.
Proof.
  unfold Sql.next_id. induction os as [|x os IH]; intros o Hin;
    [contradiction |].
  cbn [map fold_right]. destruct Hin as [<- | Hin].
  - lia.
  - specialize (IH o Hin). lia.
Qed.

Lemma filter_none {A} (p : A -> bool) (l : list A) :
  (forall x, In x l -> p x = false) -> filter p l = [].
Proof.
  induction l as [|x l IH]; intros H; [reflexivity |].
  cbn. rewrite (H x (or_introl eq_refl)). apply IH.
  intros y Hy. apply H. now right.
Qed.

Lemma filter_all {A} (p : A -> bool) (l : list A) :
  (forall x, In x l -> p x = true) -> filter p l = l.
Proof.
  induction l as [|x l IH]; intros H; [reflexivity |].
  cbn. rewrite (H x (or_introl eq_refl)). f_equal. apply IH.
  intros y Hy. apply H. now right.
Qed.

Lemma order_by_id_placed (e : env) (u : user) (b : order_request) (d : db) :
  Sql.order_by_id (Sql.next_id (orders d)) (placed e u b d)
  = [placed_order e u b d].
Proof.
  unfold Sql.order_by_id. rewrite placed_orders, filter_app.
  rewrite filter_none.
  - cbn. now rewrite Z.eqb_refl.
  - intros o Ho. apply Z.eqb_neq.
    pose proof (next_id_fresh (orders d) o Ho). lia.
Qed.

Lemma order_views_placed (e : env) (u : user) (b : order_request) (d : db)
    (r : restaurant) :
  filter (fun x => r_id x =? restaurant_id b) (restaurants d) = [r] ->
  filter (fun x => u_id x =? u_id u) (users d) = [u] ->
  Sql.order_views (Sql.next_id (orders d)) (placed e u b d)
  = [(placed_order e u b d, r, u)].
Proof.
  intros Hr Hu. unfold Sql.order_views.
  fold (Sql.order_by_id (Sql.next_id (orders d)) (placed e u b d)).
  rewrite order_by_id_placed.
  destruct (placed_catalog e u b d) as [-> ->].
  cbn [flat_map placed_order o_restaurant_id o_customer_id].
  rewrite Hr, Hu. reflexivity.
Qed.

Lemma filter_unique_id (fs : list food_item) (f0 : food_item) :
  NoDup (map fi_id fs) -> In f0 fs ->
  filter (fun f => fi_id f =? fi_id f0) fs = [f0].
Proof.
  induction fs as [|f fs IH]; intros Hnd Hin; [contradiction |].
  cbn [map] in Hnd. inversion Hnd as [|? ? Hnotin Hnd']; subst.
  cbn [filter]. destruct Hin as [-> | Hin].
  - rewrite Z.eqb_refl. f_equal. apply filter_none.
    intros x Hx. apply Z.eqb_neq. intros E. apply Hnotin.
    rewrite <- E. now apply in_map.
  - destruct (Z.eqb_spec (fi_id f) (fi_id f0)) as [E | _].
    + exfalso. apply Hnotin. rewrite E. now apply in_map.
    + now apply IH.
Qed.

Lemma catalog_item_In (d : db) (rid : Z) (i : item_request) (f : food_item) :
  catalog_item d rid i = Some f ->
  In f (food_items d) /\ fi_id f = food_item_id i.
Proof.
  unfold catalog_item, Sql.food_item_of. intros H.
  destruct (filter _ (food_items d)) as [|x xs] eqn:E; [discriminate |].
  injection H as ->.
  assert (Hin : In f (filter (fun f => (fi_id f =? food_item_id i)
                                       && (fi_restaurant_id f =? rid))
                             (food_items d)))
    by (rewrite E; now left).
  apply filter_In in Hin as [Hin Hc]. apply andb_prop in Hc as [Hc _].
  apply Z.eqb_eq in Hc. now split.
Qed.

Lemma filter_id_bumped (q : Z -> Z) (x : Z) (fs : list food_item) :
  filter (fun f => fi_id f =? x) (map (fun f => bump (q (fi_id f)) f) fs)
  = map (fun f => bump (q (fi_id f)) f) (filter (fun f => fi_id f =? x) fs).
Proof.
  induction fs as [|f fs IH]; [reflexivity |].
  cbn [map filter bump fi_id].
  destruct (fi_id f =? x); cbn [map]; now rewrite IH.
Qed.

Lemma line_views_new (orderId : Z) (fs : list food_item) (q : Z -> Z)
    (rid : Z) (d : db) (items : list item_request) (lines : list order_line) :
  food_items d = fs ->
  NoDup (map fi_id fs) ->
  Forall2 (fun i l =>
             exists f, catalog_item d rid i = Some f
                       /\ fi_is_available f = true
                       /\ l = draft_line i f) items lines ->
  map fst
    (flat_map
       (fun oi =>
          map (fun f => (oi, fi_name f))
              (filter (fun f => fi_id f =? oi_food_item_id oi)
                      (map (fun f => bump (q (fi_id f)) f) fs)))
       (map (Sql.order_item_row orderId) lines))
  = map (Sql.order_item_row orderId) lines.
Proof.
  intros Hfs Hnd HF.
  induction HF as [|i l ri rl [f (Hc & _ & ->)] _ IH]; [reflexivity |].
  cbn [map flat_map]. rewrite map_app, IH. clear IH.
  destruct (catalog_item_In _ _ _ _ Hc) as [Hin Hid]. rewrite Hfs in Hin.
  cbn [Sql.order_item_row draft_line oi_food_item_id ol_food_item_id].
  rewrite <- Hid, filter_id_bumped, (filter_unique_id _ f Hnd Hin).
  reflexivity.
Qed.

(** The detail rows of the new order are its lines, each with the name
    of its catalog item. *)
Lemma line_views_placed (e : env) (u : user) (b : order_request) (d : db) :
  forallb (orderable d (restaurant_id b)) (items b) = true ->
  NoDup (map fi_id (food_items d)) ->
  (forall oi, In oi (order_items d) ->
              oi_order_id oi <> Sql.next_id (orders d)) ->
  map fst (Sql.line_views (Sql.next_id (orders d)) (placed e u b d))
  = map (Sql.order_item_row (Sql.next_id (orders d)))
        (draft_lines d (restaurant_id b) (items b)).
Proof.
  intros Hall Hnd Hfk. unfold Sql.line_views.
  rewrite placed_order_items, placed_food_items, filter_app.
  rewrite filter_none
    by (intros oi Hoi; apply Z.eqb_neq; now apply Hfk).
  rewrite filter_all
    by (intros oi Hoi; apply in_map_iff in Hoi as [x [<- _]];
        apply Z.eqb_refl).
  cbn [app].
  apply (line_views_new _ _
           (ordered_quantity (draft_lines d (restaurant_id b) (items b)))
           (restaurant_id b) d (items b));
    [reflexivity | exact Hnd | now apply draft_lines_spec].
Qed.

Lemma commits_customer (e : env) (u : user) (b : order_request) (d : db) :
  commits e u b d = true -> u_user_type u = customer.
Proof.
  unfold commits. intros C. repeat (apply andb_prop in C as [C _]).
  now destruct (u_user_type u).
Qed.

Lemma Forall2_fst {A B C} (P : A -> B -> Prop) (xs : list A)
    (ls : list (B * C)) :
  Forall2 P xs (map fst ls) -> Forall2 (fun x l => P x (fst l)) xs ls.
Proof.
  revert xs. induction ls as [|l ls IH]; intros xs H;
    inversion H; subst; constructor; auto.
Qed.

(** X4. The body of the 201 answer.  When a creation goes through and
    the socket works, over a store where the restaurant and the customer
    are one row each, food ids are unique and no order line refers to the
    id the new order gets, the answer is 201 with the new Order row joined
    to its restaurant and its customer, and with one line per requested
    item, in request order: the lines written by the creation.  The
    amounts of the row and of the lines are what the DECIMAL(10,2)
    columns return: the numbers the handler computed, converted. *)
Theorem creation_answer (e : env) (u : user) (b : order_request) (d : db)
    (r : restaurant) :
  commits e u b d = true -> answers e = true ->
  filter (fun x => r_id x =? restaurant_id b) (restaurants d) = [r] ->
  filter (fun x => u_id x =? u_id u) (users d) = [u] ->
  NoDup (map fi_id (food_items d)) ->
  (forall oi, In oi (order_items d) ->
              oi_order_id oi <> Sql.next_id (orders d)) ->
  exists lines,
    fst (post_orders e u b (initial d))
    = {| statusCode := 201;
         body := OrderPlaced (Some (placed_order e u b d, r, u)) lines |}
    /\ map fst lines
       = map (Sql.order_item_row (Sql.next_id (orders d)))
             (draft_lines d (restaurant_id b) (items b))
    /\ List.length lines = List.length (items b)
    /\ Decimal.of_number (Pricing.subtotal (priced_lines d b))
       = Some (o_total_amount (placed_order e u b d))
    /\ Decimal.of_number (Pricing.taxAmount (priced_lines d b))
       = Some (o_tax_amount (placed_order e u b d))
    /\ Decimal.of_number (Num.parseFloat_or_zero (fee_of d b))
       = Some (o_delivery_fee (placed_order e u b d))
    /\ Decimal.of_number (Pricing.finalAmount (priced_lines d b) (fee_of d b))
       = Some (o_final_amount (placed_order e u b d))
    /\ Forall2 (fun i l =>
                  Decimal.of_number
                    (Num.parseFloat (oi_unit_price (fst l))
                     * Num.of_Z (quantity i))%float
                  = Some (oi_total_price (fst l)))
               (items b) lines.
Proof.
  intros C A Hr Hu Hnd Hfk.
  destruct (post_orders_run e u b d _ _ (surjective_pairing _)) as (_ & _ & H).
  rewrite C, A in H. destruct H as (_ & _ & Hresp & _).
  destruct (commits_spec e u b d C) as (_ & Hall & _).
  destruct (commits_fits e u b d C) as (_ & D1 & D2 & D3 & D4 & Hfit).
  destruct (computed_amounts d b) as (A1 & A2 & A3 & A4).
  rewrite A1 in D1. rewrite A3 in D2. rewrite A2 in D3. rewrite A4 in D4.
  exists (Sql.line_views (Sql.next_id (orders d)) (placed e u b d)).
  pose proof (line_views_placed e u b d Hall Hnd Hfk) as Hlines.
  split; [| split; [| split; [| split; [| split; [| split; [| split]]]]]];
    try assumption.
  - rewrite Hresp. unfold created.
    cbn [placed_order o_id]. now rewrite (order_views_placed e u b d r Hr Hu).
  - rewrite <- (length_map fst (Sql.line_views _ _)).
    rewrite Hlines, length_map. now apply draft_lines_length.
  - apply (Forall2_fst
             (fun i oi => Decimal.of_number
                            (Num.parseFloat (oi_unit_price oi)
                             * Num.of_Z (quantity i))%float
                          = Some (oi_total_price oi))).
    rewrite Hlines. eapply Forall2_map_where.
    + exact (draft_lines_spec d (restaurant_id b) (items b) Hall).
    + exact (lines_fit_each _ _ _ Hfit).
    + intros i l [f (_ & _ & ->)] [_ Hd]. exact Hd.
Qed.

Lemma creation_answer_witness :
  exists lines,
    fst (post_orders Sample.quiet Sample.alice Sample.happy
           (initial Sample.shop))
    = {| statusCode := 201;
         body := OrderPlaced
                   (Some (placed_order Sample.quiet Sample.alice Sample.happy
                            Sample.shop,
                          {| r_id := 10; r_cook_id := 2; r_name := "Bob's";
                             r_is_active := true;
                             r_delivery_fee := Some 250 |},
                          Sample.alice)) lines |}
    /\ List.length lines = 2%nat
    /\ map (fun l => oi_total_price (fst l)) lines = [2000; 500]
    /\ o_final_amount (placed_order Sample.quiet Sample.alice Sample.happy
                         Sample.shop) = 2875.
Proof.
  assert (C : commits Sample.quiet Sample.alice Sample.happy Sample.shop
              = true) by (vm_compute; reflexivity).
  assert (Hnd : NoDup (map fi_id (food_items Sample.shop))).
  { cbn. repeat constructor; cbn; intuition discriminate. }
  assert (Hfk : forall oi, In oi (order_items Sample.shop) ->
                  oi_order_id oi <> Sql.next_id (orders Sample.shop)).
  { intros oi [<- | []]. cbn. discriminate. }
  destruct (creation_answer Sample.quiet Sample.alice Sample.happy
              Sample.shop _ C eq_refl eq_refl eq_refl Hnd Hfk)
    as (lines & H1 & H2 & H3 & _ & _ & _ & H4 & _).
  exists lines. split; [exact H1 |]. split; [exact H3 |]. split.
  - rewrite <- (map_map fst oi_total_price), H2. vm_compute. reflexivity.
  - assert (E : Decimal.of_number
                  (Pricing.finalAmount (priced_lines Sample.shop Sample.happy)
                                       (fee_of Sample.shop Sample.happy))
                = Some 2875) by (vm_compute; reflexivity).
    rewrite E in H4. congruence.
Defined.

(** X5. Create, then read.  After a creation that goes through, GET
    /api/orders/:id with the id of the new order answers the customer who
    placed it with 200, the Order row of the creation and its lines, and
    answers every other customer with 403 [Unauthorized to view this
    order]; the read changes nothing.  The amounts read are those the
    DECIMAL(10,2) columns return: the numbers the handler computed,
    converted. *)
Theorem created_order_is_readable (e e' : env) (u : user) (b : order_request)
    (d : db) (r : restaurant) :
  commits e u b d = true ->
  filter (fun x => r_id x =? restaurant_id b) (restaurants d) = [r] ->
  filter (fun x => u_id x =? u_id u) (users d) = [u] ->
  no_fault e' [SelectOrder; SelectOrderItems] = true ->
  let d' := store (snd (post_orders e u b (initial d))) in
  let id := Sql.next_id (orders d) in
  let o := placed_order e u b d in
  get_orders_id e' u id (initial d')
  = ({| statusCode := 200;
        body := OrderDetails (o, r, u) (Sql.line_views id d') |}, initial d')
  /\ (forall u2, u_user_type u2 = customer -> u_id u2 <> u_id u ->
      get_orders_id e' u2 id (initial d')
      = (denied "Unauthorized to view this order", initial d'))
  /\ Decimal.of_number (Pricing.subtotal (priced_lines d b))
     = Some (o_total_amount o)
  /\ Decimal.of_number (Pricing.taxAmount (priced_lines d b))
     = Some (o_tax_amount o)
  /\ Decimal.of_number (Num.parseFloat_or_zero (fee_of d b))
     = Some (o_delivery_fee o)
  /\ Decimal.of_number (Pricing.finalAmount (priced_lines d b) (fee_of d b))
     = Some (o_final_amount o)
  /\ (forall l, In l (Sql.line_views id d') -> In (fst l) (order_items d) \/
        exists i f, In i (items b)
          /\ catalog_item d (restaurant_id b) i = Some f
          /\ fst l = Sql.order_item_row id (draft_line i f)
          /\ Decimal.of_number (Num.parseFloat (fi_price f)
                                * Num.of_Z (quantity i))%float
             = Some (oi_total_price (fst l))).
Proof.
  intros C Hr Hu F d' id o.
  destruct (post_orders_run e u b d _ _ (surjective_pairing _)) as (_ & _ & H).
  rewrite C in H. destruct H as [Hs _].
  assert (Hd' : d' = placed e u b d) by exact Hs.
  unfold no_fault in F. cbn [forallb] in F.
  destruct (env_fault e' SelectOrder) eqn:F1; [discriminate |].
  destruct (env_fault e' SelectOrderItems) eqn:F2; [discriminate |].
  pose proof (order_views_placed e u b d r Hr Hu) as Hv.
  rewrite <- Hd' in Hv. fold id in Hv.
  destruct (commits_fits e u b d C) as (_ & D1 & D2 & D3 & D4 & Hfit).
  destruct (computed_amounts d b) as (A1 & A2 & A3 & A4).
  rewrite A1 in D1. rewrite A3 in D2. rewrite A2 in D3. rewrite A4 in D4.
  split; [| split; [| split; [| split; [| split; [| split]]]]];
    try assumption.
  - unfold get_orders_id, asyncHandler, get_order.
    unfold bind at 1. rewrite pool_select by exact F1.
    cbn [store initial]. rewrite Hv. unfold o.
    cbn [fst placed_order o_customer_id].
    rewrite (commits_customer e u b d C), Z.eqb_refl.
    cbn [user_type_eqb andb negb]. unfold bind at 1. unfold ret at 1.
    unfold bind. rewrite pool_select by exact F2. reflexivity.
  - intros u2 Hc Hne.
    apply (get_order_customer_denied e' u2 id d' (placed_order e u b d)
             r u []); try assumption. cbn. congruence.
  - intros l Hl. unfold Sql.line_views in Hl.
    apply in_flat_map in Hl as [oi [Hoi Hl]].
    apply in_map_iff in Hl as [f0 [<- _]]. cbn [fst].
    apply filter_In in Hoi as [Hoi _].
    rewrite Hd', placed_order_items in Hoi.
    apply in_app_or in Hoi as [Hoi | Hoi]; [now left | right].
    apply in_map_iff in Hoi as [dl [<- Hdl]].
    destruct (lines_fit_each _ _ _ Hfit dl Hdl) as [_ Hd].
    unfold draft_lines in Hdl. apply in_flat_map in Hdl as [i [Hi Hdl]].
    destruct (catalog_item d (restaurant_id b) i) as [f|] eqn:Hc;
      [| contradiction].
    destruct Hdl as [<- | []]. exists i, f. repeat split; assumption.
Qed.

Lemma created_order_is_readable_witness :
  fst (get_orders_id Sample.quiet Sample.erin 2
         (initial (store (snd (post_orders Sample.quiet Sample.alice
                                 Sample.happy (initial Sample.shop))))))
  = denied "Unauthorized to view this order"
  /\ exists lines,
       fst (get_orders_id Sample.quiet Sample.alice 2
              (initial (store (snd (post_orders Sample.quiet Sample.alice
                                      Sample.happy (initial Sample.shop))))))
       = {| statusCode := 200;
            body := OrderDetails
                      (placed_order Sample.quiet Sample.alice Sample.happy
                         Sample.shop,
                       {| r_id := 10; r_cook_id := 2; r_name := "Bob's";
                          r_is_active := true; r_delivery_fee := Some 250 |},
                       Sample.alice) lines |}.
Proof.
  assert (C : commits Sample.quiet Sample.alice Sample.happy Sample.shop
              = true) by (vm_compute; reflexivity).
  destruct (created_order_is_readable Sample.quiet Sample.quiet Sample.alice
              Sample.happy Sample.shop _ C eq_refl eq_refl eq_refl)
    as (H0 & H & _).
  change (Sql.next_id (orders Sample.shop)) with 2 in H, H0.
  split.
  - rewrite (H Sample.erin eq_refl); [reflexivity | cbn; discriminate].
  - eexists. rewrite H0. reflexivity.
Defined.

(** ** The order counters *)

Lemma Zsum_app (a b : list Z) : Zsum (a ++ b) = Zsum a + Zsum b.
Proof. unfold Zsum. induction a as [|x a IH]; cbn; lia. Qed.

Lemma Zsum_bumped (q : Z -> Z) (fs : list food_item) :
  Zsum (map fi_total_orders (map (fun f => bump (q (fi_id f)) f) fs))
  = Zsum (map fi_total_orders fs) + Zsum (map (fun f => q (fi_id f)) fs).
Proof.
  unfold Zsum. induction fs as [|f fs IH]; [reflexivity |].
  cbn [map fold_right bump fi_total_orders]. lia.
Qed.

Lemma Zsum_absent (a q : Z) (fs : list food_item) :
  ~ In a (map fi_id fs) ->
  Zsum (map (fun f => if a =? fi_id f then q else 0) fs) = 0.
Proof.
  unfold Zsum. induction fs as [|x xs IH]; intros Hn; [reflexivity |].
  cbn [map fold_right].
  destruct (Z.eqb_spec a (fi_id x)) as [E | _].
  - exfalso. apply Hn. left. now symmetry.
  - rewrite IH; [reflexivity |]. intros H. apply Hn. now right.
Qed.

Lemma Zsum_single (fs : list food_item) (f0 : food_item) (q : Z) :
  NoDup (map fi_id fs) -> In f0 fs ->
  Zsum (map (fun f => if fi_id f0 =? fi_id f then q else 0) fs) = q.
Proof.
  induction fs as [|f fs IH]; intros Hnd Hin; [contradiction |].
  cbn [map] in Hnd. inversion Hnd as [|? ? Hnotin Hnd']; subst.
  change (Zsum (map (fun f1 => if fi_id f0 =? fi_id f1 then q else 0) (f :: fs)))
    with ((if fi_id f0 =? fi_id f then q else 0)
          + Zsum (map (fun f1 => if fi_id f0 =? fi_id f1 then q else 0) fs)).
  destruct Hin as [-> | Hin].
  - rewrite Z.eqb_refl, Zsum_absent by exact Hnotin. lia.
  - destruct (Z.eqb_spec (fi_id f0) (fi_id f)) as [E | _].
    + exfalso. apply Hnotin. rewrite <- E. now apply in_map.
    + rewrite IH by assumption. lia.
Qed.

Lemma Zsum_zero {A} (l : list A) : Zsum (map (fun _ => 0) l) = 0.
Proof. unfold Zsum. induction l as [|x l IH]; cbn; lia. Qed.

Lemma Zsum_plus {A} (g h : A -> Z) (l : list A) :
  Zsum (map (fun x => g x + h x) l) = Zsum (map g l) + Zsum (map h l).
Proof. unfold Zsum. induction l as [|x l IH]; cbn; lia. Qed.

Lemma Zsum_ordered_quantity (d : db) (rid : Z) (items : list item_request)
    (lines : list order_line) :
  NoDup (map fi_id (food_items d)) ->
  Forall2 (fun i l =>
             exists f, catalog_item d rid i = Some f
                       /\ fi_is_available f = true
                       /\ l = draft_line i f) items lines ->
  Zsum (map (fun f => ordered_quantity lines (fi_id f)) (food_items d))
  = Zsum (map quantity items).
Proof.
  intros Hnd HF.
  induction HF as [|i l ri rl [f (Hc & _ & ->)] _ IH].
  - apply Zsum_zero.
  - destruct (catalog_item_In _ _ _ _ Hc) as [Hin Hid].
    change (fun f0 => ordered_quantity (draft_line i f :: rl) (fi_id f0))
      with (fun f0 => (if food_item_id i =? fi_id f0 then quantity i else 0)
                      + ordered_quantity rl (fi_id f0)).
    rewrite Zsum_plus, IH, <- Hid, (Zsum_single _ f _ Hnd Hin).
    reflexivity.
Qed.

Lemma write_line_in_int (orderId : Z) (l : order_line) (d : db) :
  Sql.counter_fits (ol_quantity l) (ol_food_item_id l) d = true ->
  (forall f, In f (food_items d) -> Sql.in_int (fi_total_orders f) = true) ->
  forall f, In f (food_items (write_line orderId l d)) ->
            Sql.in_int (fi_total_orders f) = true.
Proof.
  intros Hc Hd f Hf. unfold write_line, Sql.raised_total_orders in Hf.
  cbn [food_items set_food_items set_order_items] in Hf.
  apply in_map_iff in Hf as [f0 [<- Hf0]].
  unfold Sql.counter_fits in Hc. rewrite forallb_forall in Hc.
  specialize (Hc f0 Hf0).
  destruct (fi_id f0 =? ol_food_item_id l); cbn [negb orb] in Hc.
  - exact Hc.
  - now apply Hd.
Qed.

Lemma write_lines_in_int (orderId : Z) (lines : list order_line) :
  forall d, lines_fit orderId lines d = true ->
  (forall f, In f (food_items d) -> Sql.in_int (fi_total_orders f) = true) ->
  forall f, In f (food_items (write_lines orderId lines d)) ->
            Sql.in_int (fi_total_orders f) = true.
Proof.
  induction lines as [|l rest IH]; intros d Hfit Hd; [exact Hd |].
  cbn [lines_fit] in Hfit. apply andb_prop in Hfit as [Hl Hrest].
  unfold line_fits in Hl. apply andb_prop in Hl as [_ Hc].
  rewrite write_lines_cons. apply (IH _ Hrest).
  now apply write_line_in_int.
Qed.

Lemma lines_fit_quantities (d : db) (rid : Z) (items : list item_request) :
  forallb (orderable d rid) items = true ->
  forall orderId t, lines_fit orderId (draft_lines d rid items) t = true ->
  forall i, In i items -> Sql.in_int (quantity i) = true.
Proof.
  induction items as [|i0 rest IH]; intros Hall orderId t Hfit i Hin;
    [contradiction |].
  cbn [forallb] in Hall. apply andb_prop in Hall as [Hi Hall].
  unfold orderable in Hi.
  destruct (catalog_item d rid i0) as [f|] eqn:Hc; [| discriminate].
  rewrite (draft_lines_cons _ _ _ _ f Hc) in Hfit.
  cbn [lines_fit] in Hfit. apply andb_prop in Hfit as [Hl Hrest].
  destruct Hin as [<- | Hin]; [| exact (IH Hall _ _ Hrest i Hin)].
  unfold line_fits in Hl. apply andb_prop in Hl as [Hl _].
  apply andb_prop in Hl as [Hl _]. apply andb_prop in Hl as [Hq _].
  exact Hq.
Qed.

(** X6. The order counters grow by the requested quantities.  Over a
    catalog with unique food ids, the sum of [total_orders] over all food
    items after POST /api/orders is the sum before plus the sum of the
    quantities of the request when the creation commits, and the sum
    before in every other case.  The counters are INT columns: when they
    all are within the INT range before the request they are so after
    it, and a creation that commits has every quantity within that
    range. *)
Theorem counters_grow_by_request (e : env) (u : user) (b : order_request)
    (d : db) (resp : response) (w' : world) :
  NoDup (map fi_id (food_items d)) ->
  post_orders e u b (initial d) = (resp, w') ->
  total_orders_sum (store w')
  = (if commits e u b d
     then total_orders_sum d + requested_quantity b
     else total_orders_sum d)
  /\ ((forall f, In f (food_items d) ->
                 Sql.in_int (fi_total_orders f) = true) ->
      forall f, In f (food_items (store w')) ->
                Sql.in_int (fi_total_orders f) = true)
  /\ (commits e u b d = true ->
      forall i, In i (items b) -> Sql.in_int (quantity i) = true).
Proof.
  intros Hnd Hrun.
  destruct (post_orders_run e u b d resp w' Hrun) as (_ & _ & H).
  destruct (commits e u b d) eqn:C.
  - destruct H as [Hs _]. rewrite Hs.
    destruct (commits_spec e u b d C) as (_ & Hall & _).
    destruct (commits_fits e u b d C) as (_ & _ & _ & _ & _ & Hfit).
    split; [| split].
    + unfold total_orders_sum, requested_quantity.
      rewrite placed_food_items, Zsum_bumped. f_equal.
      apply (Zsum_ordered_quantity d (restaurant_id b)); [exact Hnd |].
      now apply draft_lines_spec.
    + intros Hd f Hf. unfold placed in Hf.
      cbn [Sql.delete_cart food_items set_cart_items] in Hf.
      exact (write_lines_in_int _ _ _ Hfit Hd f Hf).
    + intros _. exact (lines_fit_quantities _ _ _ Hall _ _ Hfit).
  - destruct H as [Hs _]. rewrite Hs.
    split; [reflexivity |]. split; [auto | discriminate].
Qed.

(** The happy path raises the counters by 3; a line of 3000000000 units
    is refused and raises nothing. *)
Lemma counters_grow_by_request_witness :
  total_orders_sum (store (snd (Sample.serve Sample.happy))) = 3
  /\ total_orders_sum
       (store (snd (Sample.serve
                      (Sample.request 10 [Sample.line 100 3000000000]))))
     = 0.
Proof.
  assert (Hnd : NoDup (map fi_id (food_items Sample.shop))).
  { cbn. repeat constructor; cbn; intuition discriminate. }
  unfold Sample.serve. split.
  - rewrite (proj1 (counters_grow_by_request Sample.quiet Sample.alice
                      Sample.happy Sample.shop _ _ Hnd
                      (surjective_pairing _))).
    vm_compute. reflexivity.
  - rewrite (proj1 (counters_grow_by_request Sample.quiet Sample.alice
                      (Sample.request 10 [Sample.line 100 3000000000])
                      Sample.shop _ _ Hnd (surjective_pairing _))).
    vm_compute. reflexivity.
Defined.

(** ** The detail route, further *)

(** X7. GET /api/orders/:id never writes: for every user, order id,
    environment (driver failures included) and world, the world after the
    request is the world before: same store, no open transaction, nothing
    emitted. *)
Theorem detail_never_writes (e : env) (u : user) (orderId : Z) (w : world) :
  snd (get_orders_id e u orderId w) = w.
Proof.
  unfold get_orders_id, asyncHandler, get_order. unfold bind at 1.
  destruct (env_fault e SelectOrder) as [code|] eqn:F1.
  { now rewrite (pool_fault _ _ _ _ code F1). }
  rewrite pool_select by exact F1.
  destruct (Sql.order_views orderId (store w)) as [|view rest];
    [reflexivity |].
  destruct (user_type_eqb (u_user_type u) customer
            && negb (o_customer_id (fst (fst view)) =? u_id u));
    [reflexivity |].
  unfold bind at 1.
  destruct (user_type_eqb (u_user_type u) cook).
  - unfold bind at 1.
    destruct (env_fault e SelectCookRestaurants) as [code|] eqn:F2.
    { now rewrite (pool_fault _ _ _ _ code F2). }
    rewrite pool_select by exact F2.
    destruct (Sql.restaurants_of_cook (u_id u) (store w)) as [|r rs];
      [reflexivity |].
    destruct (negb (o_restaurant_id (fst (fst view)) =? r_id r));
      [reflexivity |].
    unfold ret at 1. unfold bind.
    destruct (env_fault e SelectOrderItems) as [code|] eqn:F3.
    { now rewrite (pool_fault _ _ _ _ code F3). }
    now rewrite pool_select by exact F3.
  - unfold ret at 1. unfold bind.
    destruct (env_fault e SelectOrderItems) as [code|] eqn:F3.
    { now rewrite (pool_fault _ _ _ _ code F3). }
    now rewrite pool_select by exact F3.
Qed.

Lemma line_views_order_id (orderId : Z) (d : db) :
  forall l, In l (Sql.line_views orderId d) -> oi_order_id (fst l) = orderId.
Proof.
  intros l Hl. unfold Sql.line_views in Hl.
  apply in_flat_map in Hl as [oi [Hoi Hl]].
  apply filter_In in Hoi as [_ Hid]. apply Z.eqb_eq in Hid.
  apply in_map_iff in Hl as [f [<- _]]. exact Hid.
Qed.

(** X8. When the detail of an order is granted.  If the order exists
    and the driver works, a user who may read it (the customer who placed
    it, a cook whose first restaurant is the order's restaurant, or an
    administrator) gets 200 with the first joined row and the lines of
    the order; the order has the requested id and every line shown
    belongs to it. *)
Theorem detail_is_granted (e : env) (u : user) (orderId : Z) (d : db)
    (X : order) (r : restaurant) (cu : user) (rest : list order_view) :
  Sql.order_views orderId d = (X, r, cu) :: rest ->
  no_fault e [SelectOrder; SelectCookRestaurants; SelectOrderItems] = true ->
  may_read u X d ->
  get_orders_id e u orderId (initial d)
  = ({| statusCode := 200;
        body := OrderDetails (X, r, cu) (Sql.line_views orderId d) |},
     initial d)
  /\ o_id X = orderId
  /\ forall l, In l (Sql.line_views orderId d) ->
               oi_order_id (fst l) = o_id X.
Proof.
  intros Hv F Hmay.
  unfold no_fault in F. cbn [forallb] in F.
  destruct (env_fault e SelectOrder) eqn:F1; [discriminate |].
  destruct (env_fault e SelectCookRestaurants) eqn:F2; [discriminate |].
  destruct (env_fault e SelectOrderItems) eqn:F3; [discriminate |]. clear F.
  assert (Hid : o_id X = orderId).
  { assert (Hin : In (X, r, cu) (Sql.order_views orderId d))
      by (rewrite Hv; now left).
    unfold Sql.order_views in Hin. apply in_flat_map in Hin as [o [Ho Hin]].
    apply filter_In in Ho as [_ Ho]. apply Z.eqb_eq in Ho.
    apply in_flat_map in Hin as [r' [_ Hin]].
    apply in_map_iff in Hin as [u' [E _]]. now injection E as <- _ _. }
  split; [| split; [exact Hid |]].
  - unfold get_orders_id, asyncHandler, get_order.
    unfold bind at 1. rewrite pool_select by exact F1.
    cbn [store initial]. rewrite Hv. cbn [fst].
    unfold may_read in Hmay.
    destruct (u_user_type u); cbn [user_type_eqb andb].
    + rewrite Hmay, Z.eqb_refl. cbn [negb].
      unfold bind at 1. unfold ret at 1. unfold bind.
      now rewrite pool_select by exact F3.
    + destruct Hmay as (r' & rs & Hr & Hrid).
      unfold bind at 1. unfold bind at 1.
      rewrite pool_select by exact F2. cbn [store initial].
      rewrite Hr, Hrid, Z.eqb_refl. cbn [negb]. unfold ret at 1.
      unfold bind. now rewrite pool_select by exact F3.
    + unfold bind at 1. unfold ret at 1. unfold bind.
      now rewrite pool_select by exact F3.
  - rewrite Hid. apply line_views_order_id.
Qed.

Lemma detail_is_granted_witness :
  fst (get_orders_id Sample.quiet Sample.carol 1 (initial Sample.shop))
  = {| statusCode := 200;
       body := OrderDetails
                 (Sample.old_order,
                  {| r_id := 20; r_cook_id := 3; r_name := "Carol's";
                     r_is_active := true; r_delivery_fee := Some 0 |},
                  Sample.erin)
                 (Sql.line_views 1 Sample.shop) |}.
Proof.
  assert (M : may_read Sample.carol Sample.old_order Sample.shop).
  { cbn. eexists _, _. split; reflexivity. }
  destruct (detail_is_granted Sample.quiet Sample.carol 1 Sample.shop
              Sample.old_order _ Sample.erin [] eq_refl eq_refl M) as [H _].
  now rewrite H.
Defined.

(** X9. An order that does not exist is reported the same way by
    both routes: when the driver answers the lookup of the order, GET
    /api/orders/:id and PATCH /api/orders/:id/status (with a valid
    status) answer 404 [Order not found], whoever asks, and leave the
    world unchanged; the existence check comes before every permission
    check. *)
Theorem missing_order_not_found (e : env) (u : user) (orderId : Z) (d : db) :
  env_fault e SelectOrder = None ->
  (Sql.order_views orderId d = [] ->
   get_orders_id e u orderId (initial d)
   = ({| statusCode := 404; body := Failure "Order not found" |}, initial d))
  /\ (forall status st,
        status_of_name status = Some st ->
        Sql.order_by_id orderId d = [] ->
        patch_orders_id_status e u orderId status (initial d)
        = ({| statusCode := 404; body := Failure "Order not found" |},
           initial d)).
Proof.
  intros F. split.
  - intros Hv. unfold get_orders_id, asyncHandler, get_order.
    unfold bind. rewrite pool_select by exact F.
    cbn [store initial]. now rewrite Hv.
  - intros status st Hst Hv.
    unfold patch_orders_id_status, asyncHandler, update_status.
    rewrite Hst. unfold bind. rewrite pool_select by exact F.
    cbn [store initial]. now rewrite Hv.
Qed.

Lemma missing_order_not_found_witness :
  get_orders_id Sample.quiet Sample.alice 99 (initial Sample.shop)
  = ({| statusCode := 404; body := Failure "Order not found" |},
     initial Sample.shop)
  /\ patch_orders_id_status Sample.quiet Sample.alice 99 "confirmed"
       (initial Sample.shop)
     = ({| statusCode := 404; body := Failure "Order not found" |},
        initial Sample.shop).
Proof.
  destruct (missing_order_not_found Sample.quiet Sample.alice 99 Sample.shop
              eq_refl) as [H1 H2].
  split; [apply H1; reflexivity |].
  apply (H2 "confirmed" confirmed); reflexivity.
Defined.

(** X10. A target status outside the six names of the status list is
    rejected by PATCH /api/orders/:id/status with 400 [Validation failed]
    before anything is read: whoever asks, whatever the order id, the
    world is unchanged.  The names are compared exactly. *)
Theorem unknown_status_is_rejected (e : env) (u : user) (orderId : Z)
    (status : string) (w : world) :
  ~ In status (map order_status_name all_statuses) ->
  patch_orders_id_status e u orderId status w
  = ({| statusCode := 400; body := ValidationFailed |}, w).
Proof.
  intros Hn. unfold patch_orders_id_status, asyncHandler, update_status.
  destruct (status_of_name status) as [st|] eqn:E; [| reflexivity].
  exfalso. apply Hn. apply status_of_name_inv in E. subst.
  apply in_map. destruct st; cbn; auto 10.
Qed.

Lemma unknown_status_is_rejected_witness :
  patch_orders_id_status Sample.quiet Sample.dave 1 "Delivered"
    (initial Sample.shop)
  = ({| statusCode := 400; body := ValidationFailed |}, initial Sample.shop).
Proof.
  apply unknown_status_is_rejected.
  cbn. intuition discriminate.
Defined.

(** ** The status route, further *)

(** Every run of the status route: nothing written and a failure, or
    the UPDATE written and then one event and the 200 answer, or the
    UPDATE written and a failure because the socket layer threw. *)
Lemma update_status_cases (e : env) (u : user) (orderId : Z) (d : db)
    (status : string) (resp : response) (w' : world) :
  patch_orders_id_status e u orderId status (initial d) = (resp, w') ->
  (is_failure resp /\ store w' = d /\ outbox w' = [])
  \/ (exists X rest st,
        Sql.order_by_id orderId d = X :: rest
        /\ status_of_name status = Some st
        /\ store w' = Sql.update_order orderId st (stamp e st) d
        /\ ((is_failure resp /\ outbox w' = []
             /\ env_emit_throws e = true)
            \/ (resp = {| statusCode := 200; body := StatusUpdated |}
                /\ outbox w' = [status_event orderId status X]))).
Proof.
  unfold patch_orders_id_status, asyncHandler, update_status.
  destruct (status_of_name status) as [st|] eqn:Hst.
  2:{ unfold ret. intros [= <- <-]. left. cbn. unfold is_failure. cbn.
      intuition lia. }
  assert (Fail : forall x, raised x ->
            is_failure (errorHandler x) /\ store (initial d) = d
            /\ outbox (initial d) = []).
  { intros x Hx. split; [now apply errorHandler_raised | now split]. }
  unfold bind at 1.
  destruct (env_fault e SelectOrder) as [code|] eqn:F1.
  { rewrite (pool_fault _ _ _ _ code F1). intros [= <- <-]. left.
    apply Fail. constructor. }
  rewrite pool_select by exact F1. cbn [store initial].
  destruct (Sql.order_by_id orderId d) as [|X rest] eqn:Hv.
  { unfold throw. intros [= <- <-]. left. apply Fail. constructor. lia. }
  unfold bind at 1.
  assert (Auth :
    forall m : M unit,
      (exists x, raised x /\ m (initial d) = (Throw x, initial d))
      \/ m (initial d) = (Ok tt, initial d) ->
      forall k : unit -> M response,
      (forall resp w', (let (r, w1) := k tt (initial d) in
                        match r with
                        | Ok r0 => (r0, w1)
                        | Throw err => (errorHandler err, w1)
                        end) = (resp, w') ->
         (is_failure resp /\ store w' = d /\ outbox w' = [])
         \/ (exists X0 rest0 st0,
               X :: rest = X0 :: rest0 /\ Some st = Some st0
               /\ store w' = Sql.update_order orderId st0 (stamp e st0) d
               /\ ((is_failure resp /\ outbox w' = []
                    /\ env_emit_throws e = true)
                   \/ (resp = {| statusCode := 200; body := StatusUpdated |}
                       /\ outbox w' = [status_event orderId status X0])))) ->
      forall resp w', (let (r, w1) := match m (initial d) with
                                      | (Ok a, w2) => k a w2
                                      | (Throw x, w2) => (Throw x, w2)
                                      end in
                       match r with
                       | Ok r0 => (r0, w1)
                       | Throw err => (errorHandler err, w1)
                       end) = (resp, w') ->
         (is_failure resp /\ store w' = d /\ outbox w' = [])
         \/ (exists X0 rest0 st0,
               X :: rest = X0 :: rest0 /\ Some st = Some st0
               /\ store w' = Sql.update_order orderId st0 (stamp e st0) d
               /\ ((is_failure resp /\ outbox w' = []
                    /\ env_emit_throws e = true)
                   \/ (resp = {| statusCode := 200; body := StatusUpdated |}
                       /\ outbox w' = [status_event orderId status X0])))).
  { intros m [[x [Hx Hm]] | Hm] k Hk resp0 w0; rewrite Hm.
    - intros [= <- <-]. left. now apply Fail.
    - apply Hk. }
  apply Auth.
  - destruct (u_user_type u).
    + left. eexists. split; [| reflexivity]. constructor. lia.
    + unfold bind.
      destruct (env_fault e SelectCookRestaurants) as [code|] eqn:F2.
      { left. exists (DriverError code). split; [constructor |].
        now rewrite (pool_fault _ _ _ _ code F2). }
      rewrite pool_select by exact F2. cbn [store initial].
      destruct (Sql.restaurants_of_cook (u_id u) d) as [|r rs].
      { left. eexists. split; [| reflexivity]. constructor. lia. }
      destruct (negb (o_restaurant_id X =? r_id r)).
      * left. eexists. split; [| reflexivity]. constructor. lia.
      * now right.
    + now right.
  - intros resp0 w0.
    rewrite (status_of_name_inv _ _ Hst), delivered_name.
    assert (Tail : forall (w1 : world),
              store w1 = d -> outbox w1 = [] -> tx w1 = None ->
              (let (r, w2) :=
                 (pool_execute e UpdateOrder
                    (Sql.modify (Sql.update_order orderId st (stamp e st))) ;;
                  emit e {| room := ("user_" ++ Js.toString (o_customer_id X))%string;
                            data := order_status_changed orderId
                                      (order_status_name st)
                                      (o_order_number X) |} ;;
                  ret {| statusCode := 200; body := StatusUpdated |}) w1 in
               match r with
               | Ok r0 => (r0, w2)
               | Throw err => (errorHandler err, w2)
               end) = (resp0, w0) ->
              (is_failure resp0 /\ store w0 = d /\ outbox w0 = [])
              \/ (exists X0 rest0 st0,
                    X :: rest = X0 :: rest0 /\ Some st = Some st0
                    /\ store w0 = Sql.update_order orderId st0 (stamp e st0) d
                    /\ ((is_failure resp0 /\ outbox w0 = []
                         /\ env_emit_throws e = true)
                        \/ (resp0 = {| statusCode := 200; body := StatusUpdated |}
                            /\ outbox w0
                               = [status_event orderId (order_status_name st) X0])))).
    { intros w1 Hs Ho Ht. unfold bind at 1.
      destruct (env_fault e UpdateOrder) as [code|] eqn:F3.
      { rewrite (pool_fault _ _ _ _ code F3). intros [= <- <-]. left.
        split; [apply errorHandler_raised; constructor | now split]. }
      rewrite pool_modify by exact F3. unfold bind, emit, ret.
      cbn [outbox set_store]. rewrite Hs, Ho.
      destruct (env_emit_throws e) eqn:Hemit.
      - intros [= <- <-]. right. exists X, rest, st.
        repeat split; try reflexivity. left.
        split; [apply errorHandler_raised; constructor | now split].
      - intros [= <- <-]. right. exists X, rest, st.
        repeat split; try reflexivity. right. now split. }
    destruct st; unfold bind at 1; unfold date_now, ret at 1;
      cbn [initial clock_reads store tx outbox rng_reads stamp];
      (apply Tail; reflexivity).
Qed.

Lemma update_order_frame (orderId : Z) (st : order_status) (t : option Z)
    (d : db) :
  let d' := Sql.update_order orderId st t d in
  users d' = users d /\ restaurants d' = restaurants d
  /\ food_items d' = food_items d /\ cart_items d' = cart_items d
  /\ order_items d' = order_items d
  /\ map order_core (orders d') = map order_core (orders d).
Proof.
  cbn. repeat split. rewrite map_map. apply map_ext.
  intros o. now destruct (o_id o =? orderId).
Qed.

(** X11. What a status transition can touch.  Whatever the answer of
    PATCH /api/orders/:id/status, the users, restaurants, food items,
    cart entries and order lines are as before; every Order row keeps its
    id, customer, restaurant, order number and amounts; and every Order
    row with another id is unchanged. *)
Theorem transition_frame (e : env) (u : user) (orderId : Z) (d : db)
    (status : string) (resp : response) (w' : world) :
  patch_orders_id_status e u orderId status (initial d) = (resp, w') ->
  users (store w') = users d
  /\ restaurants (store w') = restaurants d
  /\ food_items (store w') = food_items d
  /\ cart_items (store w') = cart_items d
  /\ order_items (store w') = order_items d
  /\ map order_core (orders (store w')) = map order_core (orders d)
  /\ (forall o, In o (orders d) -> o_id o <> orderId ->
                In o (orders (store w'))).
Proof.
  intros Hrun.
  destruct (update_status_cases e u orderId d status resp w' Hrun)
    as [(_ & Hs & _) | (X & rest & st & _ & _ & Hs & _)]; rewrite Hs.
  - repeat split. auto.
  - destruct (update_order_frame orderId st (stamp e st) d)
      as (H1 & H2 & H3 & H4 & H5 & H6).
    repeat split; try assumption.
    intros o Ho Hne. unfold Sql.update_order. cbn [orders set_orders].
    apply in_map_iff. exists o. split; [| exact Ho].
    destruct (Z.eqb_spec (o_id o) orderId); [contradiction | reflexivity].
Qed.

Lemma transition_frame_witness :
  map order_core
      (orders (store (snd (patch_orders_id_status Sample.quiet Sample.carol 1
                             "cancelled" (initial Sample.shop)))))
  = map order_core (orders Sample.shop).
Proof.
  apply (transition_frame Sample.quiet Sample.carol 1 Sample.shop "cancelled"
           _ _ (surjective_pairing _)).
Defined.

(** X14. Who is notified of a transition.  After PATCH
    /api/orders/:id/status the outbox is empty, or it holds exactly one
    event, [order_status_changed] with the order id, the status text and
    the order number, sent to the room of the customer who placed the
    order; in that case the answer is 200 and the order is updated in the
    store. *)
Theorem transition_notifies_customer (e : env) (u : user) (orderId : Z)
    (d : db) (status : string) (resp : response) (w' : world) :
  patch_orders_id_status e u orderId status (initial d) = (resp, w') ->
  outbox w' = []
  \/ (exists X rest st,
        Sql.order_by_id orderId d = X :: rest
        /\ status_of_name status = Some st
        /\ outbox w'
           = [ {| room := ("user_" ++ Js.toString (o_customer_id X))%string;
                  data := order_status_changed orderId status
                            (o_order_number X) |} ]
        /\ resp = {| statusCode := 200; body := StatusUpdated |}
        /\ store w' = Sql.update_order orderId st (stamp e st) d).
Proof.
  intros Hrun.
  destruct (update_status_cases e u orderId d status resp w' Hrun)
    as [(_ & _ & Ho) | (X & rest & st & Hv & Hst & Hs & H)]; [now left |].
  destruct H as [(_ & Ho & _) | (Hr & Ho)]; [now left |].
  right. exists X, rest, st. repeat split; assumption.
Qed.

Lemma transition_notifies_customer_witness :
  outbox (snd (patch_orders_id_status Sample.quiet Sample.carol 1 "cancelled"
                 (initial Sample.shop)))
  = [ {| room := "user_5";
         data := order_status_changed 1 "cancelled" "ORD-000123007" |} ].
Proof.
  destruct (transition_notifies_customer Sample.quiet Sample.carol 1
              Sample.shop "cancelled" _ _ (surjective_pairing _))
    as [H | (X & rest & st & Hv & _ & Ho & _)].
  - vm_compute in H. discriminate.
  - injection Hv as <- _. exact Ho.
Defined.

Lemma update_status_emit_fails (e : env) (u : user) (orderId : Z)
    (d : db) (X : order) (rest : list order) (status : string)
    (st : order_status) :
  Sql.order_by_id orderId d = X :: rest ->
  status_of_name status = Some st ->
  may_update u X d ->
  no_fault e [SelectOrder; SelectCookRestaurants; UpdateOrder] = true ->
  env_emit_throws e = true ->
  patch_orders_id_status e u orderId status (initial d)
  = ({| statusCode := 500; body := Failure "emit failed" |},
     {| store := Sql.update_order orderId st (stamp e st) d;
        tx := None; outbox := [];
        clock_reads := match st with delivered => 1%nat | _ => 0%nat end;
        rng_reads := 0%nat |}).
Proof.
  intros Hv Hst Hmay F Hemit.
  unfold no_fault in F. cbn [forallb] in F.
  destruct (env_fault e SelectOrder) eqn:F1; [discriminate |].
  destruct (env_fault e SelectCookRestaurants) eqn:F2; [discriminate |].
  destruct (env_fault e UpdateOrder) eqn:F3; [discriminate |]. clear F.
  unfold patch_orders_id_status, asyncHandler, update_status.
  rewrite Hst. unfold bind at 1. rewrite pool_select by exact F1.
  cbn [store initial]. rewrite Hv.
  rewrite (status_of_name_inv _ _ Hst), delivered_name.
  assert (Hauth :
    (match u_user_type u with
     | customer => throw (AppError "Insufficient permissions" 403)
     | cook =>
         restaurants <- pool_execute e SelectCookRestaurants
           (Sql.select (Sql.restaurants_of_cook (u_id u))) ;;
         match restaurants with
         | [] => throw (AppError "Unauthorized to update this order" 403)
         | r :: _ =>
             if negb (o_restaurant_id X =? r_id r)
             then throw (AppError "Unauthorized to update this order" 403)
             else ret tt
         end
     | admin => ret tt
     end) (initial d) = (Ok tt, initial d)).
  { destruct Hmay as [Ha | [Hc (r & rs & Hr & Hid)]].
    - now rewrite Ha.
    - rewrite Hc. unfold bind. rewrite pool_select by exact F2.
      cbn [store initial]. rewrite Hr, Hid, Z.eqb_refl. reflexivity. }
  unfold bind at 1. rewrite Hauth.
  unfold bind at 1.
  destruct st; unfold bind, date_now, ret, emit; cbn [store initial];
    rewrite pool_modify by exact F3; rewrite Hemit; reflexivity.
Qed.

(** X13. A transition whose notification fails.  When a permitted
    transition has updated the order and the socket layer throws, the
    answer is a failure with status 500, although the new status (and the
    delivery timestamp, if any) is in the store; nothing was emitted. *)
Theorem transition_survives_emit_failure (e : env) (u : user) (orderId : Z)
    (d : db) (X : order) (rest : list order) (status : string)
    (st : order_status) :
  Sql.order_by_id orderId d = X :: rest ->
  status_of_name status = Some st ->
  may_update u X d ->
  no_fault e [SelectOrder; SelectCookRestaurants; UpdateOrder] = true ->
  env_emit_throws e = true ->
  statusCode (fst (patch_orders_id_status e u orderId status (initial d)))
  = 500
  /\ store (snd (patch_orders_id_status e u orderId status (initial d)))
     = Sql.update_order orderId st (stamp e st) d
  /\ outbox (snd (patch_orders_id_status e u orderId status (initial d))) = [].
Proof.
  intros Hv Hst Hmay F Hemit.
  rewrite (update_status_emit_fails e u orderId d X rest status st
             Hv Hst Hmay F Hemit).
  repeat split.
Qed.

Lemma transition_survives_emit_failure_witness :
  statusCode (fst (patch_orders_id_status Sample.deaf Sample.dave 1
                     "confirmed" (initial Sample.shop))) = 500
  /\ map o_status
         (orders (store (snd (patch_orders_id_status Sample.deaf Sample.dave 1
                                "confirmed" (initial Sample.shop)))))
     = [confirmed].
Proof.
  destruct (transition_survives_emit_failure Sample.deaf Sample.dave 1
              Sample.shop Sample.old_order [] "confirmed" confirmed
              eq_refl eq_refl (or_introl eq_refl) eq_refl eq_refl)
    as (H1 & H2 & _).
  split; [exact H1 |]. now rewrite H2.
Defined.

(** ** Successive transitions *)

Lemma update_order_twice (orderId : Z) (st1 st2 : order_status)
    (t1 t2 : option Z) (d : db) :
  Sql.update_order orderId st2 t2 (Sql.update_order orderId st1 t1 d)
  = Sql.update_order orderId st2
      (match t2 with Some v => Some v | None => t1 end) d.
Proof.
  unfold Sql.update_order, set_orders. cbn [users restaurants food_items
    cart_items orders order_items]. f_equal.
  rewrite map_map. apply map_ext. intros o.
  destruct (o_id o =? orderId) eqn:E; cbn [o_id]; rewrite E; [| reflexivity].
  cbn. destruct t2, t1; reflexivity.
Qed.

Lemma order_by_id_updated (orderId : Z) (st : order_status) (t : option Z)
    (d : db) (X : order) (rest : list order) :
  Sql.order_by_id orderId d = X :: rest ->
  exists X1 rest1,
    Sql.order_by_id orderId (Sql.update_order orderId st t d) = X1 :: rest1
    /\ o_restaurant_id X1 = o_restaurant_id X.
Proof.
  unfold Sql.order_by_id, Sql.update_order. cbn [orders set_orders].
  intros Hv.
  match goal with
  | |- context [filter ?p (map ?f (orders d))] =>
      assert (E : filter p (map f (orders d)) = map f (filter p (orders d)))
  end.
  { clear Hv. induction (orders d) as [|o os IH]; [reflexivity |].
    cbn [map filter].
    destruct (o_id o =? orderId) eqn:Eo; cbn [o_id]; rewrite Eo;
      cbn [map]; rewrite ?Eo, IH; reflexivity. }
  rewrite E, Hv. cbn [map]. eexists _, _. split; [reflexivity |].
  now destruct (o_id X =? orderId).
Qed.

Lemma may_update_updated (u : user) (X X1 : order) (d : db) (orderId : Z)
    (st : order_status) (t : option Z) :
  o_restaurant_id X1 = o_restaurant_id X ->
  may_update u X d -> may_update u X1 (Sql.update_order orderId st t d).
Proof.
  intros Hr [Ha | [Hc (r & rs & Hq & Hid)]]; [now left |].
  right. split; [exact Hc |]. exists r, rs. split; [exact Hq | congruence].
Qed.

(** X12. Two transitions in a row.  When two permitted transitions of
    the same order succeed one after the other, the second answers 200
    and the order ends with the second status; its delivery timestamp is
    the one of the second transition when that one is to delivered, and
    otherwise the one left by the first: a delivery timestamp, once set,
    survives every later transition to another status. *)
Theorem transitions_compose (e1 e2 : env) (u1 u2 : user) (orderId : Z)
    (d : db) (X : order) (rest : list order) (s1 s2 : string)
    (st1 st2 : order_status) :
  Sql.order_by_id orderId d = X :: rest ->
  status_of_name s1 = Some st1 -> status_of_name s2 = Some st2 ->
  may_update u1 X d -> may_update u2 X d ->
  no_fault e1 [SelectOrder; SelectCookRestaurants; UpdateOrder] = true ->
  no_fault e2 [SelectOrder; SelectCookRestaurants; UpdateOrder] = true ->
  env_emit_throws e1 = false -> env_emit_throws e2 = false ->
  let d1 := store (snd (patch_orders_id_status e1 u1 orderId s1 (initial d))) in
  fst (patch_orders_id_status e2 u2 orderId s2 (initial d1))
  = {| statusCode := 200; body := StatusUpdated |}
  /\ store (snd (patch_orders_id_status e2 u2 orderId s2 (initial d1)))
     = Sql.update_order orderId st2
         (match stamp e2 st2 with
          | Some t => Some t
          | None => stamp e1 st1
          end) d.
Proof.
  intros Hv H1 H2 M1 M2 F1 F2 E1 E2 d1.
  assert (Hd1 : d1 = Sql.update_order orderId st1 (stamp e1 st1) d).
  { unfold d1.
    now rewrite (update_status_run e1 u1 orderId d X rest s1 st1
                   Hv H1 M1 F1 E1). }
  destruct (order_by_id_updated orderId st1 (stamp e1 st1) d X rest Hv)
    as (X1 & rest1 & Hv1 & Hr1).
  rewrite <- Hd1 in Hv1.
  assert (M2' : may_update u2 X1 d1)
    by (rewrite Hd1; now apply (may_update_updated u2 X)).
  rewrite (update_status_run e2 u2 orderId d1 X1 rest1 s2 st2
             Hv1 H2 M2' F2 E2).
  cbn [fst snd store]. split; [reflexivity |].
  rewrite Hd1. apply update_order_twice.
Qed.

Lemma transitions_compose_witness :
  map (fun o => (o_status o, o_delivered_at o))
      (orders
         (store
            (snd (patch_orders_id_status Sample.quiet Sample.dave 1 "pending"
                    (initial
                       (store
                          (snd (patch_orders_id_status Sample.quiet
                                  Sample.carol 1 "delivered"
                                  (initial Sample.shop)))))))))
  = [(pending, Some 1730500000555)].
Proof.
  assert (M : may_update Sample.carol Sample.old_order Sample.shop).
  { right. split; [reflexivity |]. eexists _, _. split; reflexivity. }
  destruct (transitions_compose Sample.quiet Sample.quiet Sample.carol
              Sample.dave 1 Sample.shop Sample.old_order [] "delivered"
              "pending" delivered pending eq_refl eq_refl eq_refl M
              (or_introl eq_refl) eq_refl eq_refl eq_refl eq_refl)
    as [_ H].
  rewrite H. reflexivity.
Defined.

(* ===================================================================== *)
(** * Properties of the other routes *)
(* ===================================================================== *)

(** ** The other routes *)

Lemma pool_run_select {R} (q : db -> list R) (w : world) :
  pool_run None (Sql.select q) w = (Ok (q (store w)), w).
Proof. unfold pool_run, Sql.select. now rewrite set_store_same. Qed.

Lemma pool_run_modify (f : db -> db) (w : world) :
  pool_run None (Sql.modify f) w = (Ok tt, set_store (f (store w)) w).
Proof. reflexivity. Qed.

Lemma pool_run_state {A} (fault : option string)
    (run : db -> result (A * db)) (w : world) :
  snd (pool_run fault run w) = w
  \/ exists a d, run (store w) = Ok (a, d)
                 /\ pool_run fault run w = (Ok a, set_store d w).
Proof.
  unfold pool_run. destruct fault; [now left |].
  destruct (run (store w)) as [[a d] | x] eqn:E; [right | now left].
  now exists a, d.
Qed.

Lemma existsb_In_map {A} (key : A -> Z) (k : Z) (l : list A) :
  In k (map key l) -> existsb (fun x => key x =? k) l = true.
Proof.
  intros H. apply in_map_iff in H as (x & Hx & Hin).
  apply existsb_exists. exists x. split; [exact Hin | lia].
Qed.

Lemma existsb_filter_nil {A} (p : A -> bool) (l : list A) :
  filter p l = [] -> existsb p l = false.
Proof.
  induction l as [|a l IH]; [reflexivity |]. cbn.
  destruct (p a); [discriminate | exact IH].
Qed.

Lemma fold_max_ge (l : list Z) (x : Z) :
  In x l -> x <= fold_right Z.max 0 l.
Proof.
  induction l as [|a l IH]; [contradiction |].
  intros [-> | H]; cbn; [lia |]. specialize (IH H). lia.
Qed.

Lemma cart_next_id_fresh (cs : list cart_item) :
  ~ In (Cart.next_id cs) (map ci_id cs).
Proof.
  intros H. apply fold_max_ge in H. unfold Cart.next_id in H. lia.
Qed.

(** *** Adding to the cart *)

Lemma cart_bumped_key (q id : Z) (ci : cart_item) :
  ci_id (Cart.bumped q id ci) = ci_id ci
  /\ ci_customer_id (Cart.bumped q id ci) = ci_customer_id ci
  /\ ci_food_item_id (Cart.bumped q id ci) = ci_food_item_id ci.
Proof. unfold Cart.bumped. now destruct (ci_id ci =? id). Qed.

Lemma cart_bumped_absent (q id : Z) (l : list cart_item) :
  ~ In id (map ci_id l) -> map (Cart.bumped q id) l = l.
Proof.
  induction l as [|a l IH]; [reflexivity |]. cbn. intros H.
  rewrite IH by tauto. unfold Cart.bumped.
  destruct (Z.eqb_spec (ci_id a) id); [tauto | reflexivity].
Qed.

Lemma cart_bumped_quantity (q : Z) (entry : cart_item) (c f : Z)
    (l : list cart_item) :
  NoDup (map ci_id l) -> In entry l ->
  Zsum (map ci_quantity
          (filter (fun ci => (ci_customer_id ci =? c)
                             && (ci_food_item_id ci =? f))
                  (map (Cart.bumped q (ci_id entry)) l)))
  = Zsum (map ci_quantity
            (filter (fun ci => (ci_customer_id ci =? c)
                               && (ci_food_item_id ci =? f)) l))
    + (if (ci_customer_id entry =? c) && (ci_food_item_id entry =? f)
       then q else 0).
Proof.
  induction l as [|a l IH]; [contradiction |].
  cbn [map]. intros Hnd Hin. inversion Hnd as [| ? ? Hni Hnd']; subst.
  cbn [filter].
  destruct (cart_bumped_key q (ci_id entry) a) as (_ & Kc & Kf). rewrite Kc, Kf.
  destruct Hin as [-> | Hin].
  - rewrite (cart_bumped_absent q (ci_id entry) l Hni).
    unfold Cart.bumped at 1. rewrite Z.eqb_refl.
    destruct ((ci_customer_id entry =? c) && (ci_food_item_id entry =? f));
      cbn [map Zsum fold_right ci_quantity]; unfold Zsum; lia.
  - assert (Hne : ci_id a <> ci_id entry).
    { intros E. apply Hni. rewrite E. now apply in_map. }
    unfold Cart.bumped at 1.
    destruct (Z.eqb_spec (ci_id a) (ci_id entry)); [contradiction |].
    specialize (IH Hnd' Hin).
    destruct ((ci_customer_id a =? c) && (ci_food_item_id a =? f));
      cbn [map Zsum fold_right]; unfold Zsum in *; lia.
Qed.

Lemma entry_of_head (c f : Z) (d : db) (entry : cart_item)
    (rest : list cart_item) :
  Cart.entry_of c f d = entry :: rest ->
  In entry (cart_items d)
  /\ ci_customer_id entry = c /\ ci_food_item_id entry = f.
Proof.
  intros E.
  assert (H : In entry (Cart.entry_of c f d)) by (rewrite E; now left).
  apply filter_In in H as [Hin Hp].
  apply andb_true_iff in Hp as [H1 H2]. split; [exact Hin | lia].
Qed.

Lemma entry_of_unique (c f : Z) (l : list cart_item) :
  NoDup (map cart_key l) ->
  Z.of_nat
    (List.length
       (filter (fun ci => (ci_customer_id ci =? c)
                          && (ci_food_item_id ci =? f)) l)) <= 1.
Proof.
  induction l as [|a l IH]; [cbn; lia |].
  cbn [map filter]. intros Hnd. inversion Hnd as [| ? ? Hni Hnd']; subst.
  specialize (IH Hnd').
  destruct ((ci_customer_id a =? c) && (ci_food_item_id a =? f)) eqn:Ea;
    [| exact IH].
  apply andb_true_iff in Ea as [E1 E2].
  rewrite filter_none; [cbn; lia |].
  intros x Hx.
  destruct ((ci_customer_id x =? c) && (ci_food_item_id x =? f)) eqn:Ex;
    [| reflexivity].
  apply andb_true_iff in Ex as [E3 E4]. exfalso. apply Hni.
  apply in_map_iff. exists x. split; [| exact Hx].
  unfold cart_key. f_equal; lia.
Qed.

Lemma add_quantity_ok (q : Z) (entry : cart_item) (d : db) :
  NoDup (map ci_id (cart_items d)) -> In entry (cart_items d) ->
  Cart.in_int (ci_quantity entry + q) = true ->
  Cart.add_quantity q (ci_id entry) d
  = Ok (tt, set_cart_items
              (map (Cart.bumped q (ci_id entry)) (cart_items d)) d).
Proof.
  intros Hnd Hin Hr. unfold Cart.add_quantity.
  destruct (existsb _ (cart_items d)) eqn:Ex; [| reflexivity].
  apply existsb_exists in Ex as (ci & Hci & Hp).
  apply andb_true_iff in Hp as [Hid Hout]. apply Z.eqb_eq in Hid.
  assert (ci = entry).
  { clear Hout Hr. induction (cart_items d) as [|a l IH]; [contradiction |].
    cbn [map] in Hnd. inversion Hnd as [| ? ? Hni Hnd']; subst.
    destruct Hci as [-> | Hci], Hin as [-> | Hin]; try reflexivity.
    - exfalso. apply Hni. rewrite Hid. now apply in_map.
    - exfalso. apply Hni. rewrite <- Hid. now apply in_map.
    - now apply IH. }
  subst ci. rewrite Hr in Hout. discriminate.
Qed.

Lemma add_to_cart_run (fl : faults) (u : user) (food : Z) (q : option Z)
    (d : db) :
  fl SelectCartEntry = None -> fl UpdateCartEntry = None ->
  fl InsertCartEntry = None ->
  In (u_id u) (map u_id (users d)) -> In food (map fi_id (food_items d)) ->
  NoDup (map ci_id (cart_items d)) -> NoDup (map cart_key (cart_items d)) ->
  Cart.in_int (u_id u) = true -> Cart.in_int food = true ->
  Cart.in_int (Cart.quantity_of (u_id u) food d
               + match q with Some n => n | None => 1 end) = true ->
  add_to_cart fl u food q (initial d)
  = (Ok {| rp_status := 200; rp_success := true;
           rp_message := "Item added to cart" |},
     initial
       (set_cart_items
          (match Cart.entry_of (u_id u) food d with
           | entry :: _ =>
               map (Cart.bumped (match q with Some n => n | None => 1 end)
                           (ci_id entry)) (cart_items d)
           | [] =>
               cart_items d ++
               [{| ci_id := Cart.next_id (cart_items d);
                   ci_customer_id := u_id u; ci_food_item_id := food;
                   ci_quantity := match q with Some n => n | None => 1 end |}]
           end) d)).
Proof.
  intros F1 F2 F3 Hu Hf Hnd Hk Ru Rf Rq. unfold add_to_cart.
  rewrite F1, F2, F3.
  unfold bind at 1. rewrite pool_run_select. cbn [store initial].
  unfold Cart.quantity_of in Rq.
  assert (Hlen := entry_of_unique (u_id u) food (cart_items d) Hk).
  fold (Cart.entry_of (u_id u) food d) in Hlen.
  destruct (Cart.entry_of (u_id u) food d) as [|entry rest] eqn:E.
  - unfold bind, pool_run, Cart.insert. cbn [store initial].
    cbn [map Zsum fold_right] in Rq. unfold Zsum in Rq. cbn in Rq.
    rewrite Ru, Rf, Rq. cbn [andb negb].
    rewrite (existsb_In_map u_id _ _ Hu), (existsb_In_map fi_id _ _ Hf).
    cbn [negb orb].
    rewrite (existsb_filter_nil _ _ E). reflexivity.
  - destruct rest as [|x rest]; [| cbn in Hlen; lia].
    destruct (entry_of_head _ _ _ _ _ E) as (Hin & _).
    unfold bind, pool_run. cbn [store initial].
    rewrite (add_quantity_ok _ entry d Hnd Hin); [reflexivity |].
    unfold Zsum in Rq. cbn in Rq. now rewrite Z.add_0_r in Rq.
Qed.

(** X15. Adding to the cart accumulates.  For a customer and a food
    item that exist, over a cart whose ids and (customer, item) pairs are
    unique, with the driver working and the resulting quantity within the
    INT range, POST /api/users/cart answers 200 [Item added to cart];
    afterwards the quantity of that item in that customer's cart is the
    quantity before plus the amount sent (1 when the body has none),
    every other quantity of every cart is as before, ids and pairs are
    still unique, and no other table has changed.  The amount is not
    validated: the statement holds for zero and for negative amounts. *)
Theorem cart_add_accumulates (fl : faults) (u : user) (food : Z)
    (q : option Z) (d : db) :
  u_user_type u = customer ->
  fl SelectCartEntry = None -> fl UpdateCartEntry = None ->
  fl InsertCartEntry = None ->
  In (u_id u) (map u_id (users d)) -> In food (map fi_id (food_items d)) ->
  NoDup (map ci_id (cart_items d)) -> NoDup (map cart_key (cart_items d)) ->
  Cart.in_int (u_id u) = true -> Cart.in_int food = true ->
  let amount := match q with Some n => n | None => 1 end in
  Cart.in_int (Cart.quantity_of (u_id u) food d + amount) = true ->
  let d' := store (snd (post_cart fl u food q (initial d))) in
  fst (post_cart fl u food q (initial d))
  = inl {| rp_status := 200; rp_success := true;
           rp_message := "Item added to cart" |}
  /\ (forall c f,
        Cart.quantity_of c f d'
        = Cart.quantity_of c f d
          + (if (c =? u_id u) && (f =? food) then amount else 0))
  /\ NoDup (map ci_id (cart_items d'))
  /\ NoDup (map cart_key (cart_items d'))
  /\ (users d', restaurants d', food_items d', orders d', order_items d')
     = (users d, restaurants d, food_items d, orders d, order_items d).
Proof.
  intros Hc F1 F2 F3 Hu Hf Hnd Hk Ru Rf amount Rq d'. subst amount.
  assert (Hrun := add_to_cart_run fl u food q d F1 F2 F3 Hu Hf Hnd Hk
                    Ru Rf Rq).
  assert (Hpost : post_cart fl u food q (initial d)
                  = (inl {| rp_status := 200; rp_success := true;
                            rp_message := "Item added to cart" |},
                     snd (add_to_cart fl u food q (initial d)))).
  { unfold post_cart, guarded. rewrite Hc. cbn [existsb user_type_eqb orb negb].
    unfold handled. now rewrite Hrun. }
  assert (Hd' : d' = store (snd (add_to_cart fl u food q (initial d))))
    by (unfold d'; now rewrite Hpost).
  rewrite Hpost. cbn [fst]. rewrite Hrun in Hd'. cbn [snd store initial] in Hd'.
  split; [reflexivity |]. rewrite Hd'. clear Hd' Hpost Hrun d'.
  destruct (Cart.entry_of (u_id u) food d) as [|entry rest] eqn:E.
  - refine (conj _ (conj _ (conj _ eq_refl))).
    + intros c f. unfold Cart.quantity_of, Cart.entry_of.
      cbn [cart_items set_cart_items].
      rewrite filter_app, map_app, Zsum_app. f_equal.
      cbn [filter ci_customer_id ci_food_item_id].
      rewrite (Z.eqb_sym (u_id u) c), (Z.eqb_sym food f).
      destruct ((c =? u_id u) && (f =? food)); cbn; unfold Zsum; cbn; lia.
    + cbn [cart_items set_cart_items]. rewrite map_app. cbn [map ci_id].
      apply NoDup_app; [exact Hnd | repeat constructor; intros [] |].
      intros x Hx [<- | []]. now apply (cart_next_id_fresh (cart_items d)).
    + cbn [cart_items set_cart_items]. rewrite map_app.
      cbn [map]. unfold cart_key at 2. cbn [ci_customer_id ci_food_item_id].
      apply NoDup_app; [exact Hk | repeat constructor; intros [] |].
      intros x Hx [<- | []]. apply in_map_iff in Hx as (ci & Hk' & Hin).
      unfold cart_key in Hk'. injection Hk' as H1 H2.
      assert (Hin' : In ci (Cart.entry_of (u_id u) food d)).
      { apply filter_In. split; [exact Hin |].
        apply andb_true_iff. split; lia. }
      rewrite E in Hin'. contradiction.
  - destruct (entry_of_head _ _ _ _ _ E) as (Hin & Ec & Ef).
    refine (conj _ (conj _ (conj _ eq_refl))).
    + intros c f. unfold Cart.quantity_of, Cart.entry_of.
      cbn [cart_items set_cart_items].
      rewrite (cart_bumped_quantity _ entry c f _ Hnd Hin), Ec, Ef.
      now rewrite (Z.eqb_sym (u_id u) c), (Z.eqb_sym food f).
    + cbn [cart_items set_cart_items]. rewrite map_map.
      erewrite map_ext; [exact Hnd |]. intros a.
      apply (cart_bumped_key _ (ci_id entry) a).
    + cbn [cart_items set_cart_items]. rewrite map_map.
      erewrite map_ext; [exact Hk |]. intros a. unfold cart_key.
      destruct (cart_bumped_key (match q with Some n => n | None => 1 end)
                  (ci_id entry) a) as (_ & -> & ->).
      reflexivity.
Qed.

Lemma cart_add_accumulates_witness :
  Cart.quantity_of 1 100
    (store (snd (post_cart More.calm Sample.alice 100 None
                   (initial Sample.shop)))) = 3
  /\ Cart.quantity_of 5 100
       (store (snd (post_cart More.calm Sample.alice 100 None
                      (initial Sample.shop)))) = 3.
Proof.
  assert (Hnd : NoDup (map ci_id (cart_items Sample.shop))).
  { cbn. repeat constructor; cbn; intuition discriminate. }
  assert (Hk : NoDup (map cart_key (cart_items Sample.shop))).
  { cbn. repeat constructor; cbn; intuition discriminate. }
  assert (Hu : In (u_id Sample.alice) (map u_id (users Sample.shop)))
    by (now left).
  assert (Hf : In 100 (map fi_id (food_items Sample.shop))) by (now left).
  destruct (cart_add_accumulates More.calm Sample.alice 100 None Sample.shop
              eq_refl eq_refl eq_refl eq_refl Hu Hf Hnd Hk eq_refl eq_refl
              eq_refl) as (_ & H & _).
  split; rewrite H; reflexivity.
Defined.

(** X16. How adding to the cart fails.  A user who is not a customer
    gets 403 [Insufficient permissions].  A customer who adds a food item
    that does not exist (and is not in the cart) gets 400 [Invalid
    reference - related record not found], the answer of the error
    handler to the foreign-key error of the insert.  A customer who adds
    a new item with an amount outside the INT range gets a failure with
    status 500.  In all three cases the world is unchanged. *)
Theorem cart_add_refusals (fl : faults) (u : user) (food : Z) (q : option Z)
    (w : world) :
  (u_user_type u <> customer ->
   post_cart fl u food q w
   = (inr {| rp_status := 403; rp_success := false;
             rp_message := "Insufficient permissions" |}, w))
  /\ (u_user_type u = customer ->
      fl SelectCartEntry = None -> fl InsertCartEntry = None ->
      Cart.entry_of (u_id u) food (store w) = [] ->
      Cart.in_int (u_id u) = true -> Cart.in_int food = true ->
      Cart.in_int (match q with Some n => n | None => 1 end) = true ->
      ~ In food (map fi_id (food_items (store w))) ->
      post_cart fl u food q w
      = (inr {| rp_status := 400; rp_success := false;
                rp_message := "Invalid reference - related record not found" |},
         w))
  /\ (u_user_type u = customer ->
      fl SelectCartEntry = None -> fl InsertCartEntry = None ->
      Cart.entry_of (u_id u) food (store w) = [] ->
      Cart.in_int (match q with Some n => n | None => 1 end) = false ->
      exists message,
        post_cart fl u food q w
        = (inr {| rp_status := 500; rp_success := false;
                  rp_message := message |}, w)).
Proof.
  refine (conj _ (conj _ _)).
  - intros Hc. unfold post_cart, guarded.
    destruct (u_user_type u); [contradiction | reflexivity | reflexivity].
  - intros Hc F1 F3 E Ru Rf Rq Hf. unfold post_cart, guarded. rewrite Hc.
    cbn [existsb user_type_eqb orb negb].
    unfold handled, add_to_cart. rewrite F1, F3.
    unfold bind at 1. rewrite pool_run_select, E.
    unfold bind, pool_run, Cart.insert. rewrite Ru, Rf, Rq. cbn [andb negb].
    assert (Hx : existsb (fun f => fi_id f =? food) (food_items (store w))
                 = false).
    { destruct (existsb _ _) eqn:Ex; [| reflexivity].
      apply existsb_exists in Ex as (f & Hin & Hid). exfalso. apply Hf.
      apply in_map_iff. exists f. split; [lia | exact Hin]. }
    rewrite Hx. cbn [negb]. rewrite orb_true_r. reflexivity.
  - intros Hc F1 F3 E Rq. unfold post_cart, guarded. rewrite Hc.
    cbn [existsb user_type_eqb orb negb].
    unfold handled, add_to_cart. rewrite F1, F3.
    unfold bind at 1. rewrite pool_run_select, E.
    unfold bind, pool_run, Cart.insert. rewrite Rq.
    rewrite !andb_false_r. eexists. reflexivity.
Qed.

Lemma cart_add_refusals_witness :
  fst (post_cart More.calm Sample.bob 100 None (initial Sample.shop))
  = inr {| rp_status := 403; rp_success := false;
           rp_message := "Insufficient permissions" |}
  /\ fst (post_cart More.calm Sample.erin 999 (Some 2) (initial Sample.shop))
     = inr {| rp_status := 400; rp_success := false;
              rp_message := "Invalid reference - related record not found" |}.
Proof.
  split.
  - rewrite (proj1 (cart_add_refusals More.calm Sample.bob 100 None
                      (initial Sample.shop))); [reflexivity | discriminate].
  - rewrite (proj1 (proj2 (cart_add_refusals More.calm Sample.erin 999 (Some 2)
                      (initial Sample.shop))));
      [reflexivity | reflexivity | reflexivity | reflexivity | reflexivity
       | reflexivity | reflexivity | reflexivity |].
    cbn. intuition discriminate.
Defined.

(** *** Removing from the cart *)

Lemma filter_other_customers (id c : Z) (l : list cart_item) :
  filter (fun ci => negb (ci_customer_id ci =? c))
    (filter (fun ci => negb ((ci_id ci =? id) && (ci_customer_id ci =? c))) l)
  = filter (fun ci => negb (ci_customer_id ci =? c)) l.
Proof.
  induction l as [|a l IH]; [reflexivity |]. cbn [filter].
  destruct (ci_customer_id a =? c) eqn:Ec.
  - rewrite andb_true_r. destruct (ci_id a =? id); cbn [negb filter];
      rewrite ?Ec; cbn [negb]; exact IH.
  - rewrite andb_false_r. cbn [negb filter]. rewrite Ec. cbn [negb].
    now rewrite IH.
Qed.

Lemma filter_idem {A} (p : A -> bool) (l : list A) :
  filter p (filter p l) = filter p l.
Proof.
  induction l as [|a l IH]; [reflexivity |]. cbn [filter].
  destruct (p a) eqn:E; [| exact IH]. cbn [filter]. now rewrite E, IH.
Qed.

(** X17. Removing from the cart.  For a customer, with the driver
    working, DELETE /api/users/cart/:id always answers 200 [Item removed
    from cart], also when no entry has that id or the entry is in the
    cart of somebody else.  The entries left are exactly those that do
    not have both that id and that customer: the carts of all other
    customers are untouched, the other tables too, and repeating the
    request changes nothing further. *)
Theorem cart_delete_own_only (fl : faults) (u : user) (id : Z) (d : db) :
  u_user_type u = customer -> fl DeleteCartEntry = None ->
  let d' := store (snd (delete_cart_id fl u id (initial d))) in
  fst (delete_cart_id fl u id (initial d))
  = inl {| rp_status := 200; rp_success := true;
           rp_message := "Item removed from cart" |}
  /\ (forall ci, In ci (cart_items d')
                 <-> In ci (cart_items d)
                     /\ ~ (ci_id ci = id /\ ci_customer_id ci = u_id u))
  /\ filter (fun ci => negb (ci_customer_id ci =? u_id u)) (cart_items d')
     = filter (fun ci => negb (ci_customer_id ci =? u_id u)) (cart_items d)
  /\ store (snd (delete_cart_id fl u id (initial d'))) = d'
  /\ (users d', restaurants d', food_items d', orders d', order_items d')
     = (users d, restaurants d, food_items d, orders d, order_items d).
Proof.
  intros Hc F d'.
  assert (Hrun : forall x, delete_cart_id fl u id (initial x)
                 = (inl {| rp_status := 200; rp_success := true;
                           rp_message := "Item removed from cart" |},
                    initial (Cart.delete id (u_id u) x))).
  { intros x. unfold delete_cart_id, guarded. rewrite Hc.
    cbn [existsb user_type_eqb orb negb].
    unfold handled, remove_from_cart. rewrite F. unfold bind.
    rewrite pool_run_modify. reflexivity. }
  assert (Hd' : d' = Cart.delete id (u_id u) d)
    by (unfold d'; now rewrite Hrun).
  rewrite Hrun, Hd', Hrun. cbn [fst snd store initial].
  refine (conj eq_refl (conj _ (conj _ (conj _ eq_refl)))).
  - intros ci. unfold Cart.delete. cbn [cart_items set_cart_items].
    rewrite filter_In. split; intros [Hin Hp]; (split; [exact Hin |]).
    + intros [H1 H2]. rewrite H1, H2, !Z.eqb_refl in Hp. discriminate.
    + destruct (Z.eqb_spec (ci_id ci) id), (Z.eqb_spec (ci_customer_id ci) (u_id u));
        try reflexivity. tauto.
  - unfold Cart.delete. cbn [cart_items set_cart_items].
    apply filter_other_customers.
  - unfold Cart.delete. cbn [cart_items set_cart_items users restaurants
      food_items orders order_items]. unfold set_cart_items.
    cbn [cart_items users restaurants food_items orders order_items].
    now rewrite filter_idem.
Qed.

Lemma cart_delete_own_only_witness :
  fst (delete_cart_id More.calm Sample.erin 1 (initial Sample.shop))
  = inl {| rp_status := 200; rp_success := true;
           rp_message := "Item removed from cart" |}
  /\ cart_items (store (snd (delete_cart_id More.calm Sample.erin 1
                               (initial Sample.shop))))
     = cart_items Sample.shop.
Proof.
  destruct (cart_delete_own_only More.calm Sample.erin 1 Sample.shop
              eq_refl eq_refl) as (H1 & _).
  split; [exact H1 | reflexivity].
Defined.

(** *** Creating a restaurant *)

Lemma restaurants_of_cook_app (c : Z) (d : db) (new : restaurant)
    (d1 : db) :
  restaurants d1 = restaurants d ++ [new] ->
  Sql.restaurants_of_cook c d1
  = Sql.restaurants_of_cook c d
    ++ (if r_cook_id new =? c then [new] else []).
Proof.
  intros H. unfold Sql.restaurants_of_cook. rewrite H, filter_app.
  reflexivity.
Qed.

Lemma restaurant_next_id_fresh (rs : list restaurant) (r : restaurant) :
  In r rs -> (r_id r =? Restaurants.next_id rs) = false.
Proof.
  intros H. apply Z.eqb_neq. intros E.
  assert (Hm := fold_max_ge (map r_id rs) (r_id r) (in_map r_id _ _ H)).
  unfold Restaurants.next_id in E. lia.
Qed.

Lemma insert_restaurant_kept (c : Z) (name : string)
    (b : restaurant_request) (d : db) (id : Z) (d1 : db) :
  Restaurants.insert c name b d = Ok (id, d1) ->
  Sql.restaurants_of_cook c d = [] ->
  one_restaurant_per_cook d -> one_restaurant_per_cook d1.
Proof.
  unfold Restaurants.insert.
  destruct (Restaurants.too_long name b); [discriminate |].
  destruct (negb _); [discriminate |].
  intros H E Hinv. injection H as _ <-. intros c'.
  erewrite restaurants_of_cook_app by (cbn [restaurants]; reflexivity).
  cbn [r_cook_id]. destruct (Z.eqb_spec c c') as [<- |].
  - rewrite E. cbn. lia.
  - rewrite app_nil_r. apply Hinv.
Qed.

(** X18. POST /api/restaurants keeps the invariant that no cook has
    two restaurants: if it holds before a request, it holds after it,
    whoever sends the request, whatever the body and whichever statements
    the driver fails on. *)
Theorem one_restaurant_per_cook_kept (g : engine) (fl : faults) (u : user)
    (b : restaurant_request) (w : world) :
  one_restaurant_per_cook (store w) ->
  one_restaurant_per_cook (store (snd (post_restaurants g fl u b w))).
Proof.
  intros Hinv. unfold post_restaurants, guarded.
  destruct (negb (existsb _ _)); [exact Hinv |].
  unfold handled, create_restaurant.
  destruct (negb (valid_restaurant_request g b)); [exact Hinv |].
  unfold bind at 1.
  destruct (fl SelectOwnRestaurants) as [code |]; [exact Hinv |].
  rewrite pool_run_select.
  destruct (Sql.restaurants_of_cook (u_id u) (store w)) as [|r0 rs] eqn:E;
    [| exact Hinv].
  unfold bind at 1.
  destruct (pool_run_state (fl InsertRestaurant)
              (Restaurants.insert (u_id u) (trim g (rq_name b)) b) w)
    as [Hs | (id & d1 & Hi & Hp)].
  - destruct (pool_run _ _ w) as [[id | x] w1]; cbn [snd] in Hs; subst w1.
    + unfold bind.
      destruct (pool_run_state (fl SelectNewRestaurant)
                  (Sql.select (Restaurants.by_id id)) w)
        as [Hs | (a & d2 & Hi & Hp)].
      * destruct (pool_run _ _ w) as [[a | x] w1]; cbn [snd] in Hs; subst w1;
          exact Hinv.
      * rewrite Hp. cbn [snd store set_store].
        unfold Sql.select in Hi. injection Hi as _ <-. exact Hinv.
    + exact Hinv.
  - rewrite Hp. unfold bind.
    assert (H1 : one_restaurant_per_cook d1)
      by exact (insert_restaurant_kept _ _ _ _ _ _ Hi E Hinv).
    destruct (pool_run_state (fl SelectNewRestaurant)
                (Sql.select (Restaurants.by_id id)) (set_store d1 w))
      as [Hs | (a & d2 & Hi2 & Hp2)].
    + destruct (pool_run _ _ (set_store d1 w)) as [[a | x] w1];
        cbn [snd] in Hs; subst w1; exact H1.
    + rewrite Hp2. cbn [snd store set_store].
      unfold Sql.select in Hi2. injection Hi2 as _ <-. exact H1.
Qed.

Lemma one_restaurant_per_cook_kept_witness :
  one_restaurant_per_cook
    (store (snd (post_restaurants More.plain More.calm More.frank
                   More.franks (initial More.town)))).
Proof.
  apply (one_restaurant_per_cook_kept More.plain More.calm More.frank _
           (initial More.town)).
  intros c. unfold Sql.restaurants_of_cook.
  cbn [More.town restaurants Sample.shop filter r_cook_id store initial].
  destruct (Z.eqb_spec 2 c); destruct (Z.eqb_spec 3 c); cbn [List.length];
    lia.
Defined.

Lemma by_id_new (d : db) (new : restaurant) :
  r_id new = Restaurants.next_id (restaurants d) ->
  filter (fun r => r_id r =? r_id new) (restaurants d ++ [new]) = [new].
Proof.
  intros Hid. rewrite filter_app. cbn [filter]. rewrite Z.eqb_refl.
  rewrite filter_none; [reflexivity |].
  intros r Hin. rewrite Hid. now apply restaurant_next_id_fresh.
Qed.

(** X19. Creating a restaurant profile.  For a cook who is a row of
    users, a body that passes the validators and fits the columns, with
    the driver working: a cook who has a restaurant already gets 400 [You
    already have a restaurant profile] and nothing changes; a cook who
    has none gets 201 with the new row, which has a fresh id, this cook,
    the trimmed name, is active and delivers for 0.00, and is then the
    one restaurant of the cook; a second request is refused with the 400
    above. *)
Theorem restaurant_creation (g : engine) (fl : faults) (u : user)
    (b : restaurant_request) (d : db) :
  u_user_type u = cook ->
  valid_restaurant_request g b = true ->
  Restaurants.too_long (trim g (rq_name b)) b = false ->
  fl SelectOwnRestaurants = None -> fl InsertRestaurant = None ->
  fl SelectNewRestaurant = None ->
  In (u_id u) (map u_id (users d)) ->
  let new := {| r_id := Restaurants.next_id (restaurants d);
                r_cook_id := u_id u; r_name := trim g (rq_name b);
                r_is_active := true; r_delivery_fee := Some 0 |} in
  let d' := {| users := users d; restaurants := restaurants d ++ [new];
               food_items := food_items d; cart_items := cart_items d;
               orders := orders d; order_items := order_items d |} in
  let refused := {| rp_status := 400; rp_success := false;
                    rp_message := "You already have a restaurant profile" |} in
  (Sql.restaurants_of_cook (u_id u) d <> [] ->
   post_restaurants g fl u b (initial d) = (inl (refused, None), initial d))
  /\ (Sql.restaurants_of_cook (u_id u) d = [] ->
      post_restaurants g fl u b (initial d)
      = (inl ({| rp_status := 201; rp_success := true;
                 rp_message := "Restaurant created successfully" |},
              Some new), initial d')
      /\ Sql.restaurants_of_cook (u_id u) d' = [new]
      /\ post_restaurants g fl u b (initial d')
         = (inl (refused, None), initial d')).
Proof.
  intros Hc Hv Hw F1 F2 F3 Hu new d' refused.
  assert (Hrefused : forall x, Sql.restaurants_of_cook (u_id u) x <> [] ->
            post_restaurants g fl u b (initial x)
            = (inl (refused, None), initial x)).
  { intros x Hx. unfold post_restaurants, guarded. rewrite Hc.
    cbn [existsb user_type_eqb orb negb].
    unfold handled, create_restaurant. rewrite Hv, F1. cbn [negb].
    unfold bind. rewrite pool_run_select. cbn [store initial].
    destruct (Sql.restaurants_of_cook (u_id u) x); [contradiction |].
    reflexivity. }
  split; [apply Hrefused |]. intros E.
  assert (Hnew : Sql.restaurants_of_cook (u_id u) d' = [new]).
  { erewrite restaurants_of_cook_app by (cbn [restaurants d']; reflexivity).
    rewrite E. cbn [r_cook_id new app]. now rewrite Z.eqb_refl. }
  refine (conj _ (conj Hnew _)).
  - unfold post_restaurants, guarded. rewrite Hc.
    cbn [existsb user_type_eqb orb negb].
    unfold handled, create_restaurant. rewrite Hv, F1, F2, F3. cbn [negb].
    unfold bind at 1. rewrite pool_run_select. cbn [store initial]. rewrite E.
    unfold bind at 1. unfold pool_run at 1, Restaurants.insert.
    cbn [store initial]. rewrite Hw, (existsb_In_map u_id _ _ Hu).
    cbn [negb]. fold new. fold d'. unfold bind. rewrite pool_run_select.
    cbn [store set_store initial]. unfold Restaurants.by_id.
    cbn [restaurants d'].
    change (Restaurants.next_id (restaurants d)) with (r_id new).
    rewrite (by_id_new d new eq_refl). reflexivity.
  - apply Hrefused. rewrite Hnew. discriminate.
Qed.

Lemma restaurant_creation_witness :
  fst (post_restaurants More.plain More.calm More.frank
         More.franks (initial More.town))
  = inl ({| rp_status := 201; rp_success := true;
            rp_message := "Restaurant created successfully" |},
         Some {| r_id := 21; r_cook_id := 6; r_name := "Frank's";
                 r_is_active := true; r_delivery_fee := Some 0 |}).
Proof.
  assert (Hu : In (u_id More.frank) (map u_id (users More.town))).
  { cbn. tauto. }
  destruct (restaurant_creation More.plain More.calm More.frank
              More.franks More.town
              eq_refl eq_refl eq_refl eq_refl eq_refl eq_refl Hu) as [_ H].
  destruct (H eq_refl) as (H1 & _). rewrite H1. reflexivity.
Defined.

(** *** One restaurant per cook and the checks on orders *)

(** X20. When no cook has two restaurants, the permission checks of
    the order routes, which look at the first restaurant of the cook
    only, are exact: a user may update the status of an order if and only
    if the user is an administrator or a cook who operates the restaurant
    of the order, and a cook may read an order if and only if the cook
    operates its restaurant. *)
Theorem single_restaurant_authorization (u : user) (X : order) (d : db) :
  one_restaurant_per_cook d ->
  (may_update u X d
   <-> u_user_type u = admin \/ (u_user_type u = cook /\ operates u X d))
  /\ (u_user_type u = cook -> (may_read u X d <-> operates u X d)).
Proof.
  intros Hinv.
  assert (Hop : operates u X d ->
                exists r rs, Sql.restaurants_of_cook (u_id u) d = r :: rs
                             /\ r_id r = o_restaurant_id X).
  { intros (r & Hin & Hck & Hid).
    assert (Hin' : In r (Sql.restaurants_of_cook (u_id u) d)).
    { apply filter_In. split; [exact Hin | lia]. }
    specialize (Hinv (u_id u)).
    destruct (Sql.restaurants_of_cook (u_id u) d) as [|r1 [|r2 rs]];
      [contradiction | | cbn in Hinv; lia].
    destruct Hin' as [-> | []]. now exists r, []. }
  split.
  - split.
    + intros [Ha | (Hc & r & rs & E & Hid)]; [now left | right].
      split; [exact Hc |]. exact (first_restaurant_operates u X d r rs E Hid).
    + intros [Ha | (Hc & Ho)]; [now left | right].
      split; [exact Hc | now apply Hop].
  - intros Hc. unfold may_read. rewrite Hc. split.
    + intros (r & rs & E & Hid).
      exact (first_restaurant_operates u X d r rs E Hid).
    + exact Hop.
Qed.

Lemma single_restaurant_authorization_witness :
  may_update Sample.carol Sample.old_order Sample.shop
  /\ ~ may_update Sample.bob Sample.old_order Sample.shop.
Proof.
  assert (Hinv : one_restaurant_per_cook Sample.shop).
  { intros c. unfold Sql.restaurants_of_cook.
    cbn [restaurants Sample.shop filter r_cook_id].
    destruct (Z.eqb_spec 2 c); destruct (Z.eqb_spec 3 c); cbn [List.length];
      lia. }
  split.
  - apply (proj1 (single_restaurant_authorization Sample.carol
                    Sample.old_order Sample.shop Hinv)).
    right. split; [reflexivity |].
    exists {| r_id := 20; r_cook_id := 3; r_name := "Carol's";
              r_is_active := true; r_delivery_fee := Some 0 |}.
    cbn. tauto.
  - intros H.
    apply (proj1 (single_restaurant_authorization Sample.bob
                    Sample.old_order Sample.shop Hinv)) in H.
    destruct H as [H | (_ & r & Hin & Hck & Hid)]; [discriminate |].
    cbn in Hin. destruct Hin as [<- | [<- | []]]; cbn in *; discriminate.
Defined.

(** *** Deleting a food item *)

Lemma own_food_iff (u : user) (fid : Z) (d : db) :
  Food.own fid (u_id u) d <> [] <-> cooks_item u fid d.
Proof.
  unfold Food.own, cooks_item. split.
  - intros H.
    destruct (flat_map _ _) as [|x xs] eqn:E; [contradiction |].
    assert (Hin : In x (x :: xs)) by now left.
    rewrite <- E in Hin. apply in_flat_map in Hin as (f & Hf & Hx).
    apply filter_In in Hf as [Hf Hid].
    apply in_map_iff in Hx as (r & _ & Hr).
    apply filter_In in Hr as [Hr Hp]. apply andb_true_iff in Hp as [H1 H2].
    exists f, r. repeat split; try assumption; lia.
  - intros (f & r & Hf & Hid & Hr & H1 & H2) E.
    assert (Hin : In f (flat_map
      (fun f0 => map (fun _ => f0)
         (filter (fun r0 => (r_id r0 =? fi_restaurant_id f0)
                            && (r_cook_id r0 =? u_id u)) (restaurants d)))
      (filter (fun f0 => fi_id f0 =? fid) (food_items d)))).
    { apply in_flat_map. exists f. split.
      - apply filter_In. split; [exact Hf | lia].
      - apply in_map_iff. exists r. split; [reflexivity |].
        apply filter_In. split; [exact Hr |].
        apply andb_true_iff. split; lia. }
    rewrite E in Hin. contradiction.
Qed.

Lemma cooks_item_present (u : user) (fid : Z) (d : db) :
  cooks_item u fid d ->
  existsb (fun f => fi_id f =? fid) (food_items d) = true.
Proof.
  intros (f & r & Hf & Hid & _). apply existsb_exists.
  exists f. split; [exact Hf | lia].
Qed.

Lemma delete_food_id_ok (fl : faults) (u : user) (fid : Z) (d : db) :
  fl SelectOwnFoodItem = None -> fl DeleteFoodItem = None ->
  u_user_type u = cook -> cooks_item u fid d ->
  delete_food_id fl u fid (initial d)
  = (inl {| rp_status := 200; rp_success := true;
            rp_message := "Food item deleted successfully" |},
     initial (Food.delete fid d)).
Proof.
  intros F1 F2 Hc Hy. unfold delete_food_id, guarded. rewrite Hc.
  cbn [existsb user_type_eqb orb negb].
  unfold handled, delete_food. rewrite F1, F2. unfold bind at 1.
  rewrite pool_run_select. cbn [store initial].
  apply own_food_iff in Hy.
  destruct (Food.own fid (u_id u) d) as [|x xs]; [contradiction |].
  unfold bind. rewrite pool_run_modify. reflexivity.
Qed.

(** X21. Who may delete a food item.  With the driver working, DELETE
    /api/food/:id answers a user who is not a cook with 403 [Insufficient
    permissions], and a cook who has no restaurant selling the item (the
    item is missing, or it belongs to a restaurant of another cook) with
    404 [Food item not found or access denied], both without any change;
    a cook who has one gets 200 [Food item deleted successfully], and
    afterwards has no restaurant selling an item of that id. *)
Theorem food_delete_authorization (fl : faults) (u : user) (fid : Z)
    (d : db) :
  fl SelectOwnFoodItem = None -> fl DeleteFoodItem = None ->
  (u_user_type u <> cook ->
   delete_food_id fl u fid (initial d)
   = (inr {| rp_status := 403; rp_success := false;
             rp_message := "Insufficient permissions" |}, initial d))
  /\ (u_user_type u = cook -> ~ cooks_item u fid d ->
      delete_food_id fl u fid (initial d)
      = (inr {| rp_status := 404; rp_success := false;
                rp_message := "Food item not found or access denied" |},
         initial d))
  /\ (u_user_type u = cook -> cooks_item u fid d ->
      delete_food_id fl u fid (initial d)
      = (inl {| rp_status := 200; rp_success := true;
                rp_message := "Food item deleted successfully" |},
         initial (Food.delete fid d))
      /\ ~ cooks_item u fid (Food.delete fid d)).
Proof.
  intros F1 F2. refine (conj _ (conj _ _)).
  - intros Hc. unfold delete_food_id, guarded.
    destruct (u_user_type u); [reflexivity | contradiction | reflexivity].
  - intros Hc Hn. unfold delete_food_id, guarded. rewrite Hc.
    cbn [existsb user_type_eqb orb negb].
    unfold handled, delete_food. rewrite F1. unfold bind.
    rewrite pool_run_select. cbn [store initial].
    destruct (Food.own fid (u_id u) d) as [|x xs] eqn:E; [reflexivity |].
    exfalso. apply Hn. apply own_food_iff. rewrite E. discriminate.
  - intros Hc Hy. split.
    + now apply delete_food_id_ok.
    + intros (f & r & Hf & Hid & _).
      unfold Food.delete in Hf. rewrite (cooks_item_present u fid d Hy) in Hf.
      cbn [food_items] in Hf.
      apply filter_In in Hf as [_ Hp]. rewrite Hid, Z.eqb_refl in Hp.
      discriminate.
Qed.

Lemma food_delete_authorization_witness :
  fst (delete_food_id More.calm Sample.carol 100 (initial Sample.shop))
  = inr {| rp_status := 404; rp_success := false;
           rp_message := "Food item not found or access denied" |}
  /\ food_items
       (store (snd (delete_food_id More.calm Sample.bob 100
                      (initial Sample.shop))))
     = tl (food_items Sample.shop).
Proof.
  destruct (food_delete_authorization More.calm Sample.carol 100 Sample.shop
              eq_refl eq_refl) as (_ & H404 & _).
  destruct (food_delete_authorization More.calm Sample.bob 100 Sample.shop
              eq_refl eq_refl) as (_ & _ & H200).
  split.
  - rewrite (H404 eq_refl); [reflexivity |].
    intros (f & r & Hf & Hid & Hr & H1 & H2).
    cbn in Hr. destruct Hr as [<- | [<- | []]]; cbn in H2; try discriminate.
    cbn in Hf.
    repeat (destruct Hf as [<- | Hf]; [cbn in Hid, H1; discriminate |]).
    contradiction.
  - destruct (H200 eq_refl) as [H _]; [| rewrite H; reflexivity].
    exists (Sample.food 100 10 "itemA" 1000 true).
    exists {| r_id := 10; r_cook_id := 2; r_name := "Bob's";
              r_is_active := true; r_delivery_fee := Some 250 |}.
    cbn. tauto.
Defined.

Lemma filter_filter_implied {A} (p q : A -> bool) (l : list A) :
  (forall x, In x l -> p x = true -> q x = true) ->
  filter p (filter q l) = filter p l.
Proof.
  induction l as [|a l IH]; intros H; [reflexivity |]. cbn [filter].
  assert (IH' := IH (fun x Hx => H x (or_intror Hx))).
  destruct (q a) eqn:Eq; cbn [filter].
  - now rewrite IH'.
  - destruct (p a) eqn:Ep; [| exact IH'].
    rewrite (H a (or_introl eq_refl) Ep) in Eq. discriminate.
Qed.

Lemma filter_cons_eq {A} (p : A -> bool) (x : A) (l : list A) :
  filter p (x :: l) = if p x then x :: filter p l else filter p l.
Proof. reflexivity. Qed.

Lemma flat_map_cons_eq {A B} (f : A -> list B) (x : A) (l : list A) :
  flat_map f (x :: l) = f x ++ flat_map f l.
Proof. reflexivity. Qed.

Lemma line_views_without (orderId fid : Z) (fs : list food_item)
    (ois : list order_item) :
  flat_map
    (fun oi =>
       map (fun f => (oi, fi_name f))
           (filter (fun f => fi_id f =? oi_food_item_id oi)
                   (filter (fun f => negb (fi_id f =? fid)) fs)))
    (filter (fun oi => oi_order_id oi =? orderId)
            (filter (fun oi => negb (oi_food_item_id oi =? fid)) ois))
  = filter (fun l : order_item * string =>
              negb (oi_food_item_id (fst l) =? fid))
      (flat_map
         (fun oi =>
            map (fun f => (oi, fi_name f))
                (filter (fun f => fi_id f =? oi_food_item_id oi) fs))
         (filter (fun oi => oi_order_id oi =? orderId) ois)).
Proof.
  induction ois as [|a ois IH]; [reflexivity |].
  rewrite !filter_cons_eq.
  destruct (oi_food_item_id a =? fid) eqn:Ef; cbn [negb];
    [| rewrite filter_cons_eq];
    destruct (oi_order_id a =? orderId) eqn:Eo;
    rewrite ?flat_map_cons_eq; try exact IH.
  - rewrite filter_app, <- IH.
    rewrite (filter_none _ (map _ _)); [reflexivity |].
    intros l Hl. apply in_map_iff in Hl as (f & <- & _). cbn [fst].
    now rewrite Ef.
  - rewrite filter_app, <- IH. f_equal. rewrite (filter_all _ (map _ _)).
    + f_equal. apply filter_filter_implied. intros f _ Hid.
      apply Z.eqb_eq in Hid. rewrite Hid, Ef. reflexivity.
    + intros l Hl. apply in_map_iff in Hl as (f & <- & _). cbn [fst].
      now rewrite Ef.
Qed.

Lemma detail_after_delete (e : env) (u : user) (orderId fid : Z) (d : db) :
  existsb (fun f => fi_id f =? fid) (food_items d) = true ->
  get_orders_id e u orderId (initial (Food.delete fid d))
  = (without_item fid (fst (get_orders_id e u orderId (initial d))),
     initial (Food.delete fid d)).
Proof.
  intros Hex.
  assert (Hv : Sql.order_views orderId (Food.delete fid d)
               = Sql.order_views orderId d).
  { unfold Food.delete. rewrite Hex. reflexivity. }
  assert (Hr : Sql.restaurants_of_cook (u_id u) (Food.delete fid d)
               = Sql.restaurants_of_cook (u_id u) d).
  { unfold Food.delete. rewrite Hex. reflexivity. }
  assert (Hl : Sql.line_views orderId (Food.delete fid d)
               = filter (fun l => negb (oi_food_item_id (fst l) =? fid))
                   (Sql.line_views orderId d)).
  { unfold Food.delete. rewrite Hex. unfold Sql.line_views.
    cbn [food_items order_items]. apply line_views_without. }
  unfold get_orders_id, asyncHandler, get_order, bind, pool_execute,
    Sql.select, throw, ret.
  destruct (env_fault e SelectOrder); [reflexivity |].
  cbn [store initial set_store tx outbox clock_reads rng_reads].
  rewrite Hv.
  destruct (Sql.order_views orderId d) as [|view views]; [reflexivity |].
  destruct (user_type_eqb (u_user_type u) customer
            && negb (o_customer_id (fst (fst view)) =? u_id u));
    [reflexivity |].
  destruct (user_type_eqb (u_user_type u) cook).
  - destruct (env_fault e SelectCookRestaurants); [reflexivity |].
    cbn [store initial set_store tx outbox clock_reads rng_reads].
    rewrite Hr.
    destruct (Sql.restaurants_of_cook (u_id u) d) as [|r rs];
      [reflexivity |].
    destruct (negb (o_restaurant_id (fst (fst view)) =? r_id r));
      [reflexivity |].
    destruct (env_fault e SelectOrderItems); [reflexivity |].
    cbn [store initial set_store tx outbox clock_reads rng_reads].
    rewrite Hl. reflexivity.
  - destruct (env_fault e SelectOrderItems); [reflexivity |].
    cbn [store initial set_store tx outbox clock_reads rng_reads].
    rewrite Hl. reflexivity.
Qed.

(** X22. What the deletion of a food item takes with it.  After a
    successful DELETE /api/food/:id the food items, the cart entries and
    the order lines are those from before that do not refer to the item;
    users, restaurants and Order rows are unchanged.  So GET
    /api/orders/:id answers every reader as it did before the deletion,
    except that the lines of the deleted item are missing from the order,
    whose amounts still include them. *)
Theorem food_delete_cascade (fl : faults) (u : user) (fid : Z) (d : db) :
  fl SelectOwnFoodItem = None -> fl DeleteFoodItem = None ->
  u_user_type u = cook -> cooks_item u fid d ->
  let d' := store (snd (delete_food_id fl u fid (initial d))) in
  (forall f, In f (food_items d')
             <-> In f (food_items d) /\ fi_id f <> fid)
  /\ (forall ci, In ci (cart_items d')
                 <-> In ci (cart_items d) /\ ci_food_item_id ci <> fid)
  /\ (forall oi, In oi (order_items d')
                 <-> In oi (order_items d) /\ oi_food_item_id oi <> fid)
  /\ (users d', restaurants d', orders d')
     = (users d, restaurants d, orders d)
  /\ (forall e reader orderId,
        get_orders_id e reader orderId (initial d')
        = (without_item fid
             (fst (get_orders_id e reader orderId (initial d))),
           initial d')).
Proof.
  intros F1 F2 Hc Hy d'.
  assert (Hd' : d' = Food.delete fid d).
  { unfold d'. now rewrite (delete_food_id_ok fl u fid d F1 F2 Hc Hy). }
  assert (Hex := cooks_item_present u fid d Hy).
  rewrite Hd'. clear Hd' d'.
  refine (conj _ (conj _ (conj _ (conj _ _)))).
  - intros f. unfold Food.delete. rewrite Hex. cbn [food_items].
    rewrite filter_In, negb_true_iff, Z.eqb_neq. reflexivity.
  - intros ci. unfold Food.delete. rewrite Hex. cbn [cart_items].
    rewrite filter_In, negb_true_iff, Z.eqb_neq. reflexivity.
  - intros oi. unfold Food.delete. rewrite Hex. cbn [order_items].
    rewrite filter_In, negb_true_iff, Z.eqb_neq. reflexivity.
  - unfold Food.delete. rewrite Hex. reflexivity.
  - intros e reader orderId. now apply detail_after_delete.
Qed.

Lemma food_delete_cascade_witness :
  fst (get_orders_id Sample.quiet Sample.erin 1
         (initial (store (snd (delete_food_id More.calm Sample.carol 200
                                 (initial Sample.shop))))))
  = {| statusCode := 200;
       body := OrderDetails
                 (Sample.old_order,
                  {| r_id := 20; r_cook_id := 3; r_name := "Carol's";
                     r_is_active := true; r_delivery_fee := Some 0 |},
                  Sample.erin) [] |}.
Proof.
  assert (Hy : cooks_item Sample.carol 200 Sample.shop).
  { exists (Sample.food 200 20 "soup" 700 true).
    exists {| r_id := 20; r_cook_id := 3; r_name := "Carol's";
              r_is_active := true; r_delivery_fee := Some 0 |}.
    cbn. tauto. }
  destruct (food_delete_cascade More.calm Sample.carol 200 Sample.shop
              eq_refl eq_refl eq_refl Hy) as (_ & _ & _ & _ & H).
  rewrite H. reflexivity.
Defined.

(** *** The list of orders *)

Lemma in_some_page {A} (limit : Z) (rows : list A) (x : A) :
  0 < limit -> In x rows ->
  exists p, 1 <= p /\ In x (page_of limit p rows).
Proof.
  intros Hl Hin. apply In_nth_error in Hin as [n Hn].
  exists (Z.of_nat n / limit + 1). split.
  - pose proof (Z.div_pos (Z.of_nat n) limit). lia.
  - unfold page_of.
    replace (Z.of_nat n / limit + 1 - 1) with (Z.of_nat n / limit) by lia.
    pose proof (Z.div_pos (Z.of_nat n) limit ltac:(lia) Hl) as Hq.
    pose proof (Z.mul_div_le (Z.of_nat n) limit Hl) as Hle.
    pose proof (Z.mod_pos_bound (Z.of_nat n) limit Hl) as Hm.
    pose proof (Z.div_mod (Z.of_nat n) limit ltac:(lia)) as Hdm.
    set (off := Z.to_nat (Z.of_nat n / limit * limit)).
    assert (Hoff : (off <= n)%nat) by (unfold off; lia).
    apply (nth_error_In _ (n - off)).
    rewrite nth_error_firstn.
    assert (Hlt : (n - off <? Z.to_nat limit)%nat = true).
    { apply Nat.ltb_lt. unfold off. lia. }
    rewrite Hlt, nth_error_skipn.
    replace (off + (n - off))%nat with n by lia. exact Hn.
Qed.

Lemma order_rows_In (d : db) (o o' : order) (r : restaurant) (c : user) :
  In (o', r, c) (order_rows d o)
  <-> o' = o /\ In r (restaurants d) /\ r_id r = o_restaurant_id o
      /\ In c (users d) /\ u_id c = o_customer_id o.
Proof.
  unfold order_rows. rewrite in_flat_map. split.
  - intros (r' & Hr & H). apply in_map_iff in H as (c' & E & Hc).
    injection E as <- -> ->.
    apply filter_In in Hr as [Hr1 Hr2]. apply filter_In in Hc as [Hc1 Hc2].
    repeat split; try assumption; lia.
  - intros (-> & Hr & Er & Hc & Ec). exists r. split.
    + apply filter_In. split; [exact Hr | lia].
    + apply in_map_iff. exists c. split; [reflexivity |].
      apply filter_In. split; [exact Hc | lia].
Qed.

Lemma visible_to_spec (g : engine) (u : user) (d : db) (st : option string)
    (o : order) :
  visible_to g u d st o = true
  <-> listed_for u d o
      /\ match st with
         | Some s => status_matches g s (o_status o) = true
         | None => True
         end.
Proof.
  unfold visible_to, listed_for. rewrite andb_true_iff.
  assert (S : (match st with
               | Some s => status_matches g s (o_status o)
               | None => true
               end) = true
              <-> match st with
                  | Some s => status_matches g s (o_status o) = true
                  | None => True
                  end) by (destruct st; tauto).
  rewrite S. clear S.
  destruct (u_user_type u).
  - rewrite Z.eqb_eq. tauto.
  - destruct (Sql.restaurants_of_cook (u_id u) d) as [|r rs].
    + split; [intros [H _]; discriminate |].
      intros [(r' & rs' & E & _) _]. discriminate.
    + rewrite Z.eqb_eq. split.
      * intros [H Hs]. split; [now exists r, rs | exact Hs].
      * intros [(r' & rs' & E & H) Hs]. injection E as <- _. now split.
  - tauto.
Qed.

Lemma joined_rows (g : engine) (sc : scope) (st : option string) (d : db)
    (p : order -> bool) :
  (forall o, in_scope g sc st o = p o) ->
  Listing.joined g sc st d = flat_map (order_rows d) (filter p (orders d))
  /\ filter (in_scope g sc st) (orders d) = filter p (orders d).
Proof.
  intros H. unfold Listing.joined.
  rewrite (filter_ext _ _ H). split; reflexivity.
Qed.

Lemma list_orders_rest (g : engine) (fl : faults) (sc : scope)
    (st : option string) (page limit : Z) (d : db) :
  fl SelectOrderPage = None -> fl CountOrders = None ->
  0 <= limit -> 1 <= page ->
  (orders <- pool_run (fl SelectOrderPage)
     (Listing.page g sc st limit ((page - 1) * limit)) ;;
   countResult <- pool_run (fl CountOrders)
     (Sql.select (Listing.count g sc st)) ;;
   ret (OrderPage orders (hd 0 countResult) page
          (total_pages (hd 0 countResult) limit))) (initial d)
  = (Ok (OrderPage
           (firstn (Z.to_nat limit)
              (skipn (Z.to_nat ((page - 1) * limit))
                 (by_created_at_desc g (Listing.joined g sc st d))))
           (Z.of_nat (List.length (filter (in_scope g sc st) (orders d))))
           page
           (total_pages
              (Z.of_nat (List.length (filter (in_scope g sc st) (orders d))))
              limit)),
     initial d).
Proof.
  intros F1 F2 Hl Hp. rewrite F1, F2. unfold bind at 1.
  unfold pool_run at 1, Listing.page. cbn [store initial].
  assert (H1 : (0 <=? limit) = true) by lia.
  assert (H2 : (0 <=? (page - 1) * limit) = true) by nia.
  rewrite H1, H2. cbn [andb]. unfold bind. rewrite pool_run_select.
  reflexivity.
Qed.

(** X23. What GET /api/orders lists.  With the driver working, a sort
    that permutes the rows it is given, a limit of at least 0 and a page
    of at least 1, the request changes nothing and its answer is known
    exactly.  It is the short empty answer exactly when the user is a
    cook without a restaurant.  Otherwise it is the requested page of
    the sorted rows, where the rows are the orders the user may see (a
    customer's own orders, the orders of the cook's first restaurant, all
    orders for an administrator) that match the status filter when one is
    given, each joined to its restaurant and its customer; [totalCount]
    is the number of those orders, [currentPage] the page asked for and
    [totalPages] the count divided by the limit, rounded up ([null] for a
    limit of 0).  Nothing else is listed, and with a positive limit every
    such row is on some page. *)
Theorem listing_scope (g : engine) (fl : faults) (u : user) (q : list_query)
    (d : db) :
  (forall l, Permutation (by_created_at_desc g l) l) ->
  fl SelectCookRestaurant = None -> fl SelectOrderPage = None ->
  fl CountOrders = None ->
  let page := match q_page q with Some p => p | None => 1 end in
  let limit := match q_limit q with Some l => l | None => 10 end in
  let seen := filter (visible_to g u d (status_filter q)) (orders d) in
  let rows := by_created_at_desc g (flat_map (order_rows d) seen) in
  let total := Z.of_nat (List.length seen) in
  0 <= limit -> 1 <= page ->
  get_orders g fl u q (initial d)
  = (inl (if idle_cook u d then NoOrders
          else OrderPage (page_of limit page rows) total page
                         (total_pages total limit)),
     initial d)
  /\ (forall o, In o seen
                <-> In o (orders d) /\ listed_for u d o
                    /\ match status_filter q with
                       | Some s => status_matches g s (o_status o) = true
                       | None => True
                       end)
  /\ (forall o r c, In (o, r, c) rows
                    <-> In o seen
                        /\ In r (restaurants d) /\ r_id r = o_restaurant_id o
                        /\ In c (users d) /\ u_id c = o_customer_id o)
  /\ (forall x, In x (page_of limit page rows) -> In x rows)
  /\ (List.length (page_of limit page rows) <= Z.to_nat limit)%nat
  /\ (0 < limit -> forall x, In x rows ->
      exists p, 1 <= p /\ In x (page_of limit p rows)).
Proof.
  intros Hsort F0 F1 F2 page limit seen rows total Hl Hp.
  split; [| split; [| split; [| split; [| split]]]].
  - assert (Hscope : forall sc,
              (forall o, in_scope g sc (status_filter q) o
                         = visible_to g u d (status_filter q) o) ->
              (orders <- pool_run (fl SelectOrderPage)
                 (Listing.page g sc (status_filter q) limit
                    ((page - 1) * limit)) ;;
               countResult <- pool_run (fl CountOrders)
                 (Sql.select (Listing.count g sc (status_filter q))) ;;
               ret (OrderPage orders (hd 0 countResult) page
                      (total_pages (hd 0 countResult) limit))) (initial d)
              = (Ok (OrderPage (page_of limit page rows) total page
                               (total_pages total limit)), initial d)).
    { intros sc Hsc.
      rewrite (list_orders_rest g fl sc (status_filter q) page limit d
                 F1 F2 Hl Hp).
      destruct (joined_rows g sc (status_filter q) d _ Hsc) as [-> ->].
      reflexivity. }
    unfold get_orders, handled, list_orders, idle_cook.
    fold page. fold limit. cbv zeta.
    destruct (u_user_type u) eqn:Hc.
    + rewrite Hscope; [reflexivity |].
      intros o. unfold in_scope, visible_to. now rewrite Hc.
    + rewrite F0. unfold bind at 1. rewrite pool_run_select.
      cbn [store initial].
      destruct (Sql.restaurants_of_cook (u_id u) d) as [|r rs] eqn:E;
        [reflexivity |].
      rewrite Hscope; [reflexivity |].
      intros o. unfold in_scope, visible_to. now rewrite Hc, E.
    + rewrite Hscope; [reflexivity |].
      intros o. unfold in_scope, visible_to. now rewrite Hc.
  - intros o. unfold seen. rewrite filter_In, visible_to_spec. tauto.
  - intros o r c. unfold rows. split.
    + intros H. apply (Permutation_in _ (Hsort _)) in H.
      apply in_flat_map in H as (o' & Ho' & H).
      apply order_rows_In in H as (-> & H). tauto.
    + intros (Ho & H).
      apply (Permutation_in _ (Permutation_sym (Hsort _))).
      apply in_flat_map. exists o. split; [exact Ho |].
      apply order_rows_In. tauto.
  - intros x H. unfold page_of in H.
    rewrite <- (firstn_skipn (Z.to_nat ((page - 1) * limit)) rows).
    apply in_or_app. right.
    rewrite <- (firstn_skipn (Z.to_nat limit) (skipn _ rows)).
    apply in_or_app. now left.
  - apply firstn_le_length.
  - intros Hpos x Hx. now apply in_some_page.
Qed.

(** Alice sees her order and not Erin's: one row, one page; Frank, a
    cook without a restaurant, gets the short answer. *)
Lemma listing_scope_witness :
  get_orders More.plain More.calm Sample.alice More.everything
    (initial More.busy)
  = (inl (OrderPage
            [(placed_order Sample.quiet Sample.alice Sample.happy
                Sample.shop,
              {| r_id := 10; r_cook_id := 2; r_name := "Bob's";
                 r_is_active := true; r_delivery_fee := Some 250 |},
              Sample.alice)] 1 1 (Some 1)),
     initial More.busy)
  /\ get_orders More.plain More.calm More.frank More.everything
       (initial More.town)
     = (inl NoOrders, initial More.town).
Proof.
  assert (Hsort : forall l : list order_view,
            Permutation (by_created_at_desc More.plain l) l)
    by (intros l; apply Permutation_refl).
  split.
  - destruct (listing_scope More.plain More.calm Sample.alice
                More.everything More.busy Hsort eq_refl eq_refl eq_refl)
      as (H & _); [cbn; lia | cbn; lia |].
    rewrite H. vm_compute. reflexivity.
  - destruct (listing_scope More.plain More.calm More.frank
                More.everything More.town Hsort eq_refl eq_refl eq_refl)
      as (H & _); [cbn; lia | cbn; lia |].
    rewrite H. vm_compute. reflexivity.
Defined.
